(** * ConfigSetter (stephanOOP.py): a shallow embedding and its properties

    The module under study assembles an ordered environment table from
    the process environment, a configuration document and defaults, and
    writes a sourceable export file, an s3cmd configuration and two
    transfer scripts.

    Python values are embedded as follows.
    - [str] is [string]; the [str] methods the module calls
      ([replace], [startswith], [in], [split("=", 1)], [strip("\n")],
      [join]) are written out in [PyStr].
    - the configuration document and every value that may reach the
      environment table is a [pyobj] ([None], a string, a list or a
      dict with string keys, kept as an association list in iteration
      order).
    - [self.environment] is an [OrderedDict]: an association list whose
      assignment overwrites in place or appends at the end.
    - methods run in a state-and-exception monad over the table, the
      logger output and the file operations performed so far.
    - the host file system may refuse a file operation; the operation
      then raises ([IOError] for [open], [OSError] for [os.chmod]) and
      is not performed. *)

From Stdlib Require Import String Ascii List Bool Arith Lia.
Import ListNotations.
Open Scope string_scope.
Set Warnings "-register-all".

(* ================================================================== *)
(** * Python string operations *)

Module PyStr.

Definition nl : ascii := "010"%char.
Definition NL : string := String nl EmptyString.

(** [s.startswith(p)] *)
Definition startswith (s p : string) : bool := String.prefix p s.

(** [sub in s] *)
Fixpoint contains (sub s : string) : bool :=
  match s with
  | EmptyString => String.prefix sub EmptyString
  | String _ r => String.prefix sub s || contains sub r
  end.

(** [s.replace(old, new)] for a non-empty [old]: occurrences are replaced
    left to right and do not overlap.  [skip] counts the characters of a
    matched occurrence that remain to be dropped. *)
Fixpoint replace_from (old new : string) (skip : nat) (s : string) : string :=
  match s with
  | EmptyString => EmptyString
  | String c r =>
      match skip with
      | S k => replace_from old new k r
      | O =>
          if String.prefix old s
          then new ++ replace_from old new (String.length old - 1) r
          else String c (replace_from old new 0 r)
      end
  end.

Definition replace (s old new : string) : string := replace_from old new 0 s.

(** [s.split(sep, 1)] for a one-character [sep]: [None] when [sep] does
    not occur (the result then has a single element), otherwise the text
    before and after its first occurrence. *)
Fixpoint split1 (sep : ascii) (s : string) : option (string * string) :=
  match s with
  | EmptyString => None
  | String c r =>
      if Ascii.eqb c sep then Some (EmptyString, r)
      else match split1 sep r with
           | Some (a, b) => Some (String c a, b)
           | None => None
           end
  end.

(** [s.lstrip("\n")], [s.rstrip("\n")] and [s.strip("\n")] *)
Fixpoint lstrip_nl (s : string) : string :=
  match s with
  | String c r => if Ascii.eqb c nl then lstrip_nl r else s
  | EmptyString => EmptyString
  end.

Fixpoint rstrip_nl (s : string) : string :=
  match s with
  | EmptyString => EmptyString
  | String c r =>
      match rstrip_nl r with
      | EmptyString => if Ascii.eqb c nl then EmptyString else String c EmptyString
      | r' => String c r'
      end
  end.

Definition strip_nl (s : string) : string := rstrip_nl (lstrip_nl s).

(** ["\n".join(lines)] *)
Definition join_nl (lines : list string) : string := String.concat NL lines.

(** [s.split("\n")]: the lines of a text *)
Fixpoint split_nl (s : string) : list string :=
  match s with
  | EmptyString => [EmptyString]
  | String c r =>
      if Ascii.eqb c nl then EmptyString :: split_nl r
      else match split_nl r with
           | h :: t => String c h :: t
           | [] => [String c EmptyString]
           end
  end.

(** [s.endswith(p)] *)
Fixpoint endswith (s p : string) : bool :=
  match s with
  | EmptyString => String.eqb p EmptyString
  | String _ r => String.eqb s p || endswith r p
  end.

(** truth value of a string: non-empty *)
Definition truthy (s : string) : bool :=
  match s with EmptyString => false | _ => true end.

(** [c in s] for a single character *)
Fixpoint has_char (c : ascii) (s : string) : bool :=
  match s with
  | EmptyString => false
  | String a r => Ascii.eqb a c || has_char c r
  end.

(** the string has no line break *)
Definition one_line (s : string) : bool := negb (contains NL s).

End PyStr.

(* ================================================================== *)
(** * Python objects, exceptions and dictionaries *)

Inductive pyobj : Type :=
| PNone
| PStr (s : string)
| PList (l : list pyobj)
| PDict (d : list (string * pyobj)).

Inductive exn : Type :=
| AttributeError
| TypeError
| IndexError
| IOError
| OSError
| UnboundLocalError (name : string)
| SystemExit (code : nat).

Inductive result (A : Type) : Type :=
| Ok (a : A)
| Raise (e : exn).
Arguments Ok {A} a.
Arguments Raise {A} e.

Definition rbind {A B} (r : result A) (k : A -> result B) : result B :=
  match r with
  | Ok a => k a
  | Raise e => Raise e
  end.

Fixpoint assoc_get {A} (d : list (string * A)) (k : string) : option A :=
  match d with
  | [] => None
  | (k', v) :: r => if String.eqb k' k then Some v else assoc_get r k
  end.

Definition get_or {A} (d : list (string * A)) (k : string) (default : A) : A :=
  match assoc_get d k with
  | Some v => v
  | None => default
  end.

(** [o.get(k, default)]: only a dict has the method *)
Definition py_get (o : pyobj) (k : string) (default : pyobj) : result pyobj :=
  match o with
  | PDict d => Ok (get_or d k default)
  | _ => Raise AttributeError
  end.

(** [o.get(key, default)] where [key] is itself a Python value (a loop
    variable): lists and dicts are unhashable *)
Definition py_get_key (o : pyobj) (key : pyobj) (default : pyobj) : result pyobj :=
  match o with
  | PDict d =>
      match key with
      | PStr k => Ok (get_or d k default)
      | PNone => Ok default
      | _ => Raise TypeError
      end
  | _ => Raise AttributeError
  end.

(** [for x in o] *)
Definition py_iter (o : pyobj) : result (list pyobj) :=
  match o with
  | PList l => Ok l
  | PDict d => Ok (map (fun kv => PStr (fst kv)) d)
  | PStr s => Ok (map (fun c => PStr (String c EmptyString)) (list_ascii_of_string s))
  | PNone => Raise TypeError
  end.

(** the receiver of a [str] method *)
Definition as_str (o : pyobj) : result string :=
  match o with
  | PStr s => Ok s
  | _ => Raise AttributeError
  end.

(** [o != "literal"] *)
Definition py_neq_str (o : pyobj) (lit : string) : bool :=
  match o with
  | PStr s => negb (String.eqb s lit)
  | _ => true
  end.

(** [os.environ]: a mapping from names to strings *)
Definition environ := list (string * string).

(** * The OrderedDict behind [self.environment] *)

Definition odict := list (string * pyobj).

Fixpoint od_set (d : odict) (k : string) (v : pyobj) : odict :=
  match d with
  | [] => [(k, v)]
  | (k', v') :: r =>
      if String.eqb k' k then (k', v) :: r else (k', v') :: od_set r k v
  end.

Definition od_keys (d : odict) : list string := map fst d.

(** * Program state and the monad the methods run in *)

Inductive log_entry : Type :=
| Log (msg : string)
| Error (msg : string).

Inductive fs_event : Type :=
| FWrite (name content : string)
| FChmod (name : string) (mode : nat).

Record state : Type := mkState {
  environment : odict;
  logged : list log_entry;
  fs : list fs_event
}.

Definition initial_state : state := mkState [] [] [].

Definition M (A : Type) : Type := state -> result A * state.

Definition ret {A} (a : A) : M A := fun st => (Ok a, st).

Definition raise {A} (e : exn) : M A := fun st => (Raise e, st).

Definition bind {A B} (m : M A) (k : A -> M B) : M B :=
  fun st =>
    match m st with
    | (Ok a, st') => k a st'
    | (Raise e, st') => (Raise e, st')
    end.

Definition lift {A} (r : result A) : M A := fun st => (r, st).

Declare Scope py_scope.
Delimit Scope py_scope with py.
Notation "x <- m ;; k" := (bind m (fun x => k))
  (at level 61, m at next level, right associativity) : py_scope.
Notation "m ;;; k" := (bind m (fun _ => k))
  (at level 61, right associativity) : py_scope.
Notation "x <~ r ;; k" := (rbind r (fun x => k))
  (at level 61, r at next level, right associativity) : py_scope.
Open Scope py_scope.

Definition env_set (k : string) (v : pyobj) : M unit :=
  fun st => (Ok tt, mkState (od_set (environment st) k v) (logged st) (fs st)).

Definition env_get (k : string) (default : pyobj) : M pyobj :=
  fun st => (Ok (get_or (environment st) k default), st).

Definition logger_log (msg : string) : M unit :=
  fun st => (Ok tt, mkState (environment st) (logged st ++ [Log msg])%list (fs st)).

Definition logger_error (msg : string) : M unit :=
  fun st => (Ok tt, mkState (environment st) (logged st ++ [Error msg]) (fs st)).

(** A file operation can fail.  [refused done ev] tells whether the host
    file system refuses the operation [ev] once the operations [done]
    have been performed.  A refused operation raises ([open] raises
    [IOError], [os.chmod] raises [OSError]) and is not recorded; an
    accepted one is recorded in [fs]. *)
Definition refusal (ev : fs_event) : exn :=
  match ev with
  | FWrite _ _ => IOError
  | FChmod _ _ => OSError
  end.

Definition fs_do (refused : list fs_event -> fs_event -> bool) (ev : fs_event) : M unit :=
  fun st =>
    if refused (fs st) ev then (Raise (refusal ev), st)
    else (Ok tt, mkState (environment st) (logged st) (fs st ++ [ev])).

Fixpoint for_each {A} (l : list A) (body : A -> M unit) : M unit :=
  match l with
  | [] => ret tt
  | x :: r => body x ;;; for_each r body
  end.

(** the file system accepts the operations [evs], one after the other,
    once [done] have been performed *)
Fixpoint accepted (refused : list fs_event -> fs_event -> bool)
    (done evs : list fs_event) : bool :=
  match evs with
  | [] => true
  | ev :: rest => negb (refused done ev) && accepted refused (done ++ [ev]) rest
  end.

(** the inputs of one run *)
Record inputs : Type := mkInputs {
  os_environ : environ;
  module_path : string;
  home_directory : string;
  stored_config : pyobj;
  bashrc : option (list string);
  refused : list fs_event -> fs_event -> bool
}.

(** the file system of the run refuses no operation *)
Definition permissive (inp : inputs) : Prop :=
  forall done ev, refused inp done ev = false.

Definition dq : string := String "034"%char EmptyString.
Definition sq : string := "'".

Definition prerequisite_environment_variables : list string :=
  ["CB_HOST"; "CB_USER"; "CB_PASSWORD"; "CB_BUCKET";
   "C360_ENVIRONMENT"; "PROCESS_DATE"; "ENCRYPTION_KEY"].

Definition py_truthy (o : pyobj) : bool :=
  match o with
  | PNone => false
  | PStr s => PyStr.truthy s
  | PList l => match l with [] => false | _ => true end
  | PDict d => match d with [] => false | _ => true end
  end.

(** [os.environ.get(k, default)] *)
Definition environ_get (e : environ) (k : string) (default : pyobj) : pyobj :=
  match assoc_get e k with
  | Some v => PStr v
  | None => default
  end.

(** [s[n:]] *)
Fixpoint drop (n : nat) (s : string) : string :=
  match n, s with
  | S k, String _ r => drop k r
  | _, _ => s
  end.

(** [variable in [...]] *)
Definition in_list (x : string) (l : list string) : bool :=
  existsb (String.eqb x) l.

Definition mode_0700 : nat := 448.
Definition mode_0600 : nat := 384.

Definition normalize (s : string) : string :=
  PyStr.replace (PyStr.replace s "s3a:" "s3:") "s3n:" "s3:".

(** [d.get(a, {}).get(b, default)] and [d.get(a, {}).get(b, {}).get(c, default)] *)
Definition config_get2 (config : pyobj) (a b : string) (default : pyobj) : result pyobj :=
  x <~ py_get config a (PDict []) ;;
  py_get x b default.

Definition config_get3 (config : pyobj) (a b c : string) (default : pyobj) : result pyobj :=
  x <~ py_get config a (PDict []) ;;
  y <~ py_get x b (PDict []) ;;
  py_get y c default.

(** Modelled from the spec: [util.string.append], imported as [strappend].
    The module calls it on every path it stores, but its source is in
    another module of the repository.  The specification describes it as
    the pure, total operation that appends exactly one trailing separator
    when none is present. *)
Definition strappend_spec (s suffix : string) : string :=
  if PyStr.endswith s suffix then s else s ++ suffix.

(* ================================================================== *)
(** * class ConfigSetter *)

Section ConfigSetter.

(** [str(o)] of a list or dict (Python's [repr]) is left abstract. *)
Variable py_repr : pyobj -> string.

(** [util.string.append] and [shared.config.Configuration.get_local_path]
    live in other modules of the repository. *)
Variable strappend : pyobj -> string -> result pyobj.
Variable get_local_path : pyobj -> string -> result pyobj.

(** ["{}".format(o)] *)
Definition py_str (o : pyobj) : string :=
  match o with
  | PStr s => s
  | PNone => "None"
  | _ => py_repr o
  end.

(** ** check_prerequisites *)

Fixpoint check_loop (inp : inputs) (variables : list string)
    (missing_variables : nat) : M nat :=
  match variables with
  | [] => ret missing_variables
  | variable :: rest =>
      if negb (py_truthy (environ_get (os_environ inp) variable PNone))
      then
        logger_log ("Missing environment variable " ++ variable) ;;;
        check_loop inp rest (missing_variables + 1)
      else
        env_set variable (environ_get (os_environ inp) variable PNone) ;;;
        check_loop inp rest missing_variables
  end.

Definition check_prerequisites (inp : inputs) : M nat :=
  check_loop inp prerequisite_environment_variables 0.

(** ** __init__: returns [self.config] *)

Definition init (inp : inputs) : M pyobj :=
  env_set "PYTHONIOENCODING" (PStr "utf8") ;;;
  path <- lift (as_str (environ_get (os_environ inp) "PATH" (PStr ""))) ;;
  (if negb (PyStr.contains (module_path inp) path)
   then env_set "PATH" (PStr ("${PATH}:" ++ module_path inp))
   else ret tt) ;;;
  missing <- check_prerequisites inp ;;
  if (0 <? missing)%nat then raise (SystemExit 1)
  else ret (stored_config inp).

(** ** write_config *)

Definition export_line (variable : string) (value : pyobj) : string :=
  let quotes :=
    if in_list variable ["CB_PASSWORD"; "ENCRYPTION_KEY"] then sq else dq in
  "export " ++ variable ++ "=" ++ quotes ++ py_str value ++ quotes ++ PyStr.NL.

Definition config_text (env : odict) : string :=
  String.concat ""
    (map (fun variable => export_line variable (get_or env variable (PStr "")))
         (od_keys env)).

Definition write_config (inp : inputs) : M unit :=
  fun st =>
    (fs_do (refused inp) (FWrite (home_directory inp ++ "/.c360cfg")
                   (config_text (environment st))) ;;;
     logger_log "environment written to ~/.c360cfg") st.

(** ** write_s3_config *)

Definition write_s3_config (inp : inputs) : M unit :=
  raw <- env_get "S3_ENDPOINT" (PStr "") ;;
  endpoint <- lift (as_str raw) ;;
  let endpoint :=
    if PyStr.startswith endpoint "https://" then drop 8 endpoint
    else if PyStr.startswith endpoint "http://" then drop 7 endpoint
    else endpoint in
  access <- env_get "S3_ACCESSKEY" (PStr "") ;;
  secret <- env_get "S3_SECRETKEY" (PStr "ignored") ;;
  let config_lines :=
    ["[default]";
     "host_base = " ++ endpoint;
     "host_bucket = " ++ endpoint;
     "access_key = " ++ py_str access;
     "secret_key = " ++ py_str secret;
     "use_https = true";
     "signature_v2 = false";
     "enable_multipart = false"] in
  fs_do (refused inp)
        (FWrite (home_directory inp ++ "/.s3cfg") (PyStr.join_nl config_lines)).

(** ** write_ssh_key *)

Definition write_ssh_key (inp : inputs) (config : pyobj) : M unit :=
  ssh_keys <- lift (config_get2 config "general" "ssh" (PDict [])) ;;
  keys <- lift (py_iter ssh_keys) ;;
  for_each keys (fun key =>
    entry <- lift (py_get_key ssh_keys key (PDict [])) ;;
    key_value <- lift (py_get entry "key" PNone) ;;
    entry' <- lift (py_get_key ssh_keys key (PDict [])) ;;
    filename <- lift (py_get entry' "filename" PNone) ;;
    let file_name := home_directory inp ++ "/.ssh/" ++ py_str filename in
    fs_do (refused inp) (FWrite file_name (py_str key_value ++ PyStr.NL)) ;;;
    fs_do (refused inp) (FChmod file_name mode_0600)).

(** ** write_transfer_script *)

Definition identifier_filename : string := "identifier.parquet".

Definition final_documents : list string :=
  ["person.json"; "organization.json"; "index.json"; "event.json"].

Definition is_remote (path : string) : bool := PyStr.startswith path "s3".

Definition shebang : string := "#!/bin/bash".

Definition mkdir_line (temporary_path : string) : string :=
  "mkdir -p " ++ temporary_path ++ "raw " ++ temporary_path ++ "parquet "
  ++ temporary_path ++ "json".

Definition index_download (temporary_path intermediate_path : string) : list string :=
  ["[ -d " ++ dq ++ temporary_path ++ "parquet/" ++ dq ++ " ] && cd "
     ++ temporary_path ++ "parquet/ && pwd";
   "s3cmd get --force " ++ intermediate_path ++ identifier_filename ++ ".tgz "
     ++ identifier_filename ++ ".tgz";
   "[ -s " ++ dq ++ identifier_filename ++ ".tgz" ++ dq ++ " ] && tar -xzf "
     ++ identifier_filename ++ ".tgz";
   "[ -s " ++ dq ++ identifier_filename ++ ".tgz" ++ dq ++ " ] && rm "
     ++ identifier_filename ++ ".tgz"].

Definition archive_line (name : string) : string :=
  "[ -d " ++ dq ++ name ++ dq ++ " ] && tar -czf " ++ name ++ ".tgz " ++ name.

Definition put_line (remote_path name : string) : string :=
  "[ -s " ++ dq ++ name ++ ".tgz" ++ dq ++ " ] && s3cmd put " ++ name ++ ".tgz "
  ++ remote_path ++ name ++ ".tgz".

Definition index_upload (temporary_path intermediate_path : string) : list string :=
  ["[ -d " ++ dq ++ temporary_path ++ "parquet" ++ dq ++ " ] && cd "
     ++ temporary_path ++ "parquet";
   archive_line identifier_filename;
   put_line intermediate_path identifier_filename].

Definition raw_cd_line (temporary_path : string) : string :=
  "[ -d " ++ dq ++ temporary_path ++ "raw" ++ dq ++ " ] && cd "
  ++ temporary_path ++ "raw && pwd".

Definition fetch_command (source_path : string) (file_name : pyobj) : string :=
  "s3cmd get --force " ++ source_path ++ py_str file_name ++ " " ++ py_str file_name.

(** the argument of one [download_lines.append]: the joined fetch
    commands of a [sourceFiles] value *)
Definition fetch_block (source_path : string) (holder : pyobj) : result string :=
  files <~ py_get holder "sourceFiles" (PList []) ;;
  names <~ py_iter files ;;
  Ok (PyStr.join_nl (map (fetch_command source_path) names)).

Fixpoint kpi_blocks (source_path : string) (kpis : list pyobj) : result (list string) :=
  match kpis with
  | [] => Ok []
  | kpi :: rest =>
      block <~ fetch_block source_path kpi ;;
      more <~ kpi_blocks source_path rest ;;
      Ok (block :: more)
  end.

Fixpoint entity_blocks (source_path : string) (entities : pyobj)
    (names : list pyobj) : result (list string) :=
  match names with
  | [] => Ok []
  | entity :: rest =>
      here <~ (if py_neq_str entity "kpis"
               then
                 holder <~ py_get_key entities entity (PDict []) ;;
                 block <~ fetch_block source_path holder ;;
                 Ok [block]
               else
                 group <~ py_get_key entities entity (PDict []) ;;
                 kpis <~ py_iter group ;;
                 kpi_blocks source_path kpis) ;;
      more <~ entity_blocks source_path entities rest ;;
      Ok (here ++ more)%list
  end.

Definition source_download (temporary_path source_path : string)
    (entities : pyobj) : result (list string) :=
  names <~ py_iter entities ;;
  blocks <~ entity_blocks source_path entities names ;;
  Ok (raw_cd_line temporary_path :: blocks).

Definition json_cd_line (temporary_path : string) : string :=
  "cd " ++ temporary_path ++ "json || (echo " ++ dq ++ "Cannot find "
  ++ temporary_path ++ " for uploading final documents." ++ dq ++ "; exit 1)".

Definition target_upload (temporary_path target_path : string) : list string :=
  json_cd_line temporary_path
  :: flat_map (fun document => [archive_line document; put_line target_path document])
       final_documents.

Definition download_lines (temporary_path source_path intermediate_path : string)
    (entities : pyobj) : result (list string) :=
  let lines := [shebang; mkdir_line temporary_path] in
  let lines :=
    if is_remote intermediate_path
    then (lines ++ index_download temporary_path intermediate_path)%list
    else lines in
  if is_remote source_path
  then
    src <~ source_download temporary_path source_path entities ;;
    Ok (lines ++ src)%list
  else Ok lines.

Definition upload_lines (temporary_path intermediate_path target_path : string)
    : list string :=
  let lines := [shebang] in
  let lines :=
    if is_remote intermediate_path
    then (lines ++ index_upload temporary_path intermediate_path)%list
    else lines in
  if is_remote target_path
  then (lines ++ target_upload temporary_path target_path)%list
  else lines.

Definition environment_path (key : string) : M string :=
  raw <- env_get key (PStr "/nfsmount/") ;;
  path <- lift (as_str raw) ;;
  ret (normalize path).

Definition write_to_file (inp : inputs) (file_name : string) (lines : list string)
    : M unit :=
  fs_do (refused inp) (FWrite file_name (PyStr.join_nl lines)) ;;;
  fs_do (refused inp) (FChmod file_name mode_0700).

Definition write_transfer_script (inp : inputs) (config : pyobj) : M unit :=
  entities <- lift (config_get2 config "processing" "entities" (PDict [])) ;;
  temporary_path <- environment_path "C360_TEMP_PATH" ;;
  source_path <- environment_path "C360_SOURCE_PATH" ;;
  intermediate_path <- environment_path "C360_INTERMEDIATE_PATH" ;;
  target_path <- environment_path "C360_TARGET_PATH" ;;
  download <- lift (download_lines temporary_path source_path intermediate_path entities) ;;
  let upload := upload_lines temporary_path intermediate_path target_path in
  write_to_file inp (home_directory inp ++ "/download_files.sh") download ;;;
  write_to_file inp (home_directory inp ++ "/upload_files.sh") upload.

(** ** assemble_environment *)

(** the three locals of the .bashrc scan; [spark_master] is bound only
    once a line assigns it *)
Record spark_locals : Type := mkLocals {
  spark_host : string;
  spark_port : string;
  spark_master : option string
}.

(** [line.split("=", 1)[1].strip("\n")] *)
Definition assigned_value (line : string) : result string :=
  match PyStr.split1 "="%char line with
  | Some (_, v) => Ok (PyStr.strip_nl v)
  | None => Raise IndexError
  end.

Definition scan_line (loc : spark_locals) (line : string) : result spark_locals :=
  loc <~ (if PyStr.contains "SPARK_MASTER_HOST=" line
          then v <~ assigned_value line ;;
               Ok (mkLocals v (spark_port loc) (spark_master loc))
          else Ok loc) ;;
  loc <~ (if PyStr.contains "SPARK_MASTER_PORT=" line
          then v <~ assigned_value line ;;
               Ok (mkLocals (spark_host loc) v (spark_master loc))
          else Ok loc) ;;
  if PyStr.contains "SPARK_MASTER=" line
  then v <~ assigned_value line ;;
       Ok (mkLocals (spark_host loc) (spark_port loc) (Some v))
  else Ok loc.

Fixpoint scan_lines (loc : spark_locals) (lines : list string) : result spark_locals :=
  match lines with
  | [] => Ok loc
  | line :: rest => loc' <~ scan_line loc line ;; scan_lines loc' rest
  end.

Definition resolve_master (loc : spark_locals) : M string :=
  match spark_master loc with
  | None => raise (UnboundLocalError "spark_master")
  | Some master =>
      if PyStr.truthy master && negb (PyStr.contains "$" master)
      then
        ret (PyStr.replace
               (PyStr.replace master "$SPARK_MASTER_HOST" (spark_host loc))
               "$SPARK_MASTER_PORT" (spark_port loc))
      else if PyStr.truthy (spark_host loc) && PyStr.truthy (spark_port loc)
      then ret ("spark://" ++ spark_host loc ++ ":" ++ spark_port loc)
      else
        logger_log ("spark host: " ++ spark_host loc) ;;;
        logger_log ("spark port: " ++ spark_port loc) ;;;
        logger_log ("spark master: " ++ master) ;;;
        logger_error "Cannot build spark master." ;;;
        ret master
  end.

Definition discover_master (inp : inputs) : M string :=
  match bashrc inp with
  | None => raise IOError
  | Some lines =>
      loc <- lift (scan_lines (mkLocals "" "" None) lines) ;;
      resolve_master loc
  end.

(** [self.environment[key] = os.environ.get(key, <store lookup>)]: the
    store lookup is an argument, hence evaluated first *)
Definition set_from (inp : inputs) (key : string) (stored : result pyobj) : M unit :=
  fallback <- lift stored ;;
  env_set key (environ_get (os_environ inp) key fallback).

Definition set_path (key : string) (stored : result pyobj) : M unit :=
  value <- lift stored ;;
  path <- lift (strappend value "/") ;;
  env_set key path.

Definition assemble_environment (inp : inputs) (config : pyobj) : M unit :=
  master <- discover_master inp ;;
  env_set "SPARK_MASTER" (PStr master) ;;;
  set_from inp "C360_CLIENT"
    (config_get2 config "general" "client"
       (environ_get (os_environ inp) "C360_ENVIRONMENT" (PStr ""))) ;;;
  set_from inp "CB_DATA_BUCKET"
    (config_get3 config "general" "couchbase" "bucket" (PStr "c360")) ;;;
  set_from inp "CB_INDEX_BUCKET"
    (config_get3 config "general" "couchbase" "index" (PStr "c360")) ;;;
  set_from inp "CB_STATISTICS_BUCKET"
    (config_get3 config "general" "couchbase" "statistics" (PStr "c360_statistics")) ;;;
  set_from inp "S3_ENDPOINT"
    (config_get3 config "general" "s3" "endpoint" (PStr "")) ;;;
  set_from inp "S3_ACCESSKEY"
    (config_get3 config "general" "s3" "accesskey" (PStr "")) ;;;
  set_from inp "S3_SECRETKEY"
    (config_get3 config "general" "s3" "secretkey" (PStr "ignored")) ;;;
  set_path "C360_SOURCE_PATH"
    (config_get3 config "processing" "paths" "source" (PDict [])) ;;;
  set_path "C360_INTERMEDIATE_PATH"
    (config_get3 config "processing" "paths" "intermediate" (PDict [])) ;;;
  set_path "C360_TARGET_PATH"
    (config_get3 config "processing" "paths" "final" (PStr "")) ;;;
  set_path "C360_TEMP_PATH"
    (config_get3 config "processing" "internal" "temporary" (PStr "")) ;;;
  set_path "C360_LOCAL_SOURCE_PATH"
    (processing <~ py_get config "processing" (PDict []) ;;
     get_local_path processing "source") ;;;
  set_path "C360_LOCAL_INTERMEDIATE_PATH"
    (processing <~ py_get config "processing" (PDict []) ;;
     get_local_path processing "intermediate") ;;;
  set_path "C360_LOCAL_TARGET_PATH"
    (processing <~ py_get config "processing" (PDict []) ;;
     get_local_path processing "final").

(** ** set_config and main *)

Definition set_config (inp : inputs) (config : pyobj) : M unit :=
  assemble_environment inp config ;;;
  write_config inp ;;;
  write_s3_config inp ;;;
  write_transfer_script inp config ;;;
  write_ssh_key inp config.

Definition main (inp : inputs) : M unit :=
  config <- init inp ;;
  set_config inp config.

(** the exit status of the process: 0 on normal termination, the code of
    [sys.exit], 1 for an uncaught exception *)
Definition exit_status (r : result unit) : nat :=
  match r with
  | Ok _ => 0
  | Raise (SystemExit code) => code
  | Raise _ => 1
  end.

Definition run (inp : inputs) : result unit * state := main inp initial_state.

(** ** Pure views of the methods, used to state their properties *)

(** the normalized path [write_transfer_script] reads from the table *)
Definition table_path (env : odict) (key : string) : result string :=
  path <~ as_str (get_or env key (PStr "/nfsmount/")) ;;
  Ok (normalize path).

(** the two line lists [write_transfer_script] hands to [write_to_file] *)
Definition transfer_scripts (env : odict) (config : pyobj)
    : result (list string * list string) :=
  entities <~ config_get2 config "processing" "entities" (PDict []) ;;
  temporary_path <~ table_path env "C360_TEMP_PATH" ;;
  source_path <~ table_path env "C360_SOURCE_PATH" ;;
  intermediate_path <~ table_path env "C360_INTERMEDIATE_PATH" ;;
  target_path <~ table_path env "C360_TARGET_PATH" ;;
  download <~ download_lines temporary_path source_path intermediate_path entities ;;
  Ok (download, upload_lines temporary_path intermediate_path target_path).

End ConfigSetter.

(** the lines of the file [write_to_file] produces *)
Definition script_lines (lines : list string) : list string :=
  PyStr.split_nl (PyStr.join_nl lines).

(** the four file operations of [write_transfer_script], in the order
    of the two [write_to_file] calls *)
Definition script_events (home : string) (download upload : list string)
    : list fs_event :=
  [FWrite (home ++ "/download_files.sh") (PyStr.join_nl download);
   FChmod (home ++ "/download_files.sh") mode_0700;
   FWrite (home ++ "/upload_files.sh") (PyStr.join_nl upload);
   FChmod (home ++ "/upload_files.sh") mode_0700].

(** a command line that begins with an existence guard *)
Definition guarded (line : string) : bool :=
  PyStr.startswith line "[ -d " || PyStr.startswith line "[ -s ".

(** a command line that fetches from the object store *)
Definition is_fetch (line : string) : bool := PyStr.startswith line "s3cmd get ".

(** a prerequisite variable the check treats as missing *)
Definition is_missing (e : environ) (variable : string) : bool :=
  negb (py_truthy (environ_get e variable PNone)).

(** a variable that is not in the process environment at all *)
Definition is_unset (e : environ) (variable : string) : bool :=
  match assoc_get e variable with
  | Some _ => false
  | None => true
  end.

(** the table after the present variables of [variables] were copied *)
Fixpoint copy_present (e : environ) (variables : list string) (env : odict) : odict :=
  match variables with
  | [] => env
  | variable :: rest =>
      if is_missing e variable then copy_present e rest env
      else copy_present e rest (od_set env variable (environ_get e variable PNone))
  end.

Definition missing_message (variable : string) : log_entry :=
  Log ("Missing environment variable " ++ variable).

(** [os.environ] with one variable removed *)
Definition unset (e : environ) (variable : string) : environ :=
  filter (fun kv => negb (String.eqb (fst kv) variable)) e.

Definition with_environ (inp : inputs) (e : environ) : inputs :=
  mkInputs e (module_path inp) (home_directory inp) (stored_config inp) (bashrc inp)
           (refused inp).

(** ** The shapes of an entity catalog

    [holds_files o files]: [o] is a dict whose [sourceFiles] entry is the
    list of names [files].  [shaped entries leaves]: every entry other
    than ["kpis"] holds its files directly, ["kpis"] is a list of such
    holders; [leaves] are the file names in iteration order. *)

Definition holds_files (o : pyobj) (files : list string) : Prop :=
  exists d, o = PDict d /\ assoc_get d "sourceFiles" = Some (PList (map PStr files)).

Inductive shaped : list (string * pyobj) -> list string -> Prop :=
| shaped_nil : shaped [] []
| shaped_flat name o files rest leaves :
    name <> "kpis" ->
    holds_files o files ->
    shaped rest leaves ->
    shaped ((name, o) :: rest) (files ++ leaves)%list
| shaped_kpis subs groups rest leaves :
    Forall2 holds_files subs groups ->
    shaped rest leaves ->
    shaped (("kpis", PList subs) :: rest) (concat groups ++ leaves)%list.

(** the text a POSIX shell reads back from a single-quoted word that
    follows the first [=] of a line: everything up to the next quote *)
Fixpoint until_quote (s : string) : option string :=
  match s with
  | EmptyString => None
  | String c r =>
      if Ascii.eqb c "'"%char then Some EmptyString
      else match until_quote r with
           | Some v => Some (String c v)
           | None => None
           end
  end.

Definition read_single_quoted (line : string) : option string :=
  match PyStr.split1 "="%char line with
  | Some (_, String q rest) =>
      if Ascii.eqb q "'"%char then until_quote rest else None
  | _ => None
  end.

(** the quote [write_config] puts around the value of a variable, and
    the export line without its line break *)
Definition quote_of (variable : string) : string :=
  if in_list variable ["CB_PASSWORD"; "ENCRYPTION_KEY"] then sq else dq.

Definition export_body (py_repr : pyobj -> string) (kv : string * pyobj) : string :=
  "export " ++ fst kv ++ "=" ++ quote_of (fst kv) ++ py_str py_repr (snd kv)
  ++ quote_of (fst kv).

(** the fetch command of a file name, and of the identifier archive *)
Definition fetch_line (source_path file_name : string) : string :=
  "s3cmd get --force " ++ source_path ++ file_name ++ " " ++ file_name.

Definition index_fetch_line (intermediate_path : string) : string :=
  "s3cmd get --force " ++ intermediate_path ++ "identifier.parquet.tgz "
  ++ "identifier.parquet.tgz".

(** the lines the joined blocks of the entity loop contribute *)
Definition block_lines (blocks : list string) : list string :=
  concat (map PyStr.split_nl blocks).

(** what the lines of the entity loop are for the leaves of a catalog:
    the fetch lines are the fetch commands of the leaves, in order, and
    every other line is empty *)
Definition fetches (sp : string) (leaves lines : list string) : Prop :=
  filter is_fetch lines = map (fetch_line sp) leaves
  /\ Forall (fun l => l = "" \/ is_fetch l = true) lines.

(* ================================================================== *)
(** * Concrete runs *)

(** an instance of the abstract operations, for evaluating runs:
    [strappend_on_str] applies [strappend_spec] to a string *)
Definition repr_opaque (o : pyobj) : string := "<object>".

Definition strappend_on_str (o : pyobj) (suffix : string) : result pyobj :=
  match o with
  | PStr s => Ok (PStr (strappend_spec s suffix))
  | _ => Raise TypeError
  end.

Definition local_path_under_mount (processing : pyobj) (kind : string) : result pyobj :=
  Ok (PStr ("/nfsmount/" ++ kind)).

Definition line (s : string) : string := s ++ PyStr.NL.

(** a file system that refuses no operation *)
Definition accepts_all (done : list fs_event) (ev : fs_event) : bool := false.

Definition full_environ : environ :=
  [("CB_HOST", "cb.example.org"); ("CB_USER", "loader"); ("CB_PASSWORD", "pass word");
   ("CB_BUCKET", "c360"); ("C360_ENVIRONMENT", "dev"); ("PROCESS_DATE", "2020-01-31");
   ("ENCRYPTION_KEY", "k3y"); ("PATH", "/usr/bin")].

(** every mandatory variable is present, [CB_HOST] with an empty value *)
Definition empty_host_environ : environ :=
  [("CB_HOST", ""); ("CB_USER", "loader"); ("CB_PASSWORD", "pass word");
   ("CB_BUCKET", "c360"); ("C360_ENVIRONMENT", "dev"); ("PROCESS_DATE", "2020-01-31");
   ("ENCRYPTION_KEY", "k3y"); ("PATH", "/usr/bin")].

Definition plain_config : pyobj :=
  PDict [("processing",
          PDict [("paths", PDict [("source", PStr "/nfsmount/source");
                                  ("intermediate", PStr "/nfsmount/intermediate");
                                  ("final", PStr "/nfsmount/final")]);
                 ("internal", PDict [("temporary", PStr "/nfsmount/tmp")])])].

Definition plain_bashrc : list string :=
  [line "export SPARK_MASTER_HOST=node1";
   line "export SPARK_MASTER_PORT=7077";
   line "export SPARK_MASTER=spark://node1:7077"].

Definition empty_host_input : inputs :=
  mkInputs empty_host_environ "/opt/c360" "/home/loader" plain_config (Some plain_bashrc)
           accepts_all.

Definition secret_table : odict :=
  [("CB_HOST", PStr "cb.example.org"); ("CB_PASSWORD", PStr "pass word");
   ("ENCRYPTION_KEY", PStr "k3y with space")].

Definition secret_state : state := mkState secret_table [] [].

(** a secret with a single quote and a space, and a value of two lines *)
Definition quoted_secret_table : odict :=
  [("CB_PASSWORD", PStr "it's a secret"); ("NOTE", PStr (line "first" ++ "second"))].

Definition quoted_secret_state : state := mkState quoted_secret_table [] [].

(** the host file of a stand-alone master: host and port, no
    [SPARK_MASTER] line *)
Definition host_port_bashrc : list string :=
  [line "SPARK_MASTER_HOST=node1"; line "SPARK_MASTER_PORT=7077"].

Definition host_port_input : inputs :=
  mkInputs full_environ "/opt/c360" "/home/loader" plain_config (Some host_port_bashrc)
           accepts_all.

(** the same host file without the host line *)
Definition port_only_input : inputs :=
  mkInputs full_environ "/opt/c360" "/home/loader" plain_config
           (Some [line "SPARK_MASTER_PORT=7077"])
           accepts_all.

(** a master address written with the two placeholders *)
Definition placeholder_master : string :=
  "mesos://$SPARK_MASTER_HOST:$SPARK_MASTER_PORT".

Definition placeholder_bashrc : list string :=
  [line "SPARK_MASTER_HOST=node1"; line "SPARK_MASTER_PORT=7077";
   line ("SPARK_MASTER=" ++ placeholder_master)].

Definition placeholder_input : inputs :=
  mkInputs full_environ "/opt/c360" "/home/loader" plain_config (Some placeholder_bashrc)
           accepts_all.

(** a master address that refers to the host, which is assigned, and
    spells the port out *)
Definition host_placeholder_master : string := "spark://$SPARK_MASTER_HOST:7077".

Definition host_placeholder_input : inputs :=
  mkInputs full_environ "/opt/c360" "/home/loader" plain_config
           (Some [line "SPARK_MASTER_HOST=node1";
                  line ("SPARK_MASTER=" ++ host_placeholder_master)])
           accepts_all.

(** the source path and the client are set in the process environment
    and in the configuration store *)
Definition precedence_environ : environ :=
  (full_environ ++ [("C360_CLIENT", "client-from-env");
                    ("C360_SOURCE_PATH", "/data/from-env/")])%list.

Definition precedence_config : pyobj :=
  PDict [("general", PDict [("client", PStr "client-from-store")]);
         ("processing",
          PDict [("paths", PDict [("source", PStr "s3://bucket/from-store");
                                  ("intermediate", PStr "/nfsmount/intermediate");
                                  ("final", PStr "/nfsmount/final")]);
                 ("internal", PDict [("temporary", PStr "/nfsmount/tmp")])])].

Definition precedence_input : inputs :=
  mkInputs precedence_environ "/opt/c360" "/home/loader" precedence_config
           (Some plain_bashrc)
           accepts_all.

(** a table whose source, intermediate and target paths are remote, and
    a catalog that mixes two flat entities with the nested [kpis] *)
Definition remote_table : odict :=
  [("C360_SOURCE_PATH", PStr "s3a://bucket/in/");
   ("C360_INTERMEDIATE_PATH", PStr "s3n://bucket/mid/");
   ("C360_TARGET_PATH", PStr "s3://bucket/out/");
   ("C360_TEMP_PATH", PStr "/nfsmount/tmp/")].

Definition files_holder (files : list string) : pyobj :=
  PDict [("description", PStr "source data"); ("sourceFiles", PList (map PStr files))].

Definition mixed_catalog : list (string * pyobj) :=
  [("person", files_holder ["person_a.csv"; "person_b.csv"]);
   ("kpis", PList [files_holder ["kpi_x.csv"]; files_holder [];
                   files_holder ["kpi_y.csv"; "kpi_z.csv"]]);
   ("organization", files_holder ["organization.csv"])].

Definition mixed_config : pyobj :=
  PDict [("processing", PDict [("entities", PDict mixed_catalog)])].

Definition remote_state : state := mkState remote_table [] [].

(** one entity with one source file, whose name has a line break *)
Definition split_leaf : string := line "x" ++ "s3cmd get y".

Definition split_leaf_catalog : list (string * pyobj) :=
  [("person", files_holder [split_leaf])].

Definition split_leaf_config : pyobj :=
  PDict [("processing", PDict [("entities", PDict split_leaf_catalog)])].

(** the same catalog with a local source path *)
Definition local_source_table : odict :=
  [("C360_SOURCE_PATH", PStr "/nfsmount/in/");
   ("C360_INTERMEDIATE_PATH", PStr "s3n://bucket/mid/");
   ("C360_TARGET_PATH", PStr "s3://bucket/out/");
   ("C360_TEMP_PATH", PStr "/nfsmount/tmp/")].

Definition local_source_state : state := mkState local_source_table [] [].

(** only the temporary path is remote *)
Definition remote_temp_table : odict :=
  [("C360_SOURCE_PATH", PStr "/nfsmount/in/");
   ("C360_INTERMEDIATE_PATH", PStr "/nfsmount/mid/");
   ("C360_TARGET_PATH", PStr "/nfsmount/out/");
   ("C360_TEMP_PATH", PStr "s3a://bucket/tmp/")].

(** every path is local *)
Definition local_table : odict :=
  [("C360_SOURCE_PATH", PStr "/nfsmount/in/");
   ("C360_INTERMEDIATE_PATH", PStr "/nfsmount/mid/");
   ("C360_TARGET_PATH", PStr "/nfsmount/out/");
   ("C360_TEMP_PATH", PStr "/nfsmount/tmp/")].

Definition mixed_leaves : list string :=
  (["person_a.csv"; "person_b.csv"]
   ++ concat [["kpi_x.csv"]; []; ["kpi_y.csv"; "kpi_z.csv"]]
   ++ ["organization.csv"] ++ [])%list.

(* ================================================================== *)
(** * Vocabulary for the properties of the remaining methods *)

(** [preserves R m]: whatever the outcome of [m], the state it leaves is
    related by [R] to the state it started from *)
Definition preserves {A} (R : state -> state -> Prop) (m : M A) : Prop :=
  forall st, R st (snd (m st)).

Definition same_fs (s s' : state) : Prop := fs s' = fs s.


Definition same_log (s s' : state) : Prop := logged s' = logged s.

(** file events are only appended *)
Definition grows_fs (s s' : state) : Prop :=
  exists rest, fs s' = (fs s ++ rest)%list.

(** no table key outside [keys] changes *)
Definition same_outside (keys : list string) (s s' : state) : Prop :=
  forall k, ~ In k keys -> assoc_get (environment s') k = assoc_get (environment s) k.


(** the file an event touches *)
Definition event_name (ev : fs_event) : string :=
  match ev with
  | FWrite name _ => name
  | FChmod name _ => name
  end.

(** only files under [dir] are touched, and only by appended events;
    table and log stay as they are *)
Definition writes_under (dir : string) (s s' : state) : Prop :=
  environment s' = environment s /\ logged s' = logged s
  /\ exists rest, fs s' = (fs s ++ rest)%list
                  /\ Forall (fun ev => PyStr.startswith (event_name ev) dir = true) rest.


(** the keys [assemble_environment] assigns, in assignment order *)
Definition assembled_keys : list string :=
  ["SPARK_MASTER"; "C360_CLIENT"; "CB_DATA_BUCKET"; "CB_INDEX_BUCKET";
   "CB_STATISTICS_BUCKET"; "S3_ENDPOINT"; "S3_ACCESSKEY"; "S3_SECRETKEY";
   "C360_SOURCE_PATH"; "C360_INTERMEDIATE_PATH"; "C360_TARGET_PATH";
   "C360_TEMP_PATH"; "C360_LOCAL_SOURCE_PATH"; "C360_LOCAL_INTERMEDIATE_PATH";
   "C360_LOCAL_TARGET_PATH"].

(** the derived keys that are read through [os.environ.get] *)
Definition environ_first_keys : list string :=
  ["C360_CLIENT"; "CB_DATA_BUCKET"; "CB_INDEX_BUCKET"; "CB_STATISTICS_BUCKET";
   "S3_ENDPOINT"; "S3_ACCESSKEY"; "S3_SECRETKEY"].

(** the derived keys that are computed from the store and [strappend] *)
Definition store_path_keys : list string :=
  ["C360_SOURCE_PATH"; "C360_INTERMEDIATE_PATH"; "C360_TARGET_PATH"; "C360_TEMP_PATH"].

(** the three assignments the .bashrc scan looks for *)
Inductive field : Type := FHost | FPort | FMaster.

Definition field_pattern (f : field) : string :=
  match f with
  | FHost => "SPARK_MASTER_HOST="
  | FPort => "SPARK_MASTER_PORT="
  | FMaster => "SPARK_MASTER="
  end.

(** the value of the local that belongs to a field, when it is bound *)
Definition field_value (f : field) (loc : spark_locals) : option string :=
  match f with
  | FHost => Some (spark_host loc)
  | FPort => Some (spark_port loc)
  | FMaster => spark_master loc
  end.

(** the two files of one entry of the [ssh] section *)
Definition ssh_key_events (py_repr : pyobj -> string) (home : string)
    (entry : pyobj) : list fs_event :=
  match entry with
  | PDict d =>
      let file_name := home ++ "/.ssh/" ++ py_str py_repr (get_or d "filename" PNone) in
      [FWrite file_name (py_str py_repr (get_or d "key" PNone) ++ PyStr.NL);
       FChmod file_name mode_0600]
  | _ => []
  end.

(** the last character of a string *)
Fixpoint last_char (s : string) : option ascii :=
  match s with
  | EmptyString => None
  | String c EmptyString => Some c
  | String _ r => last_char r
  end.

(** ** Concrete inputs for the further properties *)

Definition s3_state : state :=
  mkState [("S3_ENDPOINT", PStr "http://s3.example.org");
           ("S3_ACCESSKEY", PStr "access"); ("S3_SECRETKEY", PStr "secret")] [] [].

(** the store held a null endpoint *)
Definition null_endpoint_state : state :=
  mkState [("S3_ENDPOINT", PNone)] [] [].

Definition ssh_section : list (string * pyobj) :=
  [("deploy", PDict [("key", PStr "DEPLOY-KEY"); ("filename", PStr "id_deploy")]);
   ("backup", PDict [("key", PStr "BACKUP-KEY")])].

Definition ssh_config : pyobj :=
  PDict [("general", PDict [("ssh", PDict ssh_section)])].

(** the store of [precedence_input], read with another process
    environment and host file *)
Definition store_only_input : inputs :=
  mkInputs full_environ "/opt/c360" "/home/loader" precedence_config
           (Some [line "SPARK_MASTER=yarn"])
           accepts_all.

(** no [general] section in the store, no [C360_CLIENT] in the process
    environment *)
Definition plain_input : inputs :=
  mkInputs full_environ "/opt/c360" "/home/loader" plain_config (Some plain_bashrc)
           accepts_all.

(** the [general] section is a string *)
Definition broken_general_config : pyobj :=
  PDict [("general", PStr "n/a")].

(** a host without the directory [~/.ssh]: every write below it is
    refused *)
Definition refuses_ssh (done : list fs_event) (ev : fs_event) : bool :=
  match ev with
  | FWrite name _ => PyStr.startswith name "/home/loader/.ssh/"
  | FChmod _ _ => false
  end.

Definition no_ssh_directory_input : inputs :=
  mkInputs full_environ "/opt/c360" "/home/loader" plain_config (Some plain_bashrc)
           refuses_ssh.

(** a host on which [upload_files.sh] cannot be opened for writing *)
Definition refuses_upload (done : list fs_event) (ev : fs_event) : bool :=
  match ev with
  | FWrite name _ => String.eqb name "/home/loader/upload_files.sh"
  | FChmod _ _ => false
  end.

Definition upload_refused_input : inputs :=
  mkInputs full_environ "/opt/c360" "/home/loader" plain_config (Some plain_bashrc)
           refuses_upload.

(** the store of [plain_input] with the [ssh] section *)
Definition keyed_config : pyobj :=
  PDict [("general", PDict [("ssh", PDict ssh_section)]);
         ("processing",
          PDict [("paths", PDict [("source", PStr "/nfsmount/source");
                                  ("intermediate", PStr "/nfsmount/intermediate");
                                  ("final", PStr "/nfsmount/final")]);
                 ("internal", PDict [("temporary", PStr "/nfsmount/tmp")])])].

(** the same store with an entry of the [ssh] section that is a string *)
Definition broken_ssh_config : pyobj :=
  PDict [("general", PDict [("ssh", PDict [("deploy", PStr "DEPLOY-KEY")])]);
         ("processing",
          PDict [("paths", PDict [("source", PStr "/nfsmount/source");
                                  ("intermediate", PStr "/nfsmount/intermediate");
                                  ("final", PStr "/nfsmount/final")]);
                 ("internal", PDict [("temporary", PStr "/nfsmount/tmp")])])].

(* ================================================================== *)
(** * Facts about the string operations *)

Module PyStrFacts.
Import PyStr.

Lemma prefix_cons (a : ascii) (p : string) (c : ascii) (r : string) :
  String.prefix (String a p) (String c r) = Ascii.eqb a c && String.prefix p r.
Proof.
  simpl. destruct (ascii_dec a c) as [->|Hne].
  - now rewrite Ascii.eqb_refl.
  - apply Ascii.eqb_neq in Hne. now rewrite Hne.
Qed.

Lemma prefix_empty (s : string) : String.prefix EmptyString s = true.
Proof. now destruct s. Qed.

Lemma prefix_app (p rest : string) : String.prefix p (p ++ rest) = true.
Proof.
  induction p as [|a p IH]; simpl.
  - apply prefix_empty.
  - destruct (ascii_dec a a); [exact IH | congruence].
Qed.

Lemma prefix_split (p s : string) :
  String.prefix p s = true -> exists rest, s = p ++ rest.
Proof.
  revert s. induction p as [|a p IH]; intros s H.
  - now exists s.
  - destruct s as [|c r]; [discriminate|].
    rewrite prefix_cons in H. apply andb_prop in H as [Hc Hp].
    apply Ascii.eqb_eq in Hc. subst c.
    destruct (IH _ Hp) as [rest ->]. now exists rest.
Qed.

Lemma startswith_iff (s p : string) :
  startswith s p = true <-> exists rest, s = p ++ rest.
Proof.
  unfold startswith. split.
  - apply prefix_split.
  - intros [rest ->]. apply prefix_app.
Qed.

Lemma append_nil_r (s : string) : s ++ "" = s.
Proof. induction s; simpl; congruence. Qed.

Lemma append_assoc (a b c : string) : (a ++ b) ++ c = a ++ (b ++ c).
Proof. induction a; simpl; congruence. Qed.

(** ** Lines *)

Lemma contains_nl_cons (c : ascii) (r : string) :
  contains NL (String c r) = Ascii.eqb c nl || contains NL r.
Proof.
  cbn [contains]. unfold NL. rewrite prefix_cons, prefix_empty, andb_true_r.
  now rewrite Ascii.eqb_sym.
Qed.

Lemma one_line_cons (c : ascii) (r : string) :
  one_line (String c r) = negb (Ascii.eqb c nl) && one_line r.
Proof. unfold one_line. rewrite contains_nl_cons. apply negb_orb. Qed.

Lemma one_line_app (a b : string) :
  one_line (a ++ b) = one_line a && one_line b.
Proof.
  induction a as [|c a IH].
  - reflexivity.
  - simpl append. rewrite !one_line_cons, IH. apply andb_assoc.
Qed.

Lemma split_nl_not_nil (s : string) : split_nl s <> [].
Proof.
  induction s as [|c r IH]; simpl; [discriminate|].
  destruct (Ascii.eqb c nl); [discriminate|].
  destruct (split_nl r); discriminate.
Qed.

Lemma split_nl_one_line (s : string) : one_line s = true -> split_nl s = [s].
Proof.
  induction s as [|c r IH]; intros H; [reflexivity|].
  rewrite one_line_cons in H. apply andb_prop in H as [Hc Hr].
  simpl. apply negb_true_iff in Hc. rewrite Hc, (IH Hr). reflexivity.
Qed.

Lemma split_nl_app (a b : string) :
  split_nl (a ++ NL ++ b) = (split_nl a ++ split_nl b)%list.
Proof.
  induction a as [|c a IH].
  - reflexivity.
  - simpl append. simpl split_nl. destruct (Ascii.eqb c nl).
    + simpl. f_equal. exact IH.
    + change (String nl b) with (NL ++ b). rewrite IH.
      pose proof (split_nl_not_nil a) as Hne.
      destruct (split_nl a) as [|h t]; [congruence|]. reflexivity.
Qed.

Lemma split_nl_join (x : string) (xs : list string) :
  split_nl (join_nl (x :: xs)) = concat (map split_nl (x :: xs)).
Proof.
  revert x. induction xs as [|y ys IH]; intros x.
  - simpl. now rewrite app_nil_r.
  - change (join_nl (x :: y :: ys)) with (x ++ NL ++ join_nl (y :: ys)).
    rewrite split_nl_app, IH. reflexivity.
Qed.

Lemma split_nl_join_one_line (xs : list string) :
  xs <> [] -> Forall (fun x => one_line x = true) xs ->
  split_nl (join_nl xs) = xs.
Proof.
  intros Hne Hall. destruct xs as [|x xs]; [congruence|].
  rewrite split_nl_join. clear Hne.
  induction Hall as [|y ys Hy _ IH]; [reflexivity|].
  simpl. rewrite (split_nl_one_line _ Hy). simpl. f_equal. exact IH.
Qed.

(** ** Replacement *)

Lemma contains_cons_false (sub : string) (c : ascii) (r : string) :
  contains sub (String c r) = false ->
  String.prefix sub (String c r) = false /\ contains sub r = false.
Proof. simpl contains. intros H. now apply orb_false_elim in H. Qed.

Lemma replace_absent (s old new : string) :
  contains old s = false -> replace s old new = s.
Proof.
  unfold replace. induction s as [|c r IH]; intros H; [reflexivity|].
  apply contains_cons_false in H as [Hp Hr].
  cbn [replace_from]. rewrite Hp. f_equal. auto.
Qed.

Lemma has_char_app (c : ascii) (a b : string) :
  has_char c (a ++ b) = has_char c a || has_char c b.
Proof. induction a as [|x a IH]; simpl; [reflexivity|]. now rewrite IH, orb_assoc. Qed.

Lemma contains_has_char (sub s : string) (c : ascii) :
  contains sub s = true -> has_char c sub = true -> has_char c s = true.
Proof.
  induction s as [|x r IH]; simpl; intros H Hc.
  - destruct sub; [discriminate Hc | discriminate H].
  - apply orb_prop in H as [H|H].
    + change (String.prefix sub (String x r) = true) in H.
      apply prefix_split in H as [rest Hrest].
      change (Ascii.eqb x c || has_char c r) with (has_char c (String x r)).
      rewrite Hrest, has_char_app, Hc. reflexivity.
    + rewrite (IH H Hc). apply orb_true_r.
Qed.

Lemma has_char_absent (sub s : string) (c : ascii) :
  has_char c s = false -> has_char c sub = true -> contains sub s = false.
Proof.
  intros Hs Hsub. destruct (contains sub s) eqn:E; [|reflexivity].
  rewrite (contains_has_char _ _ _ E Hsub) in Hs. discriminate.
Qed.

Lemma contains_char (c : ascii) (s : string) :
  contains (String c EmptyString) s = has_char c s.
Proof.
  induction s as [|x r IH]; [reflexivity|].
  cbn [contains has_char]. rewrite IH, prefix_cons, prefix_empty, andb_true_r.
  now rewrite Ascii.eqb_sym.
Qed.

Lemma split1_has_char (c : ascii) (s : string) :
  has_char c s = true -> exists a b, split1 c s = Some (a, b).
Proof.
  induction s as [|x r IH]; simpl; intros H; [discriminate|].
  destruct (Ascii.eqb x c) eqn:E.
  - now exists EmptyString, r.
  - simpl in H. destruct (IH H) as (a & b & ->). now exists (String x a), b.
Qed.

(** ** Suffixes *)

Lemma endswith_app_self (s p : string) : endswith (s ++ p) p = true.
Proof.
  induction s as [|c r IH].
  - destruct p; cbn [append endswith]; now rewrite String.eqb_refl.
  - cbn [append endswith]. rewrite IH. apply orb_true_r.
Qed.

Lemma endswith_slash_slash (s : string) :
  endswith (s ++ "/") "//" = endswith s "/".
Proof.
  induction s as [|c r IH]; [reflexivity|].
  simpl append. cbn [endswith]. rewrite IH. f_equal.
  destruct r as [|d r']; simpl.
  - destruct (Ascii.eqb c "/"); reflexivity.
  - destruct (Ascii.eqb c "/"); [|reflexivity].
    destruct r' as [|e r'']; simpl.
    + destruct (Ascii.eqb d "/"); reflexivity.
    + destruct (Ascii.eqb d "/"); [|reflexivity]. now destruct (r'' ++ "/").
Qed.

End PyStrFacts.

(* ================================================================== *)
(** * File operations *)

Lemma state_eta (st : state) : mkState (environment st) (logged st) (fs st) = st.
Proof. now destruct st. Qed.

Lemma bind_assoc {A B C} (m : M A) (f : A -> M B) (g : B -> M C) (st : state) :
  bind (bind m f) g st = bind m (fun x => bind (f x) g) st.
Proof.
  unfold bind. destruct (m st) as [[a|e] st1]; [|reflexivity]. reflexivity.
Qed.

Lemma bind_ext {A B} (m : M A) (f g : A -> M B) (st : state) :
  (forall a st', f a st' = g a st') -> bind m f st = bind m g st.
Proof. intros H. unfold bind. destruct (m st) as [[a|e] st1]; [apply H | reflexivity]. Qed.

Lemma bind_ext_l {A B} (m m' : M A) (f : A -> M B) (st : state) :
  (forall s, m s = m' s) -> bind m f st = bind m' f st.
Proof. intros H. unfold bind. now rewrite H. Qed.

Lemma bind_ret_r {A} (m : M A) (st : state) : bind m ret st = m st.
Proof. unfold bind, ret. now destruct (m st) as [[a|e] st1]. Qed.

Lemma bind_unit_ret_r (m : M unit) (st : state) : bind m (fun _ => ret tt) st = m st.
Proof. unfold bind, ret. now destruct (m st) as [[[]|e] st1]. Qed.

Section FileOperations.

Variable refused : list fs_event -> fs_event -> bool.

Lemma fs_do_accepted (ev : fs_event) (st : state) :
  refused (fs st) ev = false ->
  fs_do refused ev st
  = (Ok tt, mkState (environment st) (logged st) (fs st ++ [ev])).
Proof. intros H. unfold fs_do. now rewrite H. Qed.

Lemma fs_do_refused (ev : fs_event) (st : state) :
  refused (fs st) ev = true -> fs_do refused ev st = (Raise (refusal ev), st).
Proof. intros H. unfold fs_do. now rewrite H. Qed.

Lemma fs_do_ok (ev : fs_event) (st st' : state) :
  fs_do refused ev st = (Ok tt, st') ->
  refused (fs st) ev = false
  /\ st' = mkState (environment st) (logged st) (fs st ++ [ev]).
Proof.
  unfold fs_do. destruct (refused (fs st) ev); [discriminate|].
  intros H. inversion H. auto.
Qed.

(** the operations of [evs] all succeed when the file system accepts
    them *)
Lemma perform_accepted (evs : list fs_event) (st : state) :
  accepted refused (fs st) evs = true ->
  for_each evs (fs_do refused) st
  = (Ok tt, mkState (environment st) (logged st) (fs st ++ evs)).
Proof.
  revert st. induction evs as [|ev evs IH]; intros st H.
  - cbn [for_each]. unfold ret. now rewrite app_nil_r, state_eta.
  - cbn [accepted] in H. apply andb_true_iff in H as [Hev Hrest].
    apply negb_true_iff in Hev.
    cbn [for_each]. unfold bind at 1. rewrite (fs_do_accepted ev st Hev).
    rewrite IH; cbn [environment logged fs]; [|exact Hrest].
    now rewrite <- app_assoc.
Qed.

(** they stop at the first one that is refused *)
Lemma perform_refused (before after : list fs_event) (ev : fs_event) (st : state) :
  accepted refused (fs st) before = true ->
  refused (fs st ++ before) ev = true ->
  for_each (before ++ ev :: after) (fs_do refused) st
  = (Raise (refusal ev), mkState (environment st) (logged st) (fs st ++ before)).
Proof.
  revert st. induction before as [|b before IH]; intros st Hacc Href.
  - cbn [app for_each]. rewrite app_nil_r in *. unfold bind.
    rewrite (fs_do_refused ev st Href). now rewrite state_eta.
  - cbn [accepted] in Hacc. apply andb_true_iff in Hacc as [Hb Hrest].
    apply negb_true_iff in Hb.
    cbn [app for_each]. unfold bind at 1. rewrite (fs_do_accepted b st Hb).
    rewrite IH; cbn [environment logged fs].
    + now rewrite <- app_assoc.
    + exact Hrest.
    + now rewrite <- app_assoc.
Qed.

(** a normal return means that every operation was performed *)
Lemma perform_ok (evs : list fs_event) (st st' : state) :
  for_each evs (fs_do refused) st = (Ok tt, st') ->
  accepted refused (fs st) evs = true
  /\ st' = mkState (environment st) (logged st) (fs st ++ evs).
Proof.
  revert st. induction evs as [|ev evs IH]; intros st H.
  - cbn [for_each] in H. unfold ret in H. inversion H.
    split; [reflexivity|]. now rewrite app_nil_r, state_eta.
  - cbn [for_each] in H. unfold bind at 1 in H.
    destruct (fs_do refused ev st) as [[[]|e] st1] eqn:E; [|discriminate].
    apply fs_do_ok in E as [Hev ->].
    apply IH in H as [Hacc ->]. cbn [environment logged fs] in *.
    split; [cbn [accepted]; now rewrite Hev, Hacc|].
    now rewrite <- app_assoc.
Qed.

(** whatever the outcome, the operations performed are a prefix of
    [evs], and nothing else of the state changes *)
Lemma perform_prefix (evs : list fs_event) (st : state) :
  exists n,
    snd (for_each evs (fs_do refused) st)
    = mkState (environment st) (logged st) (fs st ++ firstn n evs).
Proof.
  revert st. induction evs as [|ev evs IH]; intros st.
  - exists 0. cbn. now rewrite app_nil_r, state_eta.
  - cbn [for_each]. unfold bind at 1. unfold fs_do at 1.
    destruct (refused (fs st) ev).
    + exists 0. cbn. now rewrite app_nil_r, state_eta.
    + destruct (IH (mkState (environment st) (logged st) (fs st ++ [ev]))) as [n E].
      exists (S n). rewrite E. cbn [environment logged fs firstn].
      now rewrite <- app_assoc.
Qed.

End FileOperations.

Lemma permissive_accepted (inp : inputs) (done evs : list fs_event) :
  permissive inp -> accepted (refused inp) done evs = true.
Proof.
  intros H. revert done. induction evs as [|ev evs IH]; intros done; [reflexivity|].
  cbn [accepted]. now rewrite (H done ev), IH.
Qed.

(* ================================================================== *)
(** * The ordered table *)

Lemma od_get_set_same (d : odict) (k : string) (v : pyobj) :
  assoc_get (od_set d k v) k = Some v.
Proof.
  induction d as [|[k' v'] r IH]; simpl.
  - now rewrite String.eqb_refl.
  - destruct (String.eqb k' k) eqn:E; simpl; rewrite E; [reflexivity | exact IH].
Qed.

Lemma od_get_set_other (d : odict) (k k' : string) (v : pyobj) :
  k <> k' -> assoc_get (od_set d k v) k' = assoc_get d k'.
Proof.
  intros Hne. induction d as [|[k0 v0] r IH]; simpl.
  - apply String.eqb_neq in Hne. now rewrite Hne.
  - destruct (String.eqb k0 k) eqn:E; simpl.
    + apply String.eqb_eq in E. subst k0.
      apply String.eqb_neq in Hne. now rewrite Hne.
    + now rewrite IH.
Qed.


Lemma in_list_iff (x : string) (l : list string) :
  in_list x l = true <-> In x l.
Proof.
  unfold in_list. rewrite existsb_exists. split.
  - intros (y & Hy & E). apply String.eqb_eq in E. now subst.
  - intros H. exists x. split; [exact H | apply String.eqb_refl].
Qed.


Lemma assoc_get_in {A} (d : list (string * A)) (k : string) (v : A) :
  NoDup (map fst d) -> In (k, v) d -> assoc_get d k = Some v.
Proof.
  induction d as [|[k' v'] r IH]; simpl; intros Hnd Hin; [contradiction|].
  inversion Hnd as [|? ? Hnotin Hnd']; subst.
  destruct Hin as [E|Hin].
  - inversion E; subst. now rewrite String.eqb_refl.
  - destruct (String.eqb k' k) eqn:E.
    + apply String.eqb_eq in E. subst k'.
      exfalso. apply Hnotin. now apply (in_map fst _ (k, v)).
    + auto.
Qed.

(* ================================================================== *)
(** * check_prerequisites *)

Section Prerequisites.

Variable inp : inputs.
Local Abbreviation e := (os_environ inp).

Lemma check_loop_spec (variables : list string) (n : nat) (st : state) :
  check_loop inp variables n st
  = (Ok (n + length (filter (is_missing e) variables)),
     mkState (copy_present e variables (environment st))
             (logged st ++ map missing_message (filter (is_missing e) variables))
             (fs st)).
Proof.
  revert n st. induction variables as [|v rest IH]; intros n st.
  - simpl. rewrite Nat.add_0_r, app_nil_r. now destruct st.
  - cbn [check_loop filter copy_present]. fold (is_missing e v).
    destruct (is_missing e v) eqn:Hm.
    + unfold bind, logger_log. rewrite IH. cbn [environment logged fs map length].
      rewrite <- app_assoc. f_equal. f_equal. lia.
    + unfold bind, env_set. rewrite IH. reflexivity.
Qed.

Lemma check_prerequisites_spec (st : state) :
  check_prerequisites inp st
  = (Ok (length (filter (is_missing e) prerequisite_environment_variables)),
     mkState (copy_present e prerequisite_environment_variables (environment st))
             (logged st ++ map missing_message
                (filter (is_missing e) prerequisite_environment_variables))
             (fs st)).
Proof. unfold check_prerequisites. now rewrite check_loop_spec. Qed.

Lemma copy_present_missing (variables : list string) (env : odict) (v : string) :
  is_missing e v = true ->
  assoc_get (copy_present e variables env) v = assoc_get env v.
Proof.
  intros Hm. revert env. induction variables as [|w rest IH]; intros env; [reflexivity|].
  simpl. destruct (is_missing e w) eqn:Hw; [apply IH|].
  rewrite IH. apply od_get_set_other. intros ->. congruence.
Qed.

Lemma copy_present_keeps (variables : list string) (env : odict) (v : string) :
  assoc_get env v = Some (environ_get e v PNone) ->
  assoc_get (copy_present e variables env) v = Some (environ_get e v PNone).
Proof.
  revert env. induction variables as [|w rest IH]; intros env H; [exact H|].
  simpl. destruct (is_missing e w); [now apply IH|].
  apply IH. destruct (string_dec w v) as [->|Hne].
  - apply od_get_set_same.
  - now rewrite od_get_set_other.
Qed.

Lemma copy_present_copies (variables : list string) (env : odict) (v : string) :
  In v variables -> is_missing e v = false ->
  assoc_get (copy_present e variables env) v = Some (environ_get e v PNone).
Proof.
  intros Hin Hm. revert env. induction variables as [|w rest IH]; intros env;
    [contradiction|].
  simpl. destruct Hin as [->|Hin].
  - rewrite Hm. apply copy_present_keeps, od_get_set_same.
  - destruct (is_missing e w); now apply IH.
Qed.

End Prerequisites.

Lemma is_missing_iff (e : environ) (v : string) :
  is_missing e v = true <-> assoc_get e v = None \/ assoc_get e v = Some "".
Proof.
  unfold is_missing, environ_get. destruct (assoc_get e v) as [x|]; simpl.
  - destruct x; simpl; split; intros H; auto; try discriminate.
    destruct H as [H|H]; discriminate.
  - split; auto.
Qed.

Lemma prerequisites_nodup : NoDup prerequisite_environment_variables.
Proof.
  unfold prerequisite_environment_variables.
  repeat (constructor; [simpl; intuition discriminate|]). constructor.
Qed.

Lemma assoc_get_unset_same (e : environ) (v : string) :
  assoc_get (unset e v) v = None.
Proof.
  unfold unset. induction e as [|[k x] r IH]; simpl; [reflexivity|].
  destruct (String.eqb k v) eqn:E; simpl; [exact IH|]. now rewrite E.
Qed.

Lemma assoc_get_unset_other (e : environ) (v w : string) :
  v <> w -> assoc_get (unset e v) w = assoc_get e w.
Proof.
  intros Hne. unfold unset. induction e as [|[k x] r IH]; simpl; [reflexivity|].
  destruct (String.eqb k v) eqn:E; simpl.
  - apply String.eqb_eq in E. subst k. apply String.eqb_neq in Hne. now rewrite Hne.
  - now rewrite IH.
Qed.

Lemma check_loop_ext (inp inp' : inputs) (variables : list string) (n : nat) (st : state) :
  (forall w, environ_get (os_environ inp) w PNone = environ_get (os_environ inp') w PNone
             \/ (is_missing (os_environ inp) w = true /\ is_missing (os_environ inp') w = true)) ->
  check_loop inp variables n st = check_loop inp' variables n st.
Proof.
  intros H. revert n st. induction variables as [|v rest IH]; intros n st; [reflexivity|].
  cbn [check_loop]. fold (is_missing (os_environ inp) v). fold (is_missing (os_environ inp') v).
  destruct (H v) as [E|[E1 E2]].
  - unfold is_missing. rewrite <- E.
    destruct (negb (py_truthy (environ_get (os_environ inp) v PNone)));
      unfold bind; cbn; apply IH.
  - rewrite E1, E2. unfold bind; cbn. apply IH.
Qed.

(* ================================================================== *)
(** * Prerequisite check: the claims *)

Lemma init_exits_when_missing (inp : inputs) :
  filter (is_missing (os_environ inp)) prerequisite_environment_variables <> [] ->
  exists st, init inp initial_state = (Raise (SystemExit 1), st) /\ fs st = [].
Proof.
  intros Hne. unfold init.
  remember (check_prerequisites inp) as chk eqn:Hchk.
  assert (Hexit : forall st, exists st',
             bind chk (fun missing =>
               if (0 <? missing)%nat then raise (SystemExit 1)
               else ret (stored_config inp)) st = (Raise (SystemExit 1), st')
             /\ fs st' = fs st).
  { intros st. unfold bind. subst chk. rewrite check_prerequisites_spec.
    destruct (filter _ prerequisite_environment_variables); [congruence|].
    cbn. eexists; split; reflexivity. }
  unfold bind at 1 2 3. unfold env_set, lift, environ_get.
  cbn [initial_state environment logged fs].
  destruct (assoc_get (os_environ inp) "PATH") as [p|]; cbn [as_str].
  - destruct (negb (PyStr.contains (module_path inp) p)).
    + edestruct Hexit as (st' & -> & Hfs). eexists; split; [reflexivity | exact Hfs].
    + unfold ret at 1. edestruct Hexit as (st' & -> & Hfs).
      eexists; split; [reflexivity | exact Hfs].
  - destruct (negb (PyStr.contains (module_path inp) "")).
    + edestruct Hexit as (st' & -> & Hfs). eexists; split; [reflexivity | exact Hfs].
    + unfold ret at 1. edestruct Hexit as (st' & -> & Hfs).
      eexists; split; [reflexivity | exact Hfs].
Qed.

(** C6, as amended.  A mandatory variable is missing when it is unset or
    set to the empty string.  [check_prerequisites] returns the number of
    missing variables, logs one line per missing name (the names are
    distinct, so each is logged once), copies every variable that has a
    non-empty value into the table, and when some variable is missing the
    run ends in [sys.exit(1)] with no file written. *)
Theorem prerequisites_missing_count
    (py_repr : pyobj -> string)
    (strappend get_local_path : pyobj -> string -> result pyobj)
    (inp : inputs) (st : state) :
  let e := os_environ inp in
  let missing := filter (is_missing e) prerequisite_environment_variables in
  (forall v, In v missing <->
             In v prerequisite_environment_variables
             /\ (assoc_get e v = None \/ assoc_get e v = Some "")) /\
  NoDup missing /\
  fst (check_prerequisites inp st) = Ok (length missing) /\
  logged (snd (check_prerequisites inp st))
    = (logged st ++ map missing_message missing)%list /\
  fs (snd (check_prerequisites inp st)) = fs st /\
  (forall v x, In v prerequisite_environment_variables ->
               assoc_get e v = Some x -> x <> "" ->
               assoc_get (environment (snd (check_prerequisites inp st))) v
               = Some (PStr x)) /\
  (missing <> [] ->
   fst (run py_repr strappend get_local_path inp) = Raise (SystemExit 1)
   /\ exit_status (fst (run py_repr strappend get_local_path inp)) = 1
   /\ fs (snd (run py_repr strappend get_local_path inp)) = []).
Proof.
  intros e missing. rewrite check_prerequisites_spec. cbn [fst snd logged fs environment].
  repeat split.
  - apply filter_In in H. tauto.
  - apply filter_In in H as [_ H]. now apply is_missing_iff.
  - intros [Hin Hm]. apply filter_In. split; [exact Hin|]. now apply is_missing_iff.
  - apply NoDup_filter, prerequisites_nodup.
  - intros v x Hin Hx Hne.
    assert (Hm : is_missing (os_environ inp) v = false).
    { destruct (is_missing (os_environ inp) v) eqn:E; [|reflexivity].
      apply is_missing_iff in E. fold e in E. destruct E as [E|E]; congruence. }
    rewrite (copy_present_copies inp _ _ v Hin Hm).
    unfold environ_get. fold e. now rewrite Hx.
  - destruct (init_exits_when_missing inp H) as (st' & E & _).
    unfold run, main, bind. now rewrite E.
  - destruct (init_exits_when_missing inp H) as (st' & E & _).
    unfold run, main, bind. now rewrite E.
  - destruct (init_exits_when_missing inp H) as (st' & E & Hfs).
    unfold run, main, bind. now rewrite E.
Qed.

Lemma prerequisites_missing_count_witness :
  filter (is_missing (os_environ empty_host_input)) prerequisite_environment_variables
    = ["CB_HOST"]
  /\ fst (run repr_opaque strappend_on_str local_path_under_mount empty_host_input)
     = Raise (SystemExit 1)
  /\ fs (snd (run repr_opaque strappend_on_str local_path_under_mount empty_host_input))
     = [].
Proof.
  split; [reflexivity|].
  pose proof (prerequisites_missing_count repr_opaque strappend_on_str
                local_path_under_mount empty_host_input initial_state) as H.
  cbv zeta in H. destruct H as (_ & _ & _ & _ & _ & _ & H).
  assert (Hne : filter (is_missing (os_environ empty_host_input))
                  prerequisite_environment_variables <> []) by (vm_compute; discriminate).
  destruct (H Hne) as (H1 & _ & H3). split; assumption.
Defined.

(** C6 as stated fails: with every mandatory variable present and
    [CB_HOST] set to the empty string, no variable is unset, yet the
    returned count is 1 and the present [CB_HOST] is not copied. *)
Lemma prerequisites_unset_count_counterexample :
  (forall v, In v prerequisite_environment_variables ->
             is_unset (os_environ empty_host_input) v = false)
  /\ length (filter (is_unset (os_environ empty_host_input))
               prerequisite_environment_variables) = 0
  /\ fst (check_prerequisites empty_host_input initial_state) = Ok 1
  /\ assoc_get (os_environ empty_host_input) "CB_HOST" = Some ""
  /\ assoc_get (environment (snd (check_prerequisites empty_host_input initial_state)))
       "CB_HOST" = None.
Proof.
  repeat split.
  intros v Hin. simpl in Hin.
  repeat (destruct Hin as [<-|Hin]; [reflexivity|]). contradiction.
Qed.

(** C10.  A prerequisite variable that is present with an empty value is
    counted as missing and logged, its table entry is left untouched (so
    it is not copied), and the whole check behaves exactly as if the
    variable were unset. *)
Theorem empty_value_is_missing (inp : inputs) (st : state) (v : string) :
  In v prerequisite_environment_variables ->
  assoc_get (os_environ inp) v = Some "" ->
  let missing := filter (is_missing (os_environ inp)) prerequisite_environment_variables in
  In v missing /\
  fst (check_prerequisites inp st) = Ok (length missing) /\
  logged (snd (check_prerequisites inp st))
    = (logged st ++ map missing_message missing)%list /\
  assoc_get (environment (snd (check_prerequisites inp st))) v
    = assoc_get (environment st) v /\
  check_prerequisites inp st
    = check_prerequisites (with_environ inp (unset (os_environ inp) v)) st.
Proof.
  intros Hin Hempty missing.
  assert (Hm : is_missing (os_environ inp) v = true)
    by (apply is_missing_iff; now right).
  rewrite check_prerequisites_spec. cbn [fst snd logged environment].
  repeat split.
  - apply filter_In. now split.
  - now apply copy_present_missing.
  - rewrite <- check_prerequisites_spec. unfold check_prerequisites.
    apply check_loop_ext. intros w. cbn [with_environ os_environ].
    destruct (string_dec v w) as [<-|Hne].
    + right. split; [exact Hm|]. apply is_missing_iff. left. apply assoc_get_unset_same.
    + left. unfold environ_get. now rewrite assoc_get_unset_other.
Qed.

Lemma empty_value_is_missing_witness :
  fst (check_prerequisites empty_host_input initial_state) = Ok 1
  /\ check_prerequisites empty_host_input initial_state
     = check_prerequisites
         (with_environ empty_host_input (unset empty_host_environ "CB_HOST"))
         initial_state.
Proof.
  assert (Hin : In "CB_HOST" prerequisite_environment_variables) by (simpl; auto).
  assert (Hval : assoc_get (os_environ empty_host_input) "CB_HOST" = Some "")
    by reflexivity.
  destruct (empty_value_is_missing empty_host_input initial_state "CB_HOST" Hin Hval)
    as (_ & Hcount & _ & _ & Heq).
  split; [exact Hcount | exact Heq].
Defined.

(* ================================================================== *)
(** * Path normalization *)

Lemma normalize_unchanged (s : string) :
  PyStr.contains "s3a:" s = false -> PyStr.contains "s3n:" s = false ->
  normalize s = s.
Proof.
  intros Ha Hn. unfold normalize.
  rewrite (PyStrFacts.replace_absent s _ _ Ha). now apply PyStrFacts.replace_absent.
Qed.

Lemma strappend_spec_ends (s suffix : string) :
  PyStr.endswith (strappend_spec s suffix) suffix = true.
Proof.
  unfold strappend_spec. destruct (PyStr.endswith s suffix) eqn:E; [exact E|].
  apply PyStrFacts.endswith_app_self.
Qed.

(** C7.  Normalization rewrites the scheme markers [s3a:] and [s3n:] to
    [s3:] (so [s3a://bucket/x] and [s3n://bucket/x] both give
    [s3://bucket/x]) and leaves a string without them unchanged.  The
    separator append returns an input that ends in [/] unchanged, adds
    exactly one [/] to an input that does not, never produces a doubled
    separator from an input without a trailing one, and is idempotent. *)
Theorem normalization_and_trailing_separator (s : string) :
  normalize "s3a://bucket/x" = "s3://bucket/x" /\
  normalize "s3n://bucket/x" = "s3://bucket/x" /\
  (PyStr.contains "s3a:" s = false -> PyStr.contains "s3n:" s = false ->
   normalize ("s3a:" ++ s) = "s3:" ++ s
   /\ normalize ("s3n:" ++ s) = "s3:" ++ s
   /\ normalize s = s) /\
  (PyStr.endswith s "/" = true -> strappend_spec s "/" = s) /\
  (PyStr.endswith s "/" = false ->
   strappend_spec s "/" = s ++ "/"
   /\ PyStr.endswith (strappend_spec s "/") "//" = false) /\
  strappend_spec (strappend_spec s "/") "/" = strappend_spec s "/".
Proof.
  split; [reflexivity|]. split; [reflexivity|]. split; [|split; [|split]].
  - intros Ha Hn. pose proof (normalize_unchanged s Ha Hn) as Hs.
    unfold normalize, PyStr.replace in *. cbn.
    rewrite !PyStrFacts.prefix_empty. cbn. rewrite !Hs. auto.
  - intros H. unfold strappend_spec. now rewrite H.
  - intros H. unfold strappend_spec. rewrite H. split; [reflexivity|].
    now rewrite PyStrFacts.endswith_slash_slash.
  - unfold strappend_spec at 1. now rewrite strappend_spec_ends.
Qed.

Lemma normalization_and_trailing_separator_witness :
  normalize ("s3a:" ++ "//bucket/x") = "s3://bucket/x"
  /\ strappend_spec "s3://bucket/x/" "/" = "s3://bucket/x/"
  /\ strappend_spec "s3://bucket/x" "/" = "s3://bucket/x/".
Proof.
  destruct (normalization_and_trailing_separator "//bucket/x")
    as (_ & _ & Hn & _ & Hadd & _).
  destruct (normalization_and_trailing_separator "s3://bucket/x/")
    as (_ & _ & _ & Hsame & _ & _).
  destruct (normalization_and_trailing_separator "s3://bucket/x")
    as (_ & _ & _ & _ & Hadd' & _).
  split; [apply Hn; reflexivity|]. split; [apply Hsame; reflexivity|].
  apply Hadd'. reflexivity.
Defined.

(* ================================================================== *)
(** * write_config *)

Section WriteConfig.

Variable py_repr : pyobj -> string.

Lemma export_line_body (k : string) (v : pyobj) :
  export_line py_repr k v = export_body py_repr (k, v) ++ PyStr.NL.
Proof.
  unfold export_line, export_body, quote_of. cbn [fst snd].
  now rewrite !PyStrFacts.append_assoc.
Qed.

Lemma concat_empty_cons (x : string) (xs : list string) :
  String.concat "" (x :: xs) = x ++ String.concat "" xs.
Proof.
  destruct xs as [|y ys]; [|reflexivity].
  simpl. now rewrite PyStrFacts.append_nil_r.
Qed.

Lemma config_text_entries (env : odict) :
  NoDup (od_keys env) ->
  config_text py_repr env
  = String.concat "" (map (fun kv => export_body py_repr kv ++ PyStr.NL) env).
Proof.
  intros Hnd. unfold config_text, od_keys. rewrite map_map. f_equal.
  apply map_ext_in. intros [k v] Hin. cbn [fst]. unfold get_or.
  rewrite (assoc_get_in env k v Hnd Hin). apply export_line_body.
Qed.

Lemma split_nl_terminated (bodies : list string) :
  Forall (fun b => PyStr.one_line b = true) bodies ->
  PyStr.split_nl (String.concat "" (map (fun b => b ++ PyStr.NL) bodies))
  = (bodies ++ [""])%list.
Proof.
  induction 1 as [|b bs Hb _ IH]; [reflexivity|].
  cbn [map]. rewrite concat_empty_cons, PyStrFacts.append_assoc.
  rewrite PyStrFacts.split_nl_app, IH, (PyStrFacts.split_nl_one_line _ Hb).
  reflexivity.
Qed.

Lemma quote_of_cases (k : string) :
  (quote_of k = sq /\ (k = "CB_PASSWORD" \/ k = "ENCRYPTION_KEY"))
  \/ (quote_of k = dq /\ k <> "CB_PASSWORD" /\ k <> "ENCRYPTION_KEY").
Proof.
  unfold quote_of, in_list. cbn [existsb].
  destruct (String.eqb_spec k "CB_PASSWORD") as [->|H1]; [left; auto|].
  destruct (String.eqb_spec k "ENCRYPTION_KEY") as [->|H2]; [left; auto|].
  right. auto.
Qed.

Lemma export_body_one_line (kv : string * pyobj) :
  PyStr.one_line (fst kv) = true ->
  PyStr.one_line (py_str py_repr (snd kv)) = true ->
  PyStr.one_line (export_body py_repr kv) = true.
Proof.
  intros Hk Hv. unfold export_body.
  rewrite !PyStrFacts.one_line_app, Hk, Hv.
  destruct (quote_of_cases (fst kv)) as [[-> _]|[-> _]]; reflexivity.
Qed.

Lemma until_quote_app (v : string) :
  PyStr.has_char "'"%char v = false -> until_quote (v ++ sq) = Some v.
Proof.
  induction v as [|c r IH]; intros H; [reflexivity|].
  cbn [PyStr.has_char] in H. apply orb_false_elim in H as [Hc Hr].
  cbn [append until_quote]. now rewrite Hc, (IH Hr).
Qed.

(** C9, as amended.  For a table with distinct keys whose names and
    values have no line break, the text [write_config] writes to
    [~/.c360cfg] has, in the table's insertion order, one line
    [export KEY=qVALUEq] per key, where the quote [q] is the single
    quote exactly for [CB_PASSWORD] and [ENCRYPTION_KEY] and the double
    quote for every other key.  When the file system accepts the write,
    this one file is written and the fact is logged; when it refuses,
    [IOError] is raised and nothing is written or logged.  The value is
    written as it is, without escaping: a secret that has no single
    quote (for instance one with a space) is read back unchanged. *)
Theorem export_file_lines (inp : inputs) (st : state) :
  NoDup (od_keys (environment st)) ->
  Forall (fun kv => PyStr.one_line (fst kv) = true
                    /\ PyStr.one_line (py_str py_repr (snd kv)) = true)
         (environment st) ->
  exists text,
    PyStr.split_nl text
    = (map (export_body py_repr) (environment st) ++ [""])%list
    /\ (refused inp (fs st) (FWrite (home_directory inp ++ "/.c360cfg") text) = false ->
        write_config py_repr inp st
        = (Ok tt,
           mkState (environment st)
                   (logged st ++ [Log "environment written to ~/.c360cfg"])
                   (fs st ++ [FWrite (home_directory inp ++ "/.c360cfg") text])))
    /\ (refused inp (fs st) (FWrite (home_directory inp ++ "/.c360cfg") text) = true ->
        write_config py_repr inp st = (Raise IOError, st))
    /\ (forall k, (quote_of k = sq /\ (k = "CB_PASSWORD" \/ k = "ENCRYPTION_KEY"))
                  \/ (quote_of k = dq /\ k <> "CB_PASSWORD" /\ k <> "ENCRYPTION_KEY"))
    /\ (forall k v, k = "CB_PASSWORD" \/ k = "ENCRYPTION_KEY" ->
                    PyStr.has_char "'"%char v = false ->
                    export_body py_repr (k, PStr v) = "export " ++ k ++ "='" ++ v ++ "'"
                    /\ read_single_quoted (export_body py_repr (k, PStr v)) = Some v).
Proof.
  intros Hnd Hlines. exists (config_text py_repr (environment st)).
  split; [|split; [|split; [|split]]].
  - rewrite (config_text_entries _ Hnd).
    rewrite <- (map_map (export_body py_repr) (fun b => b ++ PyStr.NL)).
    apply split_nl_terminated. apply Forall_map.
    eapply Forall_impl; [|exact Hlines].
    intros kv [Hk Hv]. now apply export_body_one_line.
  - intros Hacc. unfold write_config, bind.
    now rewrite (fs_do_accepted _ _ _ Hacc).
  - intros Href. unfold write_config, bind.
    now rewrite (fs_do_refused _ _ _ Href).
  - apply quote_of_cases.
  - intros k v [-> | ->] Hv; (split; [reflexivity|]);
      unfold read_single_quoted, export_body; cbn; now apply until_quote_app.
Qed.

End WriteConfig.

Lemma export_file_lines_witness :
  exists text,
    write_config repr_opaque empty_host_input secret_state
    = (Ok tt,
       mkState secret_table [Log "environment written to ~/.c360cfg"]
               [FWrite "/home/loader/.c360cfg" text])
    /\ map read_single_quoted (PyStr.split_nl text)
       = [None; Some "pass word"; Some "k3y with space"; None].
Proof.
  assert (Hnd : NoDup (od_keys (environment secret_state))).
  { repeat (constructor; [simpl; intuition discriminate|]). constructor. }
  assert (Hl : Forall (fun kv => PyStr.one_line (fst kv) = true
                        /\ PyStr.one_line (py_str repr_opaque (snd kv)) = true)
                 (environment secret_state)).
  { repeat (constructor; [split; reflexivity|]). constructor. }
  destruct (export_file_lines repr_opaque empty_host_input secret_state Hnd Hl)
    as (text & Hsplit & Hw & _ & _ & _).
  exists text. rewrite (Hw eq_refl), Hsplit. split; reflexivity.
Defined.

(** C9 as stated fails.  The value is written between the quotes as it
    is: the secret [it's a secret], which contains a space, is read back
    from its single-quoted line as [it]; and a value with a line break
    spreads over two lines, so the file has three lines for two keys. *)
Lemma export_file_lines_counterexample :
  exists text,
    write_config repr_opaque empty_host_input quoted_secret_state
    = (Ok tt,
       mkState quoted_secret_table [Log "environment written to ~/.c360cfg"]
               [FWrite "/home/loader/.c360cfg" text])
    /\ od_keys quoted_secret_table = ["CB_PASSWORD"; "NOTE"]
    /\ PyStr.split_nl text
       = ["export CB_PASSWORD='it's a secret'";
          "export NOTE=" ++ dq ++ "first"; "second" ++ dq; ""]
    /\ read_single_quoted (nth 0 (PyStr.split_nl text) "") = Some "it".
Proof.
  eexists. split; [vm_compute; reflexivity|].
  repeat split; vm_compute; reflexivity.
Qed.

(* ================================================================== *)
(** * Master address discovery *)

Lemma assigned_value_ok (sub line : string) :
  PyStr.contains sub line = true -> PyStr.has_char "="%char sub = true ->
  exists v, assigned_value line = Ok v.
Proof.
  intros Hc Hs. unfold assigned_value.
  destruct (PyStrFacts.split1_has_char "="%char line) as (a & b & ->).
  - eapply PyStrFacts.contains_has_char; eassumption.
  - now eexists.
Qed.

Lemma scan_line_keeps_master (loc : spark_locals) (line : string) :
  PyStr.contains "SPARK_MASTER=" line = false ->
  exists loc', scan_line loc line = Ok loc' /\ spark_master loc' = spark_master loc.
Proof.
  intros Hm. unfold scan_line. rewrite Hm.
  destruct (PyStr.contains "SPARK_MASTER_HOST=" line) eqn:Hh;
    destruct (PyStr.contains "SPARK_MASTER_PORT=" line) eqn:Hp.
  - destruct (assigned_value_ok _ _ Hh eq_refl) as (v & ->). cbn.
    now eexists.
  - destruct (assigned_value_ok _ _ Hh eq_refl) as (v & ->). cbn. now eexists.
  - destruct (assigned_value_ok _ _ Hp eq_refl) as (v & ->). cbn. now eexists.
  - cbn. now eexists.
Qed.

Lemma scan_lines_keep_master (lines : list string) (loc : spark_locals) :
  (forall l, In l lines -> PyStr.contains "SPARK_MASTER=" l = false) ->
  exists loc', scan_lines loc lines = Ok loc' /\ spark_master loc' = spark_master loc.
Proof.
  revert loc. induction lines as [|l rest IH]; intros loc H.
  - now exists loc.
  - destruct (scan_line_keeps_master loc l (H l (or_introl eq_refl))) as (loc1 & E1 & M1).
    destruct (IH loc1 (fun x Hx => H x (or_intror Hx))) as (loc2 & E2 & M2).
    exists loc2. cbn [scan_lines]. rewrite E1. cbn. split; [exact E2 | congruence].
Qed.

Section Master.

Variable py_repr : pyobj -> string.
Variables strappend get_local_path : pyobj -> string -> result pyobj.

(** without a line that assigns [SPARK_MASTER] the local is read before
    it is bound, whatever the host and port lines say *)
Lemma master_unbound_without_assignment
    (inp : inputs) (config : pyobj) (lines : list string) (st : state) :
  bashrc inp = Some lines ->
  (forall l, In l lines -> PyStr.contains "SPARK_MASTER=" l = false) ->
  assemble_environment strappend get_local_path inp config st
  = (Raise (UnboundLocalError "spark_master"), st).
Proof.
  intros Hb Hno. unfold assemble_environment, discover_master. rewrite Hb.
  destruct (scan_lines_keep_master lines (mkLocals "" "" None) Hno) as (loc & E & M).
  unfold bind at 1 2. unfold lift. rewrite E. unfold resolve_master.
  rewrite M. reflexivity.
Qed.

(** a non-empty master without [$] is kept as it is *)
Lemma resolve_master_verbatim (loc : spark_locals) (master : string) (st : state) :
  spark_master loc = Some master ->
  master <> "" -> PyStr.has_char "$"%char master = false ->
  resolve_master loc st = (Ok master, st).
Proof.
  intros Hm Hne Hd. unfold resolve_master. rewrite Hm.
  rewrite (PyStrFacts.contains_char "$"%char master), Hd.
  destruct master as [|c r]; [congruence|]. cbn [PyStr.truthy andb negb].
  rewrite (PyStrFacts.replace_absent (String c r) "$SPARK_MASTER_HOST");
    [|now apply PyStrFacts.has_char_absent with (c := "$"%char)].
  rewrite PyStrFacts.replace_absent;
    [reflexivity | now apply PyStrFacts.has_char_absent with (c := "$"%char)].
Qed.

(** a master that contains [$] is not substituted: it is rebuilt from
    the host and the port *)
Lemma resolve_master_with_placeholder (loc : spark_locals) (master : string) (st : state) :
  spark_master loc = Some master ->
  PyStr.has_char "$"%char master = true ->
  spark_host loc <> "" -> spark_port loc <> "" ->
  resolve_master loc st = (Ok ("spark://" ++ spark_host loc ++ ":" ++ spark_port loc), st).
Proof.
  intros Hm Hd Hh Hp. unfold resolve_master. rewrite Hm.
  rewrite (PyStrFacts.contains_char "$"%char master), Hd, andb_false_r.
  destruct (spark_host loc); [congruence|]. destruct (spark_port loc); [congruence|].
  reflexivity.
Qed.

End Master.

(** C2, on the runs of [host_port_input] and [port_only_input].  The
    first host file assigns [SPARK_MASTER_HOST=node1] and
    [SPARK_MASTER_PORT=7077] and has no [SPARK_MASTER] line.  The run
    stops in [assemble_environment] with [UnboundLocalError]: the table
    has no [SPARK_MASTER] entry (the address [spark://node1:7077] is
    never built), nothing is logged and no file is written.  The second
    host file lacks the host line as well: the run stops in the same way,
    no value is logged and no later key is assembled. *)
Theorem master_unbound_at_host_port_input :
  let outcome := run repr_opaque strappend_on_str local_path_under_mount host_port_input in
  let outcome' := run repr_opaque strappend_on_str local_path_under_mount port_only_input in
  bashrc host_port_input
    = Some [line "SPARK_MASTER_HOST=node1"; line "SPARK_MASTER_PORT=7077"]
  /\ fst outcome = Raise (UnboundLocalError "spark_master")
  /\ assoc_get (environment (snd outcome)) "SPARK_MASTER" = None
  /\ logged (snd outcome) = []
  /\ fs (snd outcome) = []
  /\ fst outcome' = Raise (UnboundLocalError "spark_master")
  /\ logged (snd outcome') = []
  /\ assoc_get (environment (snd outcome')) "C360_CLIENT" = None
  /\ fs (snd outcome') = [].
Proof.
  cbv zeta. repeat match goal with |- _ /\ _ => split end;
    vm_compute; reflexivity.
Qed.

(** C3, on the runs of [placeholder_input] and [host_placeholder_input].
    The first host file assigns
    [SPARK_MASTER=mesos://$SPARK_MASTER_HOST:$SPARK_MASTER_PORT] together
    with host [node1] and port [7077].  Replacing the placeholders gives
    [mesos://node1:7077]; the table entry is [spark://node1:7077].  The
    second assigns [SPARK_MASTER=spark://$SPARK_MASTER_HOST:7077] and the
    host [node1]: replacing the placeholder gives [spark://node1:7077];
    the table entry is the unreplaced text and an error is logged. *)
Theorem placeholder_master_at_placeholder_input :
  let outcome := run repr_opaque strappend_on_str local_path_under_mount placeholder_input in
  let outcome' :=
    run repr_opaque strappend_on_str local_path_under_mount host_placeholder_input in
  PyStr.replace (PyStr.replace placeholder_master "$SPARK_MASTER_HOST" "node1")
                "$SPARK_MASTER_PORT" "7077" = "mesos://node1:7077"
  /\ fst outcome = Ok tt
  /\ assoc_get (environment (snd outcome)) "SPARK_MASTER" = Some (PStr "spark://node1:7077")
  /\ PyStr.replace host_placeholder_master "$SPARK_MASTER_HOST" "node1"
     = "spark://node1:7077"
  /\ fst outcome' = Ok tt
  /\ assoc_get (environment (snd outcome')) "SPARK_MASTER"
     = Some (PStr "spark://$SPARK_MASTER_HOST:7077")
  /\ In (Error "Cannot build spark master.") (logged (snd outcome')).
Proof.
  cbv zeta. repeat match goal with |- _ /\ _ => split end;
    vm_compute; try reflexivity.
  right. right. right. left. reflexivity.
Qed.

(* ================================================================== *)
(** * The derived keys of assemble_environment *)

Lemma bind_ok {A B} (m : M A) (k : A -> M B) (st st2 : state) (b : B) :
  bind m k st = (Ok b, st2) ->
  exists a st1, m st = (Ok a, st1) /\ k a st1 = (Ok b, st2).
Proof.
  unfold bind. destruct (m st) as [[a|e] st1]; intros H; [|discriminate].
  now exists a, st1.
Qed.

Lemma env_set_ok (k : string) (v : pyobj) (st st1 : state) (u : unit) :
  env_set k v st = (Ok u, st1) ->
  environment st1 = od_set (environment st) k v.
Proof. unfold env_set. intros H. inversion H. reflexivity. Qed.

Lemma set_from_ok (inp : inputs) (key : string) (stored : result pyobj)
    (st st1 : state) (u : unit) :
  set_from inp key stored st = (Ok u, st1) ->
  exists fallback,
    stored = Ok fallback
    /\ environment st1
       = od_set (environment st) key (environ_get (os_environ inp) key fallback).
Proof.
  unfold set_from, bind, lift, env_set. destruct stored as [fb|e]; intros H;
    [|discriminate].
  inversion H. now exists fb.
Qed.

Section DerivedKeys.

Variables strappend get_local_path : pyobj -> string -> result pyobj.

Lemma set_path_ok (key : string) (stored : result pyobj) (st st1 : state) (u : unit) :
  set_path strappend key stored st = (Ok u, st1) ->
  exists value path,
    stored = Ok value /\ strappend value "/" = Ok path
    /\ environment st1 = od_set (environment st) key path.
Proof.
  unfold set_path, bind, lift, env_set. destruct stored as [v|e]; [|discriminate].
  destruct (strappend v "/") as [p|e] eqn:E; intros H; [|discriminate].
  inversion H. now exists v, p.
Qed.

Ltac next_step H E :=
  apply bind_ok in H; destruct H as (? & ? & E & H).

Ltac lookup_entry :=
  repeat (rewrite od_get_set_other by (intro; discriminate));
  rewrite od_get_set_same.

(** the entries a successful [assemble_environment] leaves in the table:
    [C360_CLIENT] and the bucket and S3 keys take the process-environment
    value when the variable is set and the store lookup (with its
    default) otherwise; the four path keys are computed from the store
    lookup alone *)
Lemma assemble_environment_entries (inp : inputs) (config : pyobj) (st st' : state) :
  assemble_environment strappend get_local_path inp config st = (Ok tt, st') ->
  let e := os_environ inp in
  let from_environ key stored :=
    exists fallback, stored = Ok fallback
      /\ assoc_get (environment st') key = Some (environ_get e key fallback) in
  let from_store key stored :=
    exists value path, stored = Ok value /\ strappend value "/" = Ok path
      /\ assoc_get (environment st') key = Some path in
  from_environ "C360_CLIENT"
    (config_get2 config "general" "client" (environ_get e "C360_ENVIRONMENT" (PStr "")))
  /\ from_environ "CB_DATA_BUCKET"
       (config_get3 config "general" "couchbase" "bucket" (PStr "c360"))
  /\ from_environ "CB_INDEX_BUCKET"
       (config_get3 config "general" "couchbase" "index" (PStr "c360"))
  /\ from_environ "CB_STATISTICS_BUCKET"
       (config_get3 config "general" "couchbase" "statistics" (PStr "c360_statistics"))
  /\ from_environ "S3_ENDPOINT"
       (config_get3 config "general" "s3" "endpoint" (PStr ""))
  /\ from_environ "S3_ACCESSKEY"
       (config_get3 config "general" "s3" "accesskey" (PStr ""))
  /\ from_environ "S3_SECRETKEY"
       (config_get3 config "general" "s3" "secretkey" (PStr "ignored"))
  /\ from_store "C360_SOURCE_PATH"
       (config_get3 config "processing" "paths" "source" (PDict []))
  /\ from_store "C360_INTERMEDIATE_PATH"
       (config_get3 config "processing" "paths" "intermediate" (PDict []))
  /\ from_store "C360_TARGET_PATH"
       (config_get3 config "processing" "paths" "final" (PStr ""))
  /\ from_store "C360_TEMP_PATH"
       (config_get3 config "processing" "internal" "temporary" (PStr "")).
Proof.
  intros H e from_environ from_store. unfold assemble_environment in H.
  next_step H Hmaster. next_step H Hsm. apply env_set_ok in Hsm.
  next_step H H1. apply set_from_ok in H1 as (f1 & S1 & E1).
  next_step H H2. apply set_from_ok in H2 as (f2 & S2 & E2).
  next_step H H3. apply set_from_ok in H3 as (f3 & S3 & E3).
  next_step H H4. apply set_from_ok in H4 as (f4 & S4 & E4).
  next_step H H5. apply set_from_ok in H5 as (f5 & S5 & E5).
  next_step H H6. apply set_from_ok in H6 as (f6 & S6 & E6).
  next_step H H7. apply set_from_ok in H7 as (f7 & S7 & E7).
  next_step H H8. apply set_path_ok in H8 as (v8 & p8 & S8 & A8 & E8).
  next_step H H9. apply set_path_ok in H9 as (v9 & p9 & S9 & A9 & E9).
  next_step H H10. apply set_path_ok in H10 as (v10 & p10 & S10 & A10 & E10).
  next_step H H11. apply set_path_ok in H11 as (v11 & p11 & S11 & A11 & E11).
  next_step H H12. apply set_path_ok in H12 as (v12 & p12 & S12 & A12 & E12).
  next_step H H13. apply set_path_ok in H13 as (v13 & p13 & S13 & A13 & E13).
  apply set_path_ok in H as (v14 & p14 & S14 & A14 & E14).
  unfold from_environ, from_store.
  rewrite E14, E13, E12, E11, E10, E9, E8, E7, E6, E5, E4, E3, E2, E1.
  repeat split.
  - exists f1. split; [exact S1|]. now lookup_entry.
  - exists f2. split; [exact S2|]. now lookup_entry.
  - exists f3. split; [exact S3|]. now lookup_entry.
  - exists f4. split; [exact S4|]. now lookup_entry.
  - exists f5. split; [exact S5|]. now lookup_entry.
  - exists f6. split; [exact S6|]. now lookup_entry.
  - exists f7. split; [exact S7|]. now lookup_entry.
  - exists v8, p8. repeat split; [exact S8 | exact A8 |]. now lookup_entry.
  - exists v9, p9. repeat split; [exact S9 | exact A9 |]. now lookup_entry.
  - exists v10, p10. repeat split; [exact S10 | exact A10 |]. now lookup_entry.
  - exists v11, p11. repeat split; [exact S11 | exact A11 |]. now lookup_entry.
Qed.

End DerivedKeys.

(** the store lookup yields the stored value when every level is there
    and the default when a level is absent *)
Lemma config_get3_levels (d : list (string * pyobj)) (a b c : string) (default : pyobj) :
  config_get3 (PDict d) a b c default
  = match assoc_get d a with
    | None => Ok default
    | Some (PDict da) =>
        match assoc_get da b with
        | None => Ok default
        | Some (PDict db) => Ok (get_or db c default)
        | Some _ => Raise AttributeError
        end
    | Some _ => Raise AttributeError
    end.
Proof.
  unfold config_get3, py_get, rbind, get_or.
  destruct (assoc_get d a) as [[| |?|da]|]; try reflexivity.
  destruct (assoc_get da b) as [[| |?|db]|]; reflexivity.
Qed.

(** C1, on the run of [precedence_input].  Both [C360_CLIENT] and
    [C360_SOURCE_PATH] are set in the process environment and in the
    configuration store.  The run succeeds; [C360_CLIENT] takes the
    process-environment value, [C360_SOURCE_PATH] takes the store value
    (with the separator appended) and not the process-environment one. *)
Theorem source_path_ignores_environment_at_precedence_input :
  let outcome := run repr_opaque strappend_on_str local_path_under_mount precedence_input in
  assoc_get (os_environ precedence_input) "C360_CLIENT" = Some "client-from-env"
  /\ assoc_get (os_environ precedence_input) "C360_SOURCE_PATH" = Some "/data/from-env/"
  /\ config_get2 (stored_config precedence_input) "general" "client" (PStr "")
     = Ok (PStr "client-from-store")
  /\ config_get3 (stored_config precedence_input) "processing" "paths" "source" (PDict [])
     = Ok (PStr "s3://bucket/from-store")
  /\ fst outcome = Ok tt
  /\ assoc_get (environment (snd outcome)) "C360_CLIENT" = Some (PStr "client-from-env")
  /\ assoc_get (environment (snd outcome)) "C360_SOURCE_PATH"
     = Some (PStr "s3://bucket/from-store/").
Proof.
  cbv zeta. repeat match goal with |- _ /\ _ => split end;
    vm_compute; reflexivity.
Qed.

(* ================================================================== *)
(** * write_transfer_script *)

Lemma script_lines_concat (x : string) (xs : list string) :
  script_lines (x :: xs) = block_lines (x :: xs).
Proof. apply PyStrFacts.split_nl_join. Qed.

Lemma block_lines_app (a b : list string) :
  block_lines (a ++ b) = (block_lines a ++ block_lines b)%list.
Proof. unfold block_lines. now rewrite map_app, concat_app. Qed.

Lemma block_lines_one_line (xs : list string) :
  Forall (fun x => PyStr.one_line x = true) xs -> block_lines xs = xs.
Proof.
  unfold block_lines. induction 1 as [|x xs Hx _ IH]; [reflexivity|].
  simpl. now rewrite (PyStrFacts.split_nl_one_line _ Hx), IH.
Qed.

Lemma fetch_line_one_line (sp f : string) :
  PyStr.one_line sp = true -> PyStr.one_line f = true ->
  PyStr.one_line (fetch_line sp f) = true.
Proof.
  intros Hs Hf. unfold fetch_line. now rewrite !PyStrFacts.one_line_app, Hs, Hf.
Qed.

Lemma fetch_block_lines (sp : string) (files : list string) :
  PyStr.one_line sp = true -> Forall (fun f => PyStr.one_line f = true) files ->
  PyStr.split_nl (PyStr.join_nl (map (fetch_line sp) files))
  = match files with
    | [] => [""]
    | _ => map (fetch_line sp) files
    end.
Proof.
  intros Hs Hf. destruct files as [|f fs]; [reflexivity|].
  apply PyStrFacts.split_nl_join_one_line; [discriminate|].
  apply Forall_map. eapply Forall_impl; [|exact Hf].
  intros x Hx. now apply fetch_line_one_line.
Qed.

Lemma fetches_nil (sp : string) : fetches sp [] [].
Proof. split; [reflexivity | constructor]. Qed.

Lemma fetches_app (sp : string) (l1 l2 k1 k2 : list string) :
  fetches sp l1 k1 -> fetches sp l2 k2 -> fetches sp (l1 ++ l2) (k1 ++ k2).
Proof.
  intros [F1 A1] [F2 A2]. split.
  - now rewrite filter_app, map_app, F1, F2.
  - now apply Forall_app.
Qed.

Lemma is_fetch_fetch_line (sp f : string) : is_fetch (fetch_line sp f) = true.
Proof. reflexivity. Qed.

Lemma fetches_block (sp : string) (files : list string) :
  PyStr.one_line sp = true -> Forall (fun f => PyStr.one_line f = true) files ->
  fetches sp files (PyStr.split_nl (PyStr.join_nl (map (fetch_line sp) files))).
Proof.
  intros Hs Hf. rewrite (fetch_block_lines sp files Hs Hf).
  destruct files as [|f fs].
  - split; [reflexivity | repeat constructor].
  - split.
    + generalize (f :: fs). intros l. induction l as [|x l IH]; [reflexivity|].
      cbn [map filter]. rewrite is_fetch_fetch_line. now rewrite IH.
    + apply Forall_map, Forall_forall. intros x _. right. apply is_fetch_fetch_line.
Qed.

Section Transfer.

Variable py_repr : pyobj -> string.

Lemma fetch_block_holds (sp : string) (o : pyobj) (files : list string) :
  holds_files o files ->
  fetch_block py_repr sp o = Ok (PyStr.join_nl (map (fetch_line sp) files)).
Proof.
  intros (d & -> & Hd). unfold fetch_block, py_get, get_or. rewrite Hd.
  cbn [rbind py_iter]. now rewrite map_map.
Qed.

Lemma kpi_blocks_shaped (sp : string) (subs : list pyobj) (groups : list (list string)) :
  PyStr.one_line sp = true ->
  Forall (fun f => PyStr.one_line f = true) (concat groups) ->
  Forall2 holds_files subs groups ->
  exists blocks,
    kpi_blocks py_repr sp subs = Ok blocks
    /\ fetches sp (concat groups) (block_lines blocks).
Proof.
  intros Hs Hl H. induction H as [|o files subs groups Ho _ IH].
  - exists []. split; [reflexivity | apply fetches_nil].
  - cbn [concat] in Hl. apply Forall_app in Hl as [Hf Hrest].
    destruct (IH Hrest) as (blocks & E & F).
    exists (PyStr.join_nl (map (fetch_line sp) files) :: blocks).
    cbn [kpi_blocks]. rewrite (fetch_block_holds sp o files Ho), E. cbn [rbind].
    split; [reflexivity|].
    change (block_lines (?b :: blocks))
      with (PyStr.split_nl b ++ block_lines blocks)%list.
    cbn [concat]. apply fetches_app; [now apply fetches_block | exact F].
Qed.

Lemma entity_blocks_shaped (sp : string) (cat rest : list (string * pyobj))
    (leaves : list string) :
  PyStr.one_line sp = true ->
  Forall (fun f => PyStr.one_line f = true) leaves ->
  (forall n o, In (n, o) rest -> assoc_get cat n = Some o) ->
  shaped rest leaves ->
  exists blocks,
    entity_blocks py_repr sp (PDict cat) (map (fun kv => PStr (fst kv)) rest) = Ok blocks
    /\ fetches sp leaves (block_lines blocks).
Proof.
  intros Hs Hl Hget H. induction H as
    [|name o files rest leaves Hname Ho _ IH|subs groups rest leaves Hsubs _ IH].
  - exists []. split; [reflexivity | apply fetches_nil].
  - apply Forall_app in Hl as [Hf Hrest].
    destruct (IH Hrest (fun n o' Hin => Hget n o' (or_intror Hin))) as (blocks & E & F).
    exists (PyStr.join_nl (map (fetch_line sp) files) :: blocks).
    cbn [map fst entity_blocks py_neq_str].
    apply String.eqb_neq in Hname. rewrite Hname. cbn [negb py_get_key].
    unfold get_or. rewrite (Hget name o (or_introl eq_refl)).
    cbn [rbind]. rewrite (fetch_block_holds sp o files Ho). cbn [rbind].
    rewrite E. cbn [rbind]. split; [reflexivity|].
    change (block_lines (?b :: blocks))
      with (PyStr.split_nl b ++ block_lines blocks)%list.
    apply fetches_app; [now apply fetches_block | exact F].
  - apply Forall_app in Hl as [Hf Hrest].
    destruct (IH Hrest (fun n o' Hin => Hget n o' (or_intror Hin))) as (blocks & E & F).
    destruct (kpi_blocks_shaped sp subs groups Hs Hf Hsubs) as (kb & Ek & Fk).
    exists (kb ++ blocks)%list.
    cbn [map fst entity_blocks py_neq_str String.eqb]. cbn [negb py_get_key].
    unfold get_or. rewrite (Hget "kpis" (PList subs) (or_introl eq_refl)).
    cbn [rbind py_iter]. rewrite Ek. cbn [rbind]. rewrite E. cbn [rbind].
    split; [reflexivity|]. rewrite block_lines_app. now apply fetches_app.
Qed.

Lemma source_download_shaped (tmp sp : string) (cat : list (string * pyobj))
    (leaves : list string) :
  PyStr.one_line sp = true ->
  Forall (fun f => PyStr.one_line f = true) leaves ->
  NoDup (map fst cat) -> shaped cat leaves ->
  exists blocks,
    source_download py_repr tmp sp (PDict cat) = Ok (raw_cd_line tmp :: blocks)
    /\ fetches sp leaves (block_lines blocks).
Proof.
  intros Hs Hl Hnd Hsh.
  destruct (entity_blocks_shaped sp cat cat leaves Hs Hl) as (blocks & E & F);
    [intros n o Hin; now apply assoc_get_in | exact Hsh |].
  exists blocks. unfold source_download. cbn [py_iter rbind]. rewrite E.
  split; [reflexivity | exact F].
Qed.

Lemma write_transfer_script_writes (inp : inputs) (config : pyobj) (st : state) :
  write_transfer_script py_repr inp config st
  = match transfer_scripts py_repr (environment st) config with
    | Ok (download, upload) =>
        for_each (script_events (home_directory inp) download upload)
                 (fs_do (refused inp)) st
    | Raise e => (Raise e, st)
    end.
Proof.
  unfold write_transfer_script, transfer_scripts, environment_path, table_path.
  unfold bind at 1 2 3 4 5 6. unfold lift, env_get, bind at 1 2 3 4 5 6 7 8, ret.
  destruct (config_get2 config "processing" "entities" (PDict [])) as [entities|e];
    [|reflexivity]. cbn [rbind].
  destruct (as_str (get_or (environment st) "C360_TEMP_PATH" (PStr "/nfsmount/")))
    as [t|e]; [|reflexivity]. cbn [rbind].
  destruct (as_str (get_or (environment st) "C360_SOURCE_PATH" (PStr "/nfsmount/")))
    as [s|e]; [|reflexivity]. cbn [rbind].
  destruct (as_str (get_or (environment st) "C360_INTERMEDIATE_PATH" (PStr "/nfsmount/")))
    as [i|e]; [|reflexivity]. cbn [rbind].
  destruct (as_str (get_or (environment st) "C360_TARGET_PATH" (PStr "/nfsmount/")))
    as [f|e]; [|reflexivity]. cbn [rbind].
  destruct (download_lines py_repr (normalize t) (normalize s) (normalize i) entities)
    as [dl|e]; [|reflexivity].
  cbn [rbind]. unfold write_to_file, script_events. cbn [for_each].
  rewrite bind_assoc.
  apply bind_ext; intros _ st1. apply bind_ext; intros _ st2.
  apply bind_ext; intros _ st3. now rewrite bind_unit_ret_r.
Qed.

(** when the file system accepts them, the four operations are performed *)
Lemma write_transfer_script_accepted (inp : inputs) (config : pyobj) (st : state)
    (download upload : list string) :
  transfer_scripts py_repr (environment st) config = Ok (download, upload) ->
  accepted (refused inp) (fs st) (script_events (home_directory inp) download upload)
  = true ->
  write_transfer_script py_repr inp config st
  = (Ok tt,
     mkState (environment st) (logged st)
             (fs st ++ script_events (home_directory inp) download upload)).
Proof.
  intros E Hacc. rewrite write_transfer_script_writes, E.
  now apply perform_accepted.
Qed.

(** a normal return means that the line lists were built and the four
    operations performed *)
Lemma write_transfer_script_ok (inp : inputs) (config : pyobj) (st st' : state) :
  write_transfer_script py_repr inp config st = (Ok tt, st') ->
  exists download upload,
    transfer_scripts py_repr (environment st) config = Ok (download, upload)
    /\ st' = mkState (environment st) (logged st)
                     (fs st ++ script_events (home_directory inp) download upload).
Proof.
  rewrite write_transfer_script_writes.
  destruct (transfer_scripts py_repr (environment st) config) as [[dl ul]|e];
    [|discriminate].
  intros H. apply perform_ok in H as [_ ->]. now exists dl, ul.
Qed.

End Transfer.

Section TransferClaims.

Variable py_repr : pyobj -> string.

Local Abbreviation one_line_all := (Forall (fun f => PyStr.one_line f = true)).

Lemma header_one_line (tmp : string) :
  PyStr.one_line tmp = true -> one_line_all [shebang; mkdir_line tmp].
Proof.
  intros Ht. repeat constructor. unfold mkdir_line.
  now rewrite !PyStrFacts.one_line_app, Ht.
Qed.

Lemma index_download_one_line (tmp ip : string) :
  PyStr.one_line tmp = true -> PyStr.one_line ip = true ->
  one_line_all (index_download tmp ip).
Proof.
  intros Ht Hi. unfold index_download.
  repeat constructor; now rewrite !PyStrFacts.one_line_app, ?Ht, ?Hi.
Qed.

Lemma index_upload_one_line (tmp ip : string) :
  PyStr.one_line tmp = true -> PyStr.one_line ip = true ->
  one_line_all (index_upload tmp ip).
Proof.
  intros Ht Hi. unfold index_upload, archive_line, put_line.
  repeat constructor; now rewrite !PyStrFacts.one_line_app, ?Ht, ?Hi.
Qed.

Lemma target_upload_one_line (tmp tp : string) :
  PyStr.one_line tmp = true -> PyStr.one_line tp = true ->
  one_line_all (target_upload tmp tp).
Proof.
  intros Ht Hp. unfold target_upload, json_cd_line, archive_line, put_line.
  cbn [flat_map final_documents app].
  repeat constructor; now rewrite !PyStrFacts.one_line_app, ?Ht, ?Hp.
Qed.

Lemma raw_cd_one_line (tmp : string) :
  PyStr.one_line tmp = true -> PyStr.one_line (raw_cd_line tmp) = true.
Proof. intros Ht. unfold raw_cd_line. now rewrite !PyStrFacts.one_line_app, Ht. Qed.

(** the lines of the download script for a catalog of the two shapes *)
Lemma download_script_lines (tmp sp ip : string) (cat : list (string * pyobj))
    (leaves : list string) :
  PyStr.one_line tmp = true -> PyStr.one_line sp = true -> PyStr.one_line ip = true ->
  one_line_all leaves -> NoDup (map fst cat) -> shaped cat leaves ->
  exists dl body,
    download_lines py_repr tmp sp ip (PDict cat) = Ok dl
    /\ script_lines dl
       = ([shebang; mkdir_line tmp]
          ++ (if is_remote ip then index_download tmp ip else [])
          ++ (if is_remote sp then raw_cd_line tmp :: body else []))%list
    /\ fetches sp leaves body.
Proof.
  intros Ht Hs Hi Hl Hnd Hsh.
  destruct (source_download_shaped py_repr tmp sp cat leaves Hs Hl Hnd Hsh)
    as (blocks & E & F).
  pose proof (header_one_line tmp Ht) as Hh.
  pose proof (index_download_one_line tmp ip Ht Hi) as Hx.
  pose proof (raw_cd_one_line tmp Ht) as Hr.
  unfold download_lines. destruct (is_remote ip); destruct (is_remote sp);
    rewrite ?E; cbn [rbind]; eexists; exists (block_lines blocks);
    (split; [reflexivity|]); (split; [|exact F]).
  - cbn [app]. rewrite script_lines_concat.
    change (shebang :: mkdir_line tmp :: (index_download tmp ip ++ raw_cd_line tmp :: blocks))%list
      with (([shebang; mkdir_line tmp] ++ index_download tmp ip ++ [raw_cd_line tmp]) ++ blocks)%list.
    rewrite block_lines_app, block_lines_one_line.
    + now rewrite <- !app_assoc.
    + repeat (apply Forall_app; split); auto.
  - cbn [app]. rewrite script_lines_concat, app_nil_r.
    apply (block_lines_one_line ([shebang; mkdir_line tmp] ++ index_download tmp ip)).
    apply Forall_app; auto.
  - cbn [app]. rewrite script_lines_concat.
    change (shebang :: mkdir_line tmp :: raw_cd_line tmp :: blocks)
      with ([shebang; mkdir_line tmp; raw_cd_line tmp] ++ blocks)%list.
    rewrite block_lines_app, block_lines_one_line; [reflexivity|].
    inversion Hh as [|? ? ? Hh']; subst. inversion Hh'; subst. repeat constructor; auto.
  - cbn [app]. rewrite script_lines_concat. now apply block_lines_one_line.
Qed.

Lemma upload_script_lines (tmp ip tp : string) :
  PyStr.one_line tmp = true -> PyStr.one_line ip = true -> PyStr.one_line tp = true ->
  script_lines (upload_lines tmp ip tp) = upload_lines tmp ip tp.
Proof.
  intros Ht Hi Hp.
  pose proof (index_upload_one_line tmp ip Ht Hi) as Hx.
  pose proof (target_upload_one_line tmp tp Ht Hp) as Hy.
  unfold upload_lines. destruct (is_remote ip); destruct (is_remote tp); cbn [app].
  - rewrite script_lines_concat.
    apply (block_lines_one_line (shebang :: (index_upload tmp ip ++ target_upload tmp tp))).
    constructor; [reflexivity | now apply Forall_app].
  - rewrite script_lines_concat.
    apply (block_lines_one_line (shebang :: index_upload tmp ip)). now constructor.
  - rewrite script_lines_concat.
    apply (block_lines_one_line (shebang :: target_upload tmp tp)). now constructor.
  - reflexivity.
Qed.

Lemma transfer_scripts_paths (env : odict) (config entities : pyobj)
    (tmp sp ip tp : string) :
  config_get2 config "processing" "entities" (PDict []) = Ok entities ->
  table_path env "C360_TEMP_PATH" = Ok tmp ->
  table_path env "C360_SOURCE_PATH" = Ok sp ->
  table_path env "C360_INTERMEDIATE_PATH" = Ok ip ->
  table_path env "C360_TARGET_PATH" = Ok tp ->
  transfer_scripts py_repr env config
  = rbind (download_lines py_repr tmp sp ip entities)
          (fun dl => Ok (dl, upload_lines tmp ip tp)).
Proof.
  intros Hc Ht Hs Hi Hp. unfold transfer_scripts. now rewrite Hc, Ht, Hs, Hi, Hp.
Qed.

Lemma is_fetch_not_guarded (l : string) : is_fetch l = true -> guarded l = false.
Proof.
  unfold is_fetch. intros H. apply PyStrFacts.startswith_iff in H as [rest ->].
  reflexivity.
Qed.

(** C5, as amended.  For a catalog that mixes flat entities with the
    nested [kpis] entity, leaf names and paths without line break, and a
    file system that accepts the writes, [write_transfer_script] writes
    the two scripts, and the fetch ([s3cmd get]) lines of the download
    script it writes are the fetch of the identifier archive, present
    exactly when the intermediate path is remote, followed by the entity
    fetches: when the source path is remote, one fetch line per leaf
    file of both shapes, in catalog order; when it is local, none. *)
Theorem one_fetch_line_per_leaf
    (inp : inputs) (st : state) (config : pyobj) (cat : list (string * pyobj))
    (leaves : list string) (tmp sp ip tp : string) :
  config_get2 config "processing" "entities" (PDict []) = Ok (PDict cat) ->
  NoDup (map fst cat) -> shaped cat leaves ->
  Forall (fun f => PyStr.one_line f = true) leaves ->
  table_path (environment st) "C360_TEMP_PATH" = Ok tmp ->
  table_path (environment st) "C360_SOURCE_PATH" = Ok sp ->
  table_path (environment st) "C360_INTERMEDIATE_PATH" = Ok ip ->
  table_path (environment st) "C360_TARGET_PATH" = Ok tp ->
  PyStr.one_line tmp = true -> PyStr.one_line sp = true -> PyStr.one_line ip = true ->
  permissive inp ->
  exists download upload entity_fetches,
    write_transfer_script py_repr inp config st
    = (Ok tt,
       mkState (environment st) (logged st)
         (fs st ++ [FWrite (home_directory inp ++ "/download_files.sh") download;
                    FChmod (home_directory inp ++ "/download_files.sh") mode_0700;
                    FWrite (home_directory inp ++ "/upload_files.sh") upload;
                    FChmod (home_directory inp ++ "/upload_files.sh") mode_0700]))
    /\ filter is_fetch (PyStr.split_nl download)
       = ((if is_remote ip then [index_fetch_line ip] else []) ++ entity_fetches)%list
    /\ (is_remote sp = true ->
        entity_fetches = map (fetch_line sp) leaves
        /\ length entity_fetches = length leaves)
    /\ (is_remote sp = false -> entity_fetches = []).
Proof.
  intros Hc Hnd Hsh Hl Et Es Ei Ep Ht Hs Hi Hfs.
  destruct (download_script_lines tmp sp ip cat leaves Ht Hs Hi Hl Hnd Hsh)
    as (dl & body & Ed & Elines & [Ff _]).
  exists (PyStr.join_nl dl), (PyStr.join_nl (upload_lines tmp ip tp)),
    (if is_remote sp then map (fetch_line sp) leaves else []).
  split; [|split; [|split]].
  - apply (write_transfer_script_accepted py_repr inp config st dl (upload_lines tmp ip tp)).
    + rewrite (transfer_scripts_paths _ config _ tmp sp ip tp Hc Et Es Ei Ep), Ed.
      reflexivity.
    + now apply permissive_accepted.
  - fold (script_lines dl). rewrite Elines, !filter_app.
    change (filter is_fetch [shebang; mkdir_line tmp]) with (@nil string).
    cbn [app]. f_equal.
    + destruct (is_remote ip); reflexivity.
    + destruct (is_remote sp); [|reflexivity]. cbn [filter]. exact Ff.
  - intros ->. split; [reflexivity | apply length_map].
  - intros ->. reflexivity.
Qed.

(** C4, as amended.  For a catalog of the two shapes and paths and file
    names without line breaks: every line after the interpreter line of
    the upload script begins with [[ -d ] or [[ -s ], except the
    [cd <tmp>json || (...; exit 1)] line; every line after the
    interpreter line of the download script begins with such a guard, or
    is the [mkdir -p] line, or is an [s3cmd get] line, or is empty; the
    [mkdir -p] line, the [s3cmd get] lines and the [cd ... ||] line do
    not begin with a guard. *)
Theorem guarded_lines_of_the_scripts
    (env : odict) (config : pyobj) (cat : list (string * pyobj))
    (leaves : list string) (tmp sp ip tp : string) :
  config_get2 config "processing" "entities" (PDict []) = Ok (PDict cat) ->
  NoDup (map fst cat) -> shaped cat leaves ->
  Forall (fun f => PyStr.one_line f = true) leaves ->
  table_path env "C360_TEMP_PATH" = Ok tmp ->
  table_path env "C360_SOURCE_PATH" = Ok sp ->
  table_path env "C360_INTERMEDIATE_PATH" = Ok ip ->
  table_path env "C360_TARGET_PATH" = Ok tp ->
  PyStr.one_line tmp = true -> PyStr.one_line sp = true ->
  PyStr.one_line ip = true -> PyStr.one_line tp = true ->
  exists download upload,
    transfer_scripts py_repr env config = Ok (download, upload)
    /\ hd "" (script_lines download) = shebang
    /\ hd "" (script_lines upload) = shebang
    /\ Forall (fun l => guarded l = true \/ l = mkdir_line tmp
                        \/ is_fetch l = true \/ l = "")
              (tl (script_lines download))
    /\ Forall (fun l => guarded l = true \/ l = json_cd_line tmp)
              (tl (script_lines upload))
    /\ guarded (mkdir_line tmp) = false
    /\ guarded (json_cd_line tmp) = false
    /\ (forall l, is_fetch l = true -> guarded l = false).
Proof.
  intros Hc Hnd Hsh Hl Et Es Ei Ep Ht Hs Hi Hp.
  destruct (download_script_lines tmp sp ip cat leaves Ht Hs Hi Hl Hnd Hsh)
    as (dl & body & Ed & Elines & [_ Fa]).
  exists dl, (upload_lines tmp ip tp).
  rewrite (transfer_scripts_paths env config _ tmp sp ip tp Hc Et Es Ei Ep), Ed.
  rewrite Elines, (upload_script_lines tmp ip tp Ht Hi Hp).
  split; [reflexivity|]. split; [reflexivity|].
  split; [unfold upload_lines; destruct (is_remote ip); destruct (is_remote tp);
          reflexivity|].
  split; [|split; [|split; [reflexivity|split; [reflexivity|apply is_fetch_not_guarded]]]].
  - cbn [app tl]. constructor; [auto|]. apply Forall_app. split.
    + destruct (is_remote ip); [|constructor]. unfold index_download.
      constructor; [left; reflexivity|].
      constructor; [right; right; left; reflexivity|].
      constructor; [left; reflexivity|].
      constructor; [left; reflexivity | constructor].
    + destruct (is_remote sp); [|constructor]. constructor; [now left|].
      eapply Forall_impl; [|exact Fa]. intros l [->|H]; auto.
  - unfold upload_lines.
    assert (Hidx : Forall (fun l => guarded l = true \/ l = json_cd_line tmp)
                     (index_upload tmp ip))
      by (unfold index_upload; repeat constructor; auto).
    assert (Htgt : Forall (fun l => guarded l = true \/ l = json_cd_line tmp)
                     (target_upload tmp tp))
      by (unfold target_upload; cbn [flat_map final_documents app];
          repeat constructor; auto).
    destruct (is_remote ip); destruct (is_remote tp); cbn [app tl];
      auto using Forall_app, Forall_nil.
    apply Forall_app; auto.
Qed.

Lemma source_download_head (tmp sp : string) (entities : pyobj) (src : list string) :
  source_download py_repr tmp sp entities = Ok src ->
  exists blocks, src = raw_cd_line tmp :: blocks.
Proof.
  unfold source_download. destruct (py_iter entities) as [names|]; [|discriminate].
  cbn [rbind]. destruct (entity_blocks py_repr sp entities names) as [blocks|];
    [|discriminate].
  cbn [rbind]. intros H. inversion H. now exists blocks.
Qed.

Lemma download_lines_shape (tmp sp ip : string) (entities : pyobj) (dl : list string) :
  download_lines py_repr tmp sp ip entities = Ok dl ->
  exists blocks,
    dl = ([shebang; mkdir_line tmp]
          ++ (if is_remote ip then index_download tmp ip else [])
          ++ (if is_remote sp then raw_cd_line tmp :: blocks else []))%list.
Proof.
  unfold download_lines. destruct (is_remote sp).
  - destruct (source_download py_repr tmp sp entities) as [src|] eqn:E; [|discriminate].
    destruct (source_download_head _ _ _ _ E) as (blocks & ->).
    cbn [rbind]. intros H. inversion H. exists blocks.
    destruct (is_remote ip); reflexivity.
  - intros H. inversion H. exists [].
    destruct (is_remote ip); now rewrite ?app_nil_r.
Qed.

Lemma upload_lines_shape (tmp ip tp : string) :
  upload_lines tmp ip tp
  = ([shebang]
     ++ (if is_remote ip then index_upload tmp ip else [])
     ++ (if is_remote tp then target_upload tmp tp else []))%list.
Proof.
  unfold upload_lines. destruct (is_remote ip); destruct (is_remote tp);
    now rewrite ?app_nil_r, <- ?app_assoc.
Qed.

(** C8, as amended.  The generator classifies the intermediate, the
    source and the target path, each by whether its normalized form
    starts with [s3].  The download script is the two fixed lines
    followed by the identifier block exactly when the intermediate path
    is remote and by the entity block exactly when the source path is
    remote; the upload script is the interpreter line followed by the
    identifier block exactly when the intermediate path is remote and by
    the document block exactly when the target path is remote.  A local
    path contributes no line.  The temporary path is only the prefix of
    the working directories. *)
Theorem remote_paths_get_staging_lines
    (env : odict) (config : pyobj) (raw_t raw_s raw_i raw_f : string)
    (download upload : list string) :
  get_or env "C360_TEMP_PATH" (PStr "/nfsmount/") = PStr raw_t ->
  get_or env "C360_SOURCE_PATH" (PStr "/nfsmount/") = PStr raw_s ->
  get_or env "C360_INTERMEDIATE_PATH" (PStr "/nfsmount/") = PStr raw_i ->
  get_or env "C360_TARGET_PATH" (PStr "/nfsmount/") = PStr raw_f ->
  transfer_scripts py_repr env config = Ok (download, upload) ->
  let tmp := normalize raw_t in
  let sp := normalize raw_s in
  let ip := normalize raw_i in
  let tp := normalize raw_f in
  (forall p, is_remote p = true <-> exists rest, p = "s3" ++ rest)
  /\ (exists entity_block,
        download
        = ([shebang; mkdir_line tmp]
           ++ (if is_remote ip then index_download tmp ip else [])
           ++ (if is_remote sp then raw_cd_line tmp :: entity_block else []))%list)
  /\ upload
     = ([shebang]
        ++ (if is_remote ip then index_upload tmp ip else [])
        ++ (if is_remote tp then target_upload tmp tp else []))%list.
Proof.
  intros Gt Gs Gi Gf H tmp sp ip tp.
  split; [intros p; apply PyStrFacts.startswith_iff|].
  unfold transfer_scripts, table_path in H. rewrite Gt, Gs, Gi, Gf in H.
  destruct (config_get2 config "processing" "entities" (PDict [])) as [entities|];
    [|discriminate].
  cbn [rbind as_str] in H. fold tmp sp ip tp in H.
  destruct (download_lines py_repr tmp sp ip entities) as [dl|] eqn:E; [|discriminate].
  cbn [rbind] in H. inversion H; subst.
  split; [now apply download_lines_shape with (entities := entities)|].
  apply upload_lines_shape.
Qed.

End TransferClaims.

(** ** The claims on concrete tables *)

Lemma files_holder_holds (files : list string) : holds_files (files_holder files) files.
Proof. eexists. split; reflexivity. Qed.

Lemma mixed_catalog_shaped : shaped mixed_catalog mixed_leaves.
Proof.
  unfold mixed_catalog, mixed_leaves.
  apply shaped_flat; [discriminate | apply files_holder_holds |].
  apply shaped_kpis; [repeat constructor; apply files_holder_holds |].
  apply shaped_flat; [discriminate | apply files_holder_holds | apply shaped_nil].
Qed.

Lemma mixed_catalog_nodup : NoDup (map fst mixed_catalog).
Proof. repeat (constructor; [simpl; intuition discriminate|]). constructor. Qed.

Lemma mixed_leaves_one_line : Forall (fun f => PyStr.one_line f = true) mixed_leaves.
Proof. repeat constructor. Qed.

Lemma empty_host_input_permissive : permissive empty_host_input.
Proof. intros done ev. reflexivity. Qed.

Lemma one_fetch_line_per_leaf_witness :
  (exists download upload,
     write_transfer_script repr_opaque empty_host_input mixed_config remote_state
     = (Ok tt,
        mkState remote_table []
          [FWrite "/home/loader/download_files.sh" download;
           FChmod "/home/loader/download_files.sh" mode_0700;
           FWrite "/home/loader/upload_files.sh" upload;
           FChmod "/home/loader/upload_files.sh" mode_0700])
     /\ filter is_fetch (PyStr.split_nl download)
        = index_fetch_line "s3://bucket/mid/"
          :: map (fetch_line "s3://bucket/in/")
               ["person_a.csv"; "person_b.csv"; "kpi_x.csv"; "kpi_y.csv"; "kpi_z.csv";
                "organization.csv"])
  /\ (exists download upload,
        write_transfer_script repr_opaque empty_host_input mixed_config local_source_state
        = (Ok tt,
           mkState local_source_table []
             [FWrite "/home/loader/download_files.sh" download;
              FChmod "/home/loader/download_files.sh" mode_0700;
              FWrite "/home/loader/upload_files.sh" upload;
              FChmod "/home/loader/upload_files.sh" mode_0700])
        /\ filter is_fetch (PyStr.split_nl download) = [index_fetch_line "s3://bucket/mid/"]).
Proof.
  split.
  - destruct (one_fetch_line_per_leaf repr_opaque empty_host_input remote_state
                mixed_config mixed_catalog
                mixed_leaves "/nfsmount/tmp/" "s3://bucket/in/" "s3://bucket/mid/"
                "s3://bucket/out/" eq_refl mixed_catalog_nodup mixed_catalog_shaped
                mixed_leaves_one_line eq_refl eq_refl eq_refl eq_refl eq_refl eq_refl eq_refl
                empty_host_input_permissive)
      as (dl & ul & ef & E & F & Hremote & _).
    exists dl, ul. split; [exact E|]. rewrite F.
    destruct (Hremote eq_refl) as [-> _]. reflexivity.
  - destruct (one_fetch_line_per_leaf repr_opaque empty_host_input local_source_state
                mixed_config mixed_catalog
                mixed_leaves "/nfsmount/tmp/" "/nfsmount/in/" "s3://bucket/mid/"
                "s3://bucket/out/" eq_refl mixed_catalog_nodup mixed_catalog_shaped
                mixed_leaves_one_line eq_refl eq_refl eq_refl eq_refl eq_refl eq_refl eq_refl
                empty_host_input_permissive)
      as (dl & ul & ef & E & F & _ & Hlocal).
    exists dl, ul. split; [exact E|]. rewrite F, (Hlocal eq_refl). reflexivity.
Defined.

(** C5 as stated fails for a leaf name with a line break: the catalog has
    one leaf, the source path is remote, and the download script that is
    written has three entity fetch lines after the fetch of the
    identifier archive. *)
Lemma one_fetch_line_per_leaf_counterexample :
  exists download upload,
    write_transfer_script repr_opaque empty_host_input split_leaf_config remote_state
    = (Ok tt,
       mkState remote_table []
         [FWrite "/home/loader/download_files.sh" download;
          FChmod "/home/loader/download_files.sh" mode_0700;
          FWrite "/home/loader/upload_files.sh" upload;
          FChmod "/home/loader/upload_files.sh" mode_0700])
    /\ shaped split_leaf_catalog [split_leaf]
    /\ filter is_fetch (PyStr.split_nl download)
       = [index_fetch_line "s3://bucket/mid/";
          "s3cmd get --force s3://bucket/in/x"; "s3cmd get y x"; "s3cmd get y"].
Proof.
  eexists. eexists. split; [vm_compute; reflexivity|]. split.
  - apply (shaped_flat "person" _ [split_leaf] [] []);
      [discriminate | apply files_holder_holds | apply shaped_nil].
  - vm_compute. reflexivity.
Qed.

Lemma guarded_lines_of_the_scripts_witness :
  exists download upload,
    transfer_scripts repr_opaque remote_table mixed_config = Ok (download, upload)
    /\ Forall (fun l => guarded l = true \/ l = mkdir_line "/nfsmount/tmp/"
                        \/ is_fetch l = true \/ l = "")
              (tl (script_lines download))
    /\ Forall (fun l => guarded l = true \/ l = json_cd_line "/nfsmount/tmp/")
              (tl (script_lines upload)).
Proof.
  destruct (guarded_lines_of_the_scripts repr_opaque remote_table mixed_config mixed_catalog
              mixed_leaves "/nfsmount/tmp/" "s3://bucket/in/" "s3://bucket/mid/"
              "s3://bucket/out/" eq_refl mixed_catalog_nodup mixed_catalog_shaped
              mixed_leaves_one_line eq_refl eq_refl eq_refl eq_refl
              eq_refl eq_refl eq_refl eq_refl)
    as (dl & ul & E & _ & _ & Hd & Hu & _).
  exists dl, ul. split; [exact E|]. split; assumption.
Defined.

(** C4 as stated fails: with remote paths the download script has the
    [mkdir -p] line and the [s3cmd get] lines, and the upload script the
    [cd ... || (...; exit 1)] line, after the interpreter line; none of
    them begins with [[ -d ] or [[ -s ]. *)
Lemma unguarded_lines_counterexample :
  exists download upload,
    transfer_scripts repr_opaque remote_table mixed_config = Ok (download, upload)
    /\ nth 1 (script_lines download) "" = mkdir_line "/nfsmount/tmp/"
    /\ guarded (nth 1 (script_lines download) "") = false
    /\ nth 3 (script_lines download) "" = index_fetch_line "s3://bucket/mid/"
    /\ guarded (nth 3 (script_lines download) "") = false
    /\ nth 7 (script_lines download) "" = fetch_line "s3://bucket/in/" "person_a.csv"
    /\ guarded (nth 7 (script_lines download) "") = false
    /\ nth 4 (script_lines upload) "" = json_cd_line "/nfsmount/tmp/"
    /\ guarded (nth 4 (script_lines upload) "") = false.
Proof.
  eexists. eexists. split; [vm_compute; reflexivity|].
  repeat split; vm_compute; reflexivity.
Qed.

Lemma remote_paths_get_staging_lines_witness :
  exists download upload,
    transfer_scripts repr_opaque local_source_table mixed_config = Ok (download, upload)
    /\ download
       = (shebang :: mkdir_line "/nfsmount/tmp/"
          :: index_download "/nfsmount/tmp/" "s3://bucket/mid/")
    /\ upload
       = (shebang :: index_upload "/nfsmount/tmp/" "s3://bucket/mid/"
          ++ target_upload "/nfsmount/tmp/" "s3://bucket/out/")%list.
Proof.
  destruct (transfer_scripts repr_opaque local_source_table mixed_config)
    as [[dl ul]|e] eqn:E; [|vm_compute in E; discriminate].
  exists dl, ul. split; [reflexivity|].
  destruct (remote_paths_get_staging_lines repr_opaque local_source_table mixed_config
              "/nfsmount/tmp/" "/nfsmount/in/" "s3n://bucket/mid/" "s3://bucket/out/"
              dl ul eq_refl eq_refl eq_refl eq_refl E) as (_ & (blocks & Hd) & Hu).
  split; [exact Hd | exact Hu].
Defined.

(** C8 as stated fails for the temporary path: with the three other
    paths local and a temporary path whose normalized form starts with
    the scheme marker, the scripts have no staging line; they are the
    scripts of an all-local table, up to the directory prefix. *)
Lemma remote_temporary_path_counterexample :
  get_or remote_temp_table "C360_TEMP_PATH" (PStr "/nfsmount/") = PStr "s3a://bucket/tmp/"
  /\ table_path remote_temp_table "C360_TEMP_PATH" = Ok "s3://bucket/tmp/"
  /\ is_remote "s3://bucket/tmp/" = true
  /\ transfer_scripts repr_opaque remote_temp_table (PDict [])
     = Ok ([shebang; mkdir_line "s3://bucket/tmp/"], [shebang])
  /\ transfer_scripts repr_opaque local_table (PDict [])
     = Ok ([shebang; mkdir_line "/nfsmount/tmp/"], [shebang]).
Proof. repeat split. Qed.

(* ================================================================== *)
(** * Further properties: normalization *)

Module ReplaceFacts.
Import PyStr.

Lemma replace_from_skip (old new q rest : string) :
  replace_from old new (String.length q) (q ++ rest) = replace_from old new 0 rest.
Proof. induction q as [|c q IH]; [reflexivity | exact IH]. Qed.

Lemma replace_match (old new rest : string) :
  old <> EmptyString -> replace (old ++ rest) old new = new ++ replace rest old new.
Proof.
  intros Hne. destruct old as [|a o]; [congruence|].
  unfold replace. change (String a o ++ rest) with (String a (o ++ rest)).
  cbn [replace_from].
  change (String a (o ++ rest)) with (String a o ++ rest).
  rewrite PyStrFacts.prefix_app.
  cbn [String.length]. rewrite Nat.sub_1_r. cbn [Nat.pred].
  now rewrite replace_from_skip.
Qed.

Lemma replace_step (old new : string) (c : ascii) (r : string) :
  String.prefix old (String c r) = false ->
  replace (String c r) old new = String c (replace r old new).
Proof. intros H. unfold replace. cbn [replace_from]. now rewrite H. Qed.

Lemma startswith_s3_replace (s o n : string) :
  startswith (replace s ("s3" ++ o) ("s3" ++ n)) "s3" = startswith s "s3".
Proof.
  destruct (String.prefix ("s3" ++ o) s) eqn:E.
  - apply PyStrFacts.prefix_split in E as [rest ->].
    rewrite replace_match by discriminate. unfold startswith. cbn [append].
    now rewrite !PyStrFacts.prefix_cons, !PyStrFacts.prefix_empty.
  - destruct s as [|c0 r]; [reflexivity|].
    rewrite (replace_step _ _ _ _ E). unfold startswith.
    destruct (String.prefix ("s3" ++ o) r) eqn:E1.
    + apply PyStrFacts.prefix_split in E1 as [rest ->].
      rewrite replace_match by discriminate.
      cbn [append]. rewrite !PyStrFacts.prefix_cons.
      cbn [Ascii.eqb Bool.eqb andb]. now rewrite !andb_false_r.
    + destruct r as [|c1 r']; [reflexivity|].
      rewrite (replace_step _ _ _ _ E1).
      now rewrite !PyStrFacts.prefix_cons, !PyStrFacts.prefix_empty.
Qed.

Lemma last_char_nonempty (c : ascii) (s : string) :
  exists d, last_char (String c s) = Some d.
Proof.
  revert c. induction s as [|a s IH]; intros c; [now exists c|].
  change (last_char (String c (String a s))) with (last_char (String a s)).
  apply IH.
Qed.

Lemma last_char_cons (c : ascii) (s : string) :
  last_char (String c s)
  = match last_char s with Some d => Some d | None => Some c end.
Proof.
  destruct s as [|a s]; [reflexivity|].
  change (last_char (String c (String a s))) with (last_char (String a s)).
  destruct (last_char_nonempty a s) as [d ->]. reflexivity.
Qed.

Lemma last_char_app (a b : string) :
  last_char (a ++ b)
  = match last_char b with Some d => Some d | None => last_char a end.
Proof.
  induction a as [|c a IH].
  - cbn [append]. now destruct (last_char b).
  - cbn [append]. rewrite !last_char_cons, IH.
    destruct (last_char b); [reflexivity|]. reflexivity.
Qed.

Lemma length_app (a b : string) :
  String.length (a ++ b) = String.length a + String.length b.
Proof. induction a as [|c a IH]; cbn; [reflexivity | now rewrite IH]. Qed.

Lemma last_char_replace (old new : string) :
  old <> EmptyString -> last_char new = last_char old ->
  forall s, last_char (replace s old new) = last_char s.
Proof.
  intros Hne Hlast s.
  remember (String.length s) as n eqn:Hn.
  assert (Hle : String.length s <= n) by lia. clear Hn.
  revert s Hle. induction n as [|n IH]; intros s Hle.
  - destruct s; [reflexivity | cbn in Hle; lia].
  - destruct (String.prefix old s) eqn:E.
    + apply PyStrFacts.prefix_split in E as [rest ->].
      rewrite replace_match by exact Hne. rewrite !last_char_app.
      rewrite IH.
      * now rewrite Hlast.
      * rewrite length_app in Hle. destruct old; [congruence|]. cbn in Hle. lia.
    + destruct s as [|c r]; [reflexivity|].
      rewrite (replace_step _ _ _ _ E), !last_char_cons.
      rewrite IH; [reflexivity | cbn in Hle; lia].
Qed.

Lemma endswith_char (s : string) (c : ascii) :
  endswith s (String c EmptyString)
  = match last_char s with Some d => Ascii.eqb d c | None => false end.
Proof.
  induction s as [|a r IH]; [reflexivity|].
  cbn [endswith]. rewrite IH, last_char_cons.
  destruct r as [|b r'].
  - cbn. now destruct (Ascii.eqb a c).
  - assert (Hs : String.eqb (String a (String b r')) (String c EmptyString) = false).
    { cbn. now destruct (Ascii.eqb a c). }
    rewrite Hs. cbn [orb].
    destruct (last_char_nonempty b r') as [d ->]. reflexivity.
Qed.

End ReplaceFacts.

(** X1.  Normalization never changes how a path is classified: the
    normalized form starts with [s3] exactly when the path itself does. *)
Theorem normalization_keeps_classification (s : string) :
  is_remote (normalize s) = is_remote s.
Proof.
  unfold is_remote, normalize.
  rewrite (ReplaceFacts.startswith_s3_replace _ "n:" ":").
  apply (ReplaceFacts.startswith_s3_replace _ "a:" ":").
Qed.

(** X2.  Normalization keeps the last character of a path, so a path
    ends in the separator [/] after normalization exactly when it did
    before. *)
Theorem normalization_keeps_trailing_separator (s : string) :
  last_char (normalize s) = last_char s
  /\ PyStr.endswith (normalize s) "/" = PyStr.endswith s "/".
Proof.
  assert (H : last_char (normalize s) = last_char s).
  { unfold normalize.
    rewrite (ReplaceFacts.last_char_replace "s3n:" "s3:") by (discriminate || reflexivity).
    now rewrite (ReplaceFacts.last_char_replace "s3a:" "s3:") by (discriminate || reflexivity). }
  split; [exact H|]. now rewrite !ReplaceFacts.endswith_char, H.
Qed.

(* ================================================================== *)
(** * Further properties: write_s3_config and write_ssh_key *)

Section OtherWriters.

Variable py_repr : pyobj -> string.

(** X3.  [write_s3_config] drops one leading [https://] or [http://]
    from the endpoint and builds the eight lines of [~/.s3cfg]:
    [host_base] and [host_bucket] both carry the bare host, and
    [use_https = true] is written whatever the scheme was.  When the file
    system accepts the write, this one file is written, with no [chmod],
    and table and log are untouched; when it refuses, [IOError] is
    raised and the state is left as it was. *)
Theorem s3_config_strips_scheme (inp : inputs) (st : state) (endpoint host : string) :
  get_or (environment st) "S3_ENDPOINT" (PStr "") = PStr endpoint ->
  endpoint = "https://" ++ host \/ endpoint = "http://" ++ host
  \/ (endpoint = host /\ PyStr.startswith host "https://" = false
      /\ PyStr.startswith host "http://" = false) ->
  let access := py_str py_repr (get_or (environment st) "S3_ACCESSKEY" (PStr "")) in
  let secret := py_str py_repr (get_or (environment st) "S3_SECRETKEY" (PStr "ignored")) in
  PyStr.one_line host = true -> PyStr.one_line access = true ->
  PyStr.one_line secret = true ->
  exists text,
    PyStr.split_nl text
    = ["[default]"; "host_base = " ++ host; "host_bucket = " ++ host;
       "access_key = " ++ access; "secret_key = " ++ secret;
       "use_https = true"; "signature_v2 = false"; "enable_multipart = false"]
    /\ (refused inp (fs st) (FWrite (home_directory inp ++ "/.s3cfg") text) = false ->
        write_s3_config py_repr inp st
        = (Ok tt,
           mkState (environment st) (logged st)
                   (fs st ++ [FWrite (home_directory inp ++ "/.s3cfg") text])))
    /\ (refused inp (fs st) (FWrite (home_directory inp ++ "/.s3cfg") text) = true ->
        write_s3_config py_repr inp st = (Raise IOError, st)).
Proof.
  intros Hget Hcases access secret Hh Ha Hs.
  assert (Hstrip :
    (if PyStr.startswith endpoint "https://" then drop 8 endpoint
     else if PyStr.startswith endpoint "http://" then drop 7 endpoint
     else endpoint) = host).
  { destruct Hcases as [-> | [-> | (-> & H1 & H2)]].
    - unfold PyStr.startswith. now rewrite PyStrFacts.prefix_app.
    - unfold PyStr.startswith. rewrite PyStrFacts.prefix_app.
      assert (E : String.prefix "https://" ("http://" ++ host) = false) by reflexivity.
      now rewrite E.
    - now rewrite H1, H2. }
  assert (Hw : forall text,
    text = PyStr.join_nl
             ["[default]"; "host_base = " ++ host; "host_bucket = " ++ host;
              "access_key = " ++ access; "secret_key = " ++ secret;
              "use_https = true"; "signature_v2 = false"; "enable_multipart = false"] ->
    write_s3_config py_repr inp st
    = fs_do (refused inp) (FWrite (home_directory inp ++ "/.s3cfg") text) st).
  { intros text ->. unfold write_s3_config, bind, env_get, lift. rewrite Hget.
    cbn [as_str]. rewrite Hstrip. reflexivity. }
  eexists. split; [|split].
  - apply PyStrFacts.split_nl_join_one_line; [discriminate|].
    repeat constructor; now rewrite ?PyStrFacts.one_line_app, ?Hh, ?Ha, ?Hs.
  - intros Hacc. rewrite (Hw _ eq_refl). now apply fs_do_accepted.
  - intros Href. rewrite (Hw _ eq_refl). now apply (fs_do_refused _ _ _ Href).
Qed.

(** X4.  When the [S3_ENDPOINT] entry of the table is not a string (a
    null or nested value taken over from the store), [write_s3_config]
    raises [AttributeError] and writes nothing. *)
Theorem s3_config_needs_string_endpoint (inp : inputs) (st : state) :
  (forall s, get_or (environment st) "S3_ENDPOINT" (PStr "") <> PStr s) ->
  write_s3_config py_repr inp st = (Raise AttributeError, st).
Proof.
  intros H. unfold write_s3_config, bind, env_get, lift.
  destruct (get_or (environment st) "S3_ENDPOINT" (PStr "")) as [|s|l|d] eqn:E;
    try reflexivity.
  now destruct (H s).
Qed.

Lemma ssh_loop_events (inp : inputs) (keys rest : list (string * pyobj)) (st : state) :
  (forall k v, In (k, v) rest -> assoc_get keys k = Some v) ->
  Forall (fun kv => exists d, snd kv = PDict d) rest ->
  for_each (map (fun kv => PStr (fst kv)) rest)
    (fun key =>
       entry <- lift (py_get_key (PDict keys) key (PDict [])) ;;
       key_value <- lift (py_get entry "key" PNone) ;;
       entry' <- lift (py_get_key (PDict keys) key (PDict [])) ;;
       filename <- lift (py_get entry' "filename" PNone) ;;
       let file_name := home_directory inp ++ "/.ssh/" ++ py_str py_repr filename in
       fs_do (refused inp) (FWrite file_name (py_str py_repr key_value ++ PyStr.NL)) ;;;
       fs_do (refused inp) (FChmod file_name mode_0600)) st
  = for_each
      (flat_map (fun kv => ssh_key_events py_repr (home_directory inp) (snd kv)) rest)
      (fs_do (refused inp)) st.
Proof.
  intros Hget Hall.
  match goal with |- for_each _ ?b _ = _ => set (body := b) end.
  revert st. induction Hall as [|[k v] rest (d & Hd) _ IH]; intros st; [reflexivity|].
  cbn [snd] in Hd. subst v. cbn [map fst for_each flat_map snd ssh_key_events app].
  assert (Hb : forall s,
             body (PStr k) s
             = bind (fs_do (refused inp)
                       (FWrite (home_directory inp ++ "/.ssh/"
                                ++ py_str py_repr (get_or d "filename" PNone))
                               (py_str py_repr (get_or d "key" PNone) ++ PyStr.NL)))
                    (fun _ => fs_do (refused inp)
                       (FChmod (home_directory inp ++ "/.ssh/"
                                ++ py_str py_repr (get_or d "filename" PNone))
                               mode_0600)) s).
  { intros s. unfold body. unfold bind at 1 2 3 4. unfold lift.
    cbn [py_get_key]. unfold get_or at 1 2.
    rewrite (Hget k (PDict d) (or_introl eq_refl)). reflexivity. }
  rewrite (bind_ext_l _ _ _ _ Hb), bind_assoc.
  apply bind_ext; intros _ st1. apply bind_ext; intros _ st2.
  apply IH. intros k' v' Hin. apply Hget. now right.
Qed.

(** [write_ssh_key] performs the operations of the entries, in the order
    of the section *)
Lemma write_ssh_key_events (inp : inputs) (config : pyobj)
    (keys : list (string * pyobj)) (st : state) :
  config_get2 config "general" "ssh" (PDict []) = Ok (PDict keys) ->
  NoDup (map fst keys) ->
  Forall (fun kv => exists d, snd kv = PDict d) keys ->
  write_ssh_key py_repr inp config st
  = for_each
      (flat_map (fun kv => ssh_key_events py_repr (home_directory inp) (snd kv)) keys)
      (fs_do (refused inp)) st.
Proof.
  intros Hc Hnd Hall. unfold write_ssh_key.
  unfold bind at 1. unfold lift at 1. rewrite Hc.
  unfold bind at 1. unfold lift at 1. cbn [py_iter].
  apply ssh_loop_events; [|exact Hall].
  intros k v Hin. now apply assoc_get_in.
Qed.

(** X5.  For an [ssh] section whose entries are dicts, [write_ssh_key]
    attempts, in the order of the section, for each entry the write of
    [~/.ssh/<filename>] with the key and a line break, followed by
    [chmod 0600] of that file.  When the file system accepts all of
    them, it returns normally and exactly these operations were
    performed.  Otherwise it stops at the first operation that is
    refused, raising [IOError] for a write and [OSError] for a [chmod],
    with the operations before it performed; the module never creates
    [~/.ssh], so a refused first write leaves the state as it was.  In
    no case does it change the table or the log. *)
Theorem ssh_keys_written (inp : inputs) (config : pyobj)
    (keys : list (string * pyobj)) (st : state) :
  config_get2 config "general" "ssh" (PDict []) = Ok (PDict keys) ->
  NoDup (map fst keys) ->
  Forall (fun kv => exists d, snd kv = PDict d) keys ->
  let events :=
    flat_map (fun kv => ssh_key_events py_repr (home_directory inp) (snd kv)) keys in
  (accepted (refused inp) (fs st) events = true ->
   write_ssh_key py_repr inp config st
   = (Ok tt, mkState (environment st) (logged st) (fs st ++ events)))
  /\ (forall before ev after,
        events = (before ++ ev :: after)%list ->
        accepted (refused inp) (fs st) before = true ->
        refused inp (fs st ++ before) ev = true ->
        write_ssh_key py_repr inp config st
        = (Raise (refusal ev),
           mkState (environment st) (logged st) (fs st ++ before)))
  /\ (forall k d rest,
        keys = (k, PDict d) :: rest ->
        refused inp (fs st)
          (FWrite (home_directory inp ++ "/.ssh/"
                   ++ py_str py_repr (get_or d "filename" PNone))
                  (py_str py_repr (get_or d "key" PNone) ++ PyStr.NL)) = true ->
        write_ssh_key py_repr inp config st = (Raise IOError, st)).
Proof.
  intros Hc Hnd Hall events.
  pose proof (write_ssh_key_events inp config keys st Hc Hnd Hall) as E.
  fold events in E. split; [|split].
  - intros Hacc. rewrite E. now apply perform_accepted.
  - intros before ev after Hsplit Hacc Href. rewrite E, Hsplit.
    now apply perform_refused.
  - intros k d rest Hkeys Href. rewrite E. unfold events. rewrite Hkeys.
    cbn [flat_map snd ssh_key_events app for_each]. unfold bind at 1.
    now rewrite (fs_do_refused _ _ _ Href).
Qed.

(** X6.  When [write_ssh_key] returns normally, an entry of the [ssh]
    section without a [filename] has been written to the file named
    [None] under [~/.ssh/], and an entry without a [key] has got the
    content [None]: neither is skipped or rejected. *)
Theorem ssh_entry_without_filename (inp : inputs) (config : pyobj)
    (keys : list (string * pyobj)) (st st' : state) (k : string)
    (d : list (string * pyobj)) :
  config_get2 config "general" "ssh" (PDict []) = Ok (PDict keys) ->
  NoDup (map fst keys) ->
  Forall (fun kv => exists d, snd kv = PDict d) keys ->
  In (k, PDict d) keys ->
  write_ssh_key py_repr inp config st = (Ok tt, st') ->
  (assoc_get d "filename" = None ->
   In (FWrite (home_directory inp ++ "/.ssh/None")
              (py_str py_repr (get_or d "key" PNone) ++ PyStr.NL))
      (fs st'))
  /\ (assoc_get d "key" = None ->
      In (FWrite (home_directory inp ++ "/.ssh/"
                  ++ py_str py_repr (get_or d "filename" PNone))
                 ("None" ++ PyStr.NL))
         (fs st')).
Proof.
  intros Hc Hnd Hall Hin Hok.
  rewrite (write_ssh_key_events inp config keys st Hc Hnd Hall) in Hok.
  apply perform_ok in Hok as [_ ->]. cbn [fs].
  assert (Hev : forall ev,
             In ev (ssh_key_events py_repr (home_directory inp) (PDict d)) ->
             In ev (fs st ++ flat_map
                      (fun kv => ssh_key_events py_repr (home_directory inp) (snd kv))
                      keys)%list).
  { intros ev Hev. apply in_or_app. right. apply in_flat_map.
    exists (k, PDict d). split; [exact Hin | exact Hev]. }
  split; intros Hnone; apply Hev; cbn [ssh_key_events]; unfold get_or;
    rewrite Hnone; left; reflexivity.
Qed.

(** X7.  Without a [general] section, or without [ssh] inside it,
    [write_ssh_key] succeeds and writes nothing. *)
Theorem ssh_section_absent (inp : inputs) (st : state) (d : list (string * pyobj)) :
  assoc_get d "general" = None
  \/ (exists g, assoc_get d "general" = Some (PDict g) /\ assoc_get g "ssh" = None) ->
  write_ssh_key py_repr inp (PDict d) st = (Ok tt, st).
Proof.
  intros H.
  assert (Hc : config_get2 (PDict d) "general" "ssh" (PDict []) = Ok (PDict [])).
  { unfold config_get2, py_get, get_or, rbind.
    destruct H as [-> | (g & -> & ->)]; reflexivity. }
  rewrite (write_ssh_key_events inp (PDict d) [] st Hc); [|constructor|constructor].
  reflexivity.
Qed.

End OtherWriters.

(* ================================================================== *)
(** * Further properties: what each method leaves alone *)

Section Preserves.

Context {R : state -> state -> Prop}.
Hypothesis R_refl : forall s, R s s.
Hypothesis R_trans : forall a b c, R a b -> R b c -> R a c.

Lemma preserves_ret {A} (a : A) : preserves R (ret a).
Proof. intros st. apply R_refl. Qed.

Lemma preserves_raise {A} (e : exn) : preserves R (@raise A e).
Proof. intros st. apply R_refl. Qed.

Lemma preserves_lift {A} (r : result A) : preserves R (lift r).
Proof. intros st. apply R_refl. Qed.

Lemma preserves_env_get (k : string) (d : pyobj) : preserves R (env_get k d).
Proof. intros st. apply R_refl. Qed.

Lemma preserves_bind {A B} (m : M A) (k : A -> M B) :
  preserves R m -> (forall a, preserves R (k a)) -> preserves R (bind m k).
Proof.
  intros Hm Hk st. unfold bind. specialize (Hm st).
  destruct (m st) as [[a|e] st1]; cbn [snd] in *; [|exact Hm].
  eapply R_trans; [exact Hm | apply Hk].
Qed.

Lemma preserves_for_each {A} (l : list A) (body : A -> M unit) :
  (forall x, preserves R (body x)) -> preserves R (for_each l body).
Proof.
  intros Hb. induction l as [|x l IH]; cbn [for_each].
  - apply preserves_ret.
  - apply preserves_bind; [apply Hb | intros _; exact IH].
Qed.

(** ** The methods that assign table keys *)

Section Assigning.

(** the keys [R] allows to be assigned *)
Variable P : string -> Prop.
Hypothesis R_env_set : forall k v, P k -> preserves R (env_set k v).
Hypothesis R_log : forall msg, preserves R (logger_log msg).
Hypothesis R_error : forall msg, preserves R (logger_error msg).

Lemma preserves_check_loop (inp : inputs) (variables : list string) (n : nat) :
  (forall v, In v variables -> P v) ->
  preserves R (check_loop inp variables n).
Proof.
  revert n. induction variables as [|v rest IH]; intros n HP; cbn [check_loop].
  - apply preserves_ret.
  - destruct (negb (py_truthy (environ_get (os_environ inp) v PNone)));
      (apply preserves_bind;
       [first [apply R_log | apply R_env_set, HP; now left]
       | intros _; apply IH; intros w Hw; apply HP; now right]).
Qed.

Lemma preserves_init (inp : inputs) :
  P "PYTHONIOENCODING" -> P "PATH" ->
  (forall v, In v prerequisite_environment_variables -> P v) ->
  preserves R (init inp).
Proof.
  intros H1 H2 H3. unfold init, check_prerequisites.
  apply preserves_bind; [now apply R_env_set | intros _].
  apply preserves_bind; [apply preserves_lift | intros path].
  apply preserves_bind.
  - destruct (negb (PyStr.contains (module_path inp) path));
      [now apply R_env_set | apply preserves_ret].
  - intros _. apply preserves_bind; [now apply preserves_check_loop | intros missing].
    destruct (0 <? missing)%nat; [apply preserves_raise | apply preserves_ret].
Qed.

Lemma preserves_resolve_master (loc : spark_locals) : preserves R (resolve_master loc).
Proof.
  unfold resolve_master. destruct (spark_master loc) as [master|];
    [|apply preserves_raise].
  destruct (PyStr.truthy master && negb (PyStr.contains "$" master));
    [apply preserves_ret|].
  destruct (PyStr.truthy (spark_host loc) && PyStr.truthy (spark_port loc));
    [apply preserves_ret|].
  repeat (apply preserves_bind; [auto | intros _]). apply preserves_ret.
Qed.

Lemma preserves_discover_master (inp : inputs) : preserves R (discover_master inp).
Proof.
  unfold discover_master. destruct (bashrc inp); [|apply preserves_raise].
  apply preserves_bind; [apply preserves_lift | intros loc].
  apply preserves_resolve_master.
Qed.

Lemma preserves_set_from (inp : inputs) (key : string) (stored : result pyobj) :
  P key -> preserves R (set_from inp key stored).
Proof.
  intros HP. unfold set_from. apply preserves_bind; [apply preserves_lift | intros ?].
  now apply R_env_set.
Qed.

Lemma preserves_set_path (strappend : pyobj -> string -> result pyobj)
    (key : string) (stored : result pyobj) :
  P key -> preserves R (set_path strappend key stored).
Proof.
  intros HP. unfold set_path. apply preserves_bind; [apply preserves_lift | intros ?].
  apply preserves_bind; [apply preserves_lift | intros ?]. now apply R_env_set.
Qed.

Lemma preserves_assemble_environment
    (strappend get_local_path : pyobj -> string -> result pyobj)
    (inp : inputs) (config : pyobj) :
  (forall k, In k assembled_keys -> P k) ->
  preserves R (assemble_environment strappend get_local_path inp config).
Proof.
  intros HP. unfold assemble_environment.
  assert (Hk : forall k, in_list k assembled_keys = true -> P k)
    by (intros k Hk; now apply HP, in_list_iff).
  apply preserves_bind; [apply preserves_discover_master | intros master].
  apply preserves_bind; [apply R_env_set, Hk; reflexivity | intros _].
  repeat (apply preserves_bind;
          [apply preserves_set_from, Hk; reflexivity | intros _]).
  repeat (apply preserves_bind;
          [apply preserves_set_path, Hk; reflexivity | intros _]).
  apply preserves_set_path, Hk. reflexivity.
Qed.

End Assigning.

(** ** The methods that write files *)

Section Writing.

Variable py_repr : pyobj -> string.
Hypothesis R_fs_do : forall refused ev, preserves R (fs_do refused ev).
Hypothesis R_log : forall msg, preserves R (logger_log msg).

Lemma preserves_write_config (inp : inputs) : preserves R (write_config py_repr inp).
Proof.
  intros st. unfold write_config.
  apply (preserves_bind (fs_do _ _) (fun _ => logger_log _)); [apply R_fs_do|].
  intros _. apply R_log.
Qed.

Lemma preserves_write_s3_config (inp : inputs) :
  preserves R (write_s3_config py_repr inp).
Proof.
  unfold write_s3_config.
  apply preserves_bind; [apply preserves_env_get | intros raw].
  apply preserves_bind; [apply preserves_lift | intros endpoint]. cbv zeta.
  apply preserves_bind; [apply preserves_env_get | intros access].
  apply preserves_bind; [apply preserves_env_get | intros secret].
  apply R_fs_do.
Qed.

Lemma preserves_write_to_file (inp : inputs) (file_name : string) (lines : list string) :
  preserves R (write_to_file inp file_name lines).
Proof. unfold write_to_file. apply preserves_bind; [apply R_fs_do | intros _; apply R_fs_do]. Qed.

Lemma preserves_environment_path (key : string) : preserves R (environment_path key).
Proof.
  unfold environment_path.
  apply preserves_bind; [apply preserves_env_get | intros raw].
  apply preserves_bind; [apply preserves_lift | intros path]. apply preserves_ret.
Qed.

Lemma preserves_write_transfer_script (inp : inputs) (config : pyobj) :
  preserves R (write_transfer_script py_repr inp config).
Proof.
  unfold write_transfer_script.
  apply preserves_bind; [apply preserves_lift | intros entities].
  do 4 (apply preserves_bind; [apply preserves_environment_path | intros ?]).
  apply preserves_bind; [apply preserves_lift | intros download]. cbv zeta.
  apply preserves_bind; [apply preserves_write_to_file | intros _].
  apply preserves_write_to_file.
Qed.

Lemma preserves_write_ssh_key (inp : inputs) (config : pyobj) :
  preserves R (write_ssh_key py_repr inp config).
Proof.
  unfold write_ssh_key.
  apply preserves_bind; [apply preserves_lift | intros ssh_keys].
  apply preserves_bind; [apply preserves_lift | intros keys].
  apply preserves_for_each. intros key.
  do 4 (apply preserves_bind; [apply preserves_lift | intros ?]). cbv zeta.
  apply preserves_bind; [apply R_fs_do | intros _; apply R_fs_do].
Qed.

End Writing.

(** ** [set_config] and [main] *)

Section Whole.

Variable py_repr : pyobj -> string.
Variables strappend get_local_path : pyobj -> string -> result pyobj.
Variable P : string -> Prop.
Hypothesis R_env_set : forall k v, P k -> preserves R (env_set k v).
Hypothesis R_log : forall msg, preserves R (logger_log msg).
Hypothesis R_error : forall msg, preserves R (logger_error msg).
Hypothesis R_fs_do : forall refused ev, preserves R (fs_do refused ev).

Lemma preserves_set_config (inp : inputs) (config : pyobj) :
  (forall k, In k assembled_keys -> P k) ->
  preserves R (set_config py_repr strappend get_local_path inp config).
Proof.
  intros HP. unfold set_config.
  apply preserves_bind;
    [now apply (preserves_assemble_environment P) | intros _].
  apply preserves_bind; [now apply preserves_write_config | intros _].
  apply preserves_bind; [now apply preserves_write_s3_config | intros _].
  apply preserves_bind; [now apply preserves_write_transfer_script | intros _].
  now apply preserves_write_ssh_key.
Qed.


End Whole.

End Preserves.

(** ** The relations *)

Lemma same_fs_refl (s : state) : same_fs s s.
Proof. reflexivity. Qed.

Lemma same_fs_trans (a b c : state) : same_fs a b -> same_fs b c -> same_fs a c.
Proof. unfold same_fs. congruence. Qed.



Lemma grows_fs_refl (s : state) : grows_fs s s.
Proof. exists []. now rewrite app_nil_r. Qed.

Lemma grows_fs_trans (a b c : state) : grows_fs a b -> grows_fs b c -> grows_fs a c.
Proof.
  intros [r1 H1] [r2 H2]. exists (r1 ++ r2)%list. now rewrite H2, H1, app_assoc.
Qed.



Lemma same_outside_refl (keys : list string) (s : state) : same_outside keys s s.
Proof. intros k _. reflexivity. Qed.

Lemma same_outside_trans (keys : list string) (a b c : state) :
  same_outside keys a b -> same_outside keys b c -> same_outside keys a c.
Proof. intros H1 H2 k Hk. now rewrite (H2 k Hk), (H1 k Hk). Qed.

Lemma same_outside_env_set (keys : list string) (k : string) (v : pyobj) :
  In k keys -> preserves (same_outside keys) (env_set k v).
Proof.
  intros Hin st k' Hk'. cbn. apply od_get_set_other. intros ->. contradiction.
Qed.


Lemma init_keeps_fs (inp : inputs) : preserves same_fs (init inp).
Proof.
  apply (preserves_init same_fs_refl same_fs_trans (fun _ => True));
    try (intros; intros st; reflexivity); auto.
Qed.

Lemma assemble_environment_keeps_fs
    (strappend get_local_path : pyobj -> string -> result pyobj)
    (inp : inputs) (config : pyobj) :
  preserves same_fs (assemble_environment strappend get_local_path inp config).
Proof.
  apply (preserves_assemble_environment same_fs_refl same_fs_trans (fun _ => True));
    try (intros; intros st; reflexivity); auto.
Qed.

(** X8.  No file is written before the table is complete: when a run
    leaves any file event, [init] and [assemble_environment] both
    returned normally.  A run that stops in either of them, with
    [SystemExit] or with an exception, writes nothing. *)
Theorem files_only_after_assembly
    (py_repr : pyobj -> string)
    (strappend get_local_path : pyobj -> string -> result pyobj)
    (inp : inputs) :
  fs (snd (run py_repr strappend get_local_path inp)) = []
  \/ exists config st1 st2,
       init inp initial_state = (Ok config, st1)
       /\ assemble_environment strappend get_local_path inp config st1 = (Ok tt, st2).
Proof.
  unfold run, main, set_config.
  pose proof (init_keeps_fs inp initial_state) as Hi.
  unfold bind at 1. destruct (init inp initial_state) as [[config|e] st1] eqn:Ei;
    cbn [snd] in *; [|left; exact Hi].
  pose proof (assemble_environment_keeps_fs strappend get_local_path inp config st1) as Ha.
  unfold bind at 1.
  destruct (assemble_environment strappend get_local_path inp config st1)
    as [[[]|e] st2] eqn:Ea; cbn [snd] in *.
  - right. now exists config, st1, st2.
  - left. unfold same_fs in *. rewrite Ha, Hi. reflexivity.
Qed.

(** X9.  Whatever its outcome, [set_config] assigns no table key other
    than the fifteen derived keys: every other entry, in particular each
    prerequisite variable copied by [check_prerequisites], keeps its
    value. *)
Theorem set_config_keeps_other_entries
    (py_repr : pyobj -> string)
    (strappend get_local_path : pyobj -> string -> result pyobj)
    (inp : inputs) (config : pyobj) (st : state) (k : string) :
  ~ In k assembled_keys ->
  assoc_get (environment (snd (set_config py_repr strappend get_local_path inp config st))) k
  = assoc_get (environment st) k.
Proof.
  intros Hk.
  assert (H : preserves (same_outside assembled_keys)
                (set_config py_repr strappend get_local_path inp config)).
  { apply (preserves_set_config (same_outside_refl assembled_keys)
             (same_outside_trans assembled_keys) py_repr strappend get_local_path
             (fun k => In k assembled_keys)).
    - intros k' v Hin. now apply same_outside_env_set.
    - intros msg st' k' _. reflexivity.
    - intros msg st' k' _. reflexivity.
    - intros r ev st' k' _. unfold fs_do. now destruct (r (fs st') ev).
    - auto. }
  exact (H st k Hk).
Qed.


(* ================================================================== *)
(** * Further properties: __init__, set_config and main *)

Lemma od_set_absent (env : odict) (k : string) (v : pyobj) :
  ~ In k (od_keys env) -> od_set env k v = (env ++ [(k, v)])%list.
Proof.
  induction env as [|[k' v'] r IH]; intros H; [reflexivity|].
  cbn [od_set]. destruct (String.eqb_spec k' k) as [->|Hne].
  - exfalso. apply H. now left.
  - cbn [app]. f_equal. apply IH. intros Hin. apply H. now right.
Qed.

Lemma copy_present_appends (e : environ) (variables : list string) (env : odict) :
  (forall v, In v variables -> is_missing e v = false) ->
  NoDup variables ->
  (forall v, In v variables -> ~ In v (od_keys env)) ->
  copy_present e variables env
  = (env ++ map (fun v => (v, environ_get e v PNone)) variables)%list.
Proof.
  revert env. induction variables as [|v rest IH]; intros env Hm Hnd Hfresh.
  - cbn. now rewrite app_nil_r.
  - cbn [copy_present map]. rewrite (Hm v (or_introl eq_refl)).
    inversion Hnd as [|? ? Hnotin Hnd']; subst.
    rewrite od_set_absent by (apply Hfresh; now left).
    rewrite IH; [now rewrite <- app_assoc | | exact Hnd' |].
    + intros w Hw. apply Hm. now right.
    + intros w Hw. unfold od_keys. rewrite map_app, in_app_iff. cbn.
      intros [Hin | [-> | []]]; [|contradiction].
      apply (Hfresh w); [now right | exact Hin].
Qed.

Lemma filter_nil_all {A} (f : A -> bool) (l : list A) :
  filter f l = [] -> forall x, In x l -> f x = false.
Proof.
  intros H x Hin. destruct (f x) eqn:E; [|reflexivity].
  assert (Hx : In x (filter f l)) by (apply filter_In; now split).
  rewrite H in Hx. contradiction.
Qed.

Lemma init_complete (inp : inputs) :
  filter (is_missing (os_environ inp)) prerequisite_environment_variables = [] ->
  let path := match assoc_get (os_environ inp) "PATH" with
              | Some p => p
              | None => EmptyString
              end in
  init inp initial_state
  = (Ok (stored_config inp),
     mkState
       ((("PYTHONIOENCODING", PStr "utf8")
         :: (if PyStr.contains (module_path inp) path then []
             else [("PATH", PStr ("${PATH}:" ++ module_path inp))]))
        ++ map (fun v => (v, environ_get (os_environ inp) v PNone))
               prerequisite_environment_variables)%list
       [] []).
Proof.
  intros Hnone path. unfold init.
  remember (check_prerequisites inp) as chk eqn:Hchk.
  assert (Hcheck : forall env,
             (forall v, In v prerequisite_environment_variables -> ~ In v (od_keys env)) ->
             bind chk (fun missing =>
               if (0 <? missing)%nat then raise (SystemExit 1)
               else ret (stored_config inp)) (mkState env [] [])
             = (Ok (stored_config inp),
                mkState (env ++ map (fun v => (v, environ_get (os_environ inp) v PNone))
                                    prerequisite_environment_variables)%list [] [])).
  { intros env Hfresh. unfold bind. subst chk. rewrite check_prerequisites_spec.
    rewrite Hnone. cbn [length Nat.ltb Nat.leb map environment logged fs app].
    rewrite copy_present_appends;
      [reflexivity | now apply filter_nil_all | apply prerequisites_nodup | exact Hfresh]. }
  unfold bind at 1 2 3. unfold env_set, lift, environ_get.
  cbn [initial_state environment logged fs od_set].
  assert (Hpath : match assoc_get (os_environ inp) "PATH" with
                  | Some v => PStr v
                  | None => PStr EmptyString
                  end = PStr path) by (unfold path; now destruct (assoc_get _ "PATH")).
  rewrite Hpath. cbn [as_str].
  destruct (PyStr.contains (module_path inp) path); cbn [negb].
  - unfold ret at 1. rewrite Hcheck; [reflexivity|].
    intros v Hin. cbn in Hin. cbn.
    intuition (subst; discriminate).
  - cbn [environment logged fs od_set String.eqb Ascii.eqb Bool.eqb].
    rewrite Hcheck; [reflexivity|].
    intros v Hin. cbn in Hin. cbn.
    intuition (subst; discriminate).
Qed.

(** X11.  [__init__] has two outcomes.  When no mandatory variable is
    missing it returns the stored configuration and leaves the table
    [PYTHONIOENCODING], then [PATH] (only when the module directory does
    not occur in [PATH] as a substring), then the seven mandatory
    variables in their declared order with their process-environment
    values, with nothing logged.  Otherwise it raises [SystemExit 1].
    In both cases no file is written. *)
Theorem init_table (inp : inputs) :
  let missing :=
    filter (is_missing (os_environ inp)) prerequisite_environment_variables in
  let path := match assoc_get (os_environ inp) "PATH" with
              | Some p => p
              | None => EmptyString
              end in
  (missing = [] ->
   init inp initial_state
   = (Ok (stored_config inp),
      mkState
        ((("PYTHONIOENCODING", PStr "utf8")
          :: (if PyStr.contains (module_path inp) path then []
              else [("PATH", PStr ("${PATH}:" ++ module_path inp))]))
         ++ map (fun v => (v, environ_get (os_environ inp) v PNone))
                prerequisite_environment_variables)%list
        [] []))
  /\ (missing <> [] ->
      fst (init inp initial_state) = Raise (SystemExit 1)
      /\ fs (snd (init inp initial_state)) = []).
Proof.
  intros missing path. split.
  - intros Hnone. exact (init_complete inp Hnone).
  - intros Hsome. destruct (init_exits_when_missing inp Hsome) as (st & E & Hfs).
    rewrite E. split; [reflexivity | exact Hfs].
Qed.

Lemma init_table_witness :
  od_keys (environment (snd (init precedence_input initial_state)))
  = (["PYTHONIOENCODING"; "PATH"] ++ prerequisite_environment_variables)%list
  /\ fst (init empty_host_input initial_state) = Raise (SystemExit 1).
Proof.
  split.
  - rewrite (proj1 (init_table precedence_input) eq_refl). reflexivity.
  - apply (proj2 (init_table empty_host_input)). vm_compute. discriminate.
Defined.

Lemma writes_under_refl (dir : string) (s : state) : writes_under dir s s.
Proof.
  repeat split. exists []. split; [now rewrite app_nil_r | constructor].
Qed.

Lemma writes_under_trans (dir : string) (a b c : state) :
  writes_under dir a b -> writes_under dir b c -> writes_under dir a c.
Proof.
  intros (E1 & L1 & r1 & F1 & A1) (E2 & L2 & r2 & F2 & A2).
  repeat split; [congruence | congruence |].
  exists (r1 ++ r2)%list. split; [now rewrite F2, F1, app_assoc | now apply Forall_app].
Qed.

Lemma writes_under_fs_do (dir : string)
    (refused : list fs_event -> fs_event -> bool) (ev : fs_event) :
  PyStr.startswith (event_name ev) dir = true ->
  preserves (writes_under dir) (fs_do refused ev).
Proof.
  intros H st. unfold fs_do. destruct (refused (fs st) ev); [apply writes_under_refl|].
  cbn. repeat split. exists [ev]. split; [reflexivity | now constructor].
Qed.

Section RunOrder.

Variable py_repr : pyobj -> string.
Variables strappend get_local_path : pyobj -> string -> result pyobj.

Lemma write_ssh_key_under (inp : inputs) (config : pyobj) :
  preserves (writes_under (home_directory inp ++ "/.ssh/"))
            (write_ssh_key py_repr inp config).
Proof.
  pose proof (writes_under_refl (home_directory inp ++ "/.ssh/")) as Hr.
  pose proof (writes_under_trans (home_directory inp ++ "/.ssh/")) as Ht.
  unfold write_ssh_key.
  apply (preserves_bind Ht); [apply (preserves_lift Hr) | intros ssh_keys].
  apply (preserves_bind Ht); [apply (preserves_lift Hr) | intros keys].
  apply (preserves_for_each Hr Ht). intros key.
  do 4 (apply (preserves_bind Ht); [apply (preserves_lift Hr) | intros ?]). cbv zeta.
  apply (preserves_bind Ht); [|intros _]; apply writes_under_fs_do; cbn [event_name];
    rewrite <- PyStrFacts.append_assoc; apply PyStrFacts.prefix_app.
Qed.

Lemma write_s3_config_ok (inp : inputs) (st st' : state) (u : unit) :
  write_s3_config py_repr inp st = (Ok u, st') ->
  exists text,
    st' = mkState (environment st) (logged st)
                  (fs st ++ [FWrite (home_directory inp ++ "/.s3cfg") text]).
Proof.
  unfold write_s3_config, bind, env_get, lift.
  destruct (as_str (get_or (environment st) "S3_ENDPOINT" (PStr ""))) as [endpoint|e];
    [|discriminate].
  destruct u. intros H. apply fs_do_ok in H as [_ ->]. now eexists.
Qed.

Lemma write_config_ok (inp : inputs) (st st' : state) (u : unit) :
  write_config py_repr inp st = (Ok u, st') ->
  st' = mkState (environment st)
                (logged st ++ [Log "environment written to ~/.c360cfg"])
                (fs st ++ [FWrite (home_directory inp ++ "/.c360cfg")
                                  (config_text py_repr (environment st))]).
Proof.
  unfold write_config. unfold bind. unfold fs_do.
  destruct (refused inp (fs st) _); [discriminate|].
  unfold logger_log. cbn [environment logged fs]. intros H. now inversion H.
Qed.

(** X12.  A [set_config] that returns normally has performed, in this
    order: the write of the export file, the write of the s3cmd
    configuration, the write of the download script and its
    [chmod 0700], the write of the upload script and its [chmod 0700],
    and after them only operations on names that are the string
    [<home>/.ssh/] followed by the [filename] of an entry of the [ssh]
    section.  The filename is not checked, so such a name can lead out
    of [~/.ssh] through [..].  The table is the one
    [assemble_environment] left. *)
Theorem set_config_write_order (inp : inputs) (config : pyobj) (st st' : state) :
  set_config py_repr strappend get_local_path inp config st = (Ok tt, st') ->
  exists st1 s3_text download upload ssh,
    assemble_environment strappend get_local_path inp config st = (Ok tt, st1)
    /\ environment st' = environment st1
    /\ transfer_scripts py_repr (environment st1) config = Ok (download, upload)
    /\ fs st'
       = (fs st
          ++ [FWrite (home_directory inp ++ "/.c360cfg")
                     (config_text py_repr (environment st1));
              FWrite (home_directory inp ++ "/.s3cfg") s3_text;
              FWrite (home_directory inp ++ "/download_files.sh") (PyStr.join_nl download);
              FChmod (home_directory inp ++ "/download_files.sh") mode_0700;
              FWrite (home_directory inp ++ "/upload_files.sh") (PyStr.join_nl upload);
              FChmod (home_directory inp ++ "/upload_files.sh") mode_0700]
          ++ ssh)%list
    /\ Forall (fun ev => exists file,
                           event_name ev = home_directory inp ++ "/.ssh/" ++ file) ssh.
Proof.
  intros H. unfold set_config in H.
  apply bind_ok in H as ([] & st1 & Ha & H).
  apply bind_ok in H as (u2 & st2 & Hc & H).
  apply bind_ok in H as (u3 & st3 & Hs & H).
  apply bind_ok in H as ([] & st4 & Ht & H).
  pose proof (assemble_environment_keeps_fs strappend get_local_path inp config st) as Hfs.
  rewrite Ha in Hfs. cbn [snd] in Hfs. unfold same_fs in Hfs.
  apply write_config_ok in Hc. subst st2.
  apply write_s3_config_ok in Hs as (s3_text & ->).
  apply write_transfer_script_ok in Ht as (d & up & Htr & ->).
  match type of H with
  | write_ssh_key _ _ _ ?s = _ =>
      pose proof (write_ssh_key_under inp config s) as (He & _ & ssh & Hf & Hall)
  end.
  cbn [environment logged fs] in *. rewrite H in He, Hf. cbn [snd] in He, Hf.
  exists st1, s3_text, d, up, ssh.
  split; [exact Ha|]. split; [exact He|]. split; [exact Htr|].
  split.
  - rewrite Hf, Hfs. unfold script_events. now rewrite <- !app_assoc.
  - eapply Forall_impl; [|exact Hall]. intros ev Hev.
    apply PyStrFacts.startswith_iff in Hev as [file Hfile].
    exists file. now rewrite Hfile, PyStrFacts.append_assoc.
Qed.

(** X13.  [set_config] is not atomic.  Once [assemble_environment] has
    returned, the first file operation is the write of the export file
    with the assembled table.  When the file system accepts it, it is
    the first new operation performed whatever happens in the later
    steps: nothing is rolled back when [write_s3_config],
    [write_transfer_script] or [write_ssh_key] raises.  (This is about
    the operations performed, not about the final content of the file.)
    When the file system refuses it, [set_config] raises
    [IOError] there: nothing is written or logged and none of the later
    steps runs. *)
Theorem export_file_written_before_later_steps
    (inp : inputs) (config : pyobj) (st st1 : state) :
  assemble_environment strappend get_local_path inp config st = (Ok tt, st1) ->
  let export :=
    FWrite (home_directory inp ++ "/.c360cfg") (config_text py_repr (environment st1)) in
  (refused inp (fs st) export = false ->
   exists rest,
     fs (snd (set_config py_repr strappend get_local_path inp config st))
     = (fs st ++ export :: rest)%list)
  /\ (refused inp (fs st) export = true ->
      set_config py_repr strappend get_local_path inp config st = (Raise IOError, st1)).
Proof.
  intros Ha export.
  pose proof (assemble_environment_keeps_fs strappend get_local_path inp config st) as Hfs.
  rewrite Ha in Hfs. cbn [snd] in Hfs. unfold same_fs in Hfs.
  split; intros Hr; rewrite <- Hfs in Hr.
  - unfold set_config. unfold bind at 1. rewrite Ha.
    unfold bind at 1. unfold write_config at 1. unfold bind at 1.
    fold export. rewrite (fs_do_accepted _ _ _ Hr).
    unfold logger_log at 1. cbn [environment logged fs].
    match goal with
    | |- context [snd (?m ?s)] =>
        assert (Hg : preserves grows_fs m)
    end.
    { assert (Hdo : forall r ev, preserves grows_fs (fs_do r ev)).
      { intros r ev s. unfold fs_do. destruct (r (fs s) ev);
          [apply grows_fs_refl | exists [ev]; reflexivity]. }
      apply (preserves_bind grows_fs_trans);
        [apply (preserves_write_s3_config grows_fs_refl grows_fs_trans); exact Hdo
        | intros _].
      apply (preserves_bind grows_fs_trans);
        [apply (preserves_write_transfer_script grows_fs_refl grows_fs_trans); exact Hdo
        | intros _].
      apply (preserves_write_ssh_key grows_fs_refl grows_fs_trans). exact Hdo. }
    match goal with
    | |- context [snd (?m ?s)] => destruct (Hg s) as [rest Hrest]
    end.
    exists rest. rewrite Hrest. cbn [fs]. rewrite Hfs. now rewrite <- app_assoc.
  - unfold set_config. unfold bind at 1. rewrite Ha.
    unfold bind at 1. unfold write_config at 1. unfold bind at 1.
    fold export. now rewrite (fs_do_refused _ _ _ Hr).
Qed.






End RunOrder.

(* ================================================================== *)
(** * Further properties: the scan of the host file *)

Lemma scan_line_fields (loc : spark_locals) (line : string) :
  exists loc',
    scan_line loc line = Ok loc'
    /\ forall f,
         (PyStr.contains (field_pattern f) line = true ->
          exists v, assigned_value line = Ok v /\ field_value f loc' = Some v)
         /\ (PyStr.contains (field_pattern f) line = false ->
             field_value f loc' = field_value f loc).
Proof.
  unfold scan_line.
  destruct (assigned_value line) as [v|e] eqn:Ev.
  - destruct (PyStr.contains "SPARK_MASTER_HOST=" line) eqn:Hh;
      destruct (PyStr.contains "SPARK_MASTER_PORT=" line) eqn:Hp;
      destruct (PyStr.contains "SPARK_MASTER=" line) eqn:Hm;
      cbn [rbind spark_host spark_port spark_master];
      (eexists; split; [reflexivity|]);
      intros f; destruct f;
      cbn [field_pattern field_value spark_host spark_port spark_master];
      rewrite ?Hh, ?Hp, ?Hm; (split; intros Hc);
      try discriminate Hc; try reflexivity; (exists v; split; reflexivity).
  - assert (Hnone : forall sub, PyStr.has_char "="%char sub = true ->
                                PyStr.contains sub line = false).
    { intros sub Hs. destruct (PyStr.contains sub line) eqn:Hc; [|reflexivity].
      destruct (assigned_value_ok sub line Hc Hs) as (v & Ev'). congruence. }
    rewrite !Hnone by reflexivity. cbn [rbind].
    exists loc. split; [reflexivity|].
    intros f. split; intros Hc; [|reflexivity].
    rewrite Hnone in Hc by (now destruct f). discriminate.
Qed.

Lemma scan_lines_total (lines : list string) (loc : spark_locals) :
  exists loc', scan_lines loc lines = Ok loc'.
Proof.
  revert loc. induction lines as [|l rest IH]; intros loc; [now exists loc|].
  destruct (scan_line_fields loc l) as (loc1 & E & _).
  cbn [scan_lines]. rewrite E. cbn [rbind]. apply IH.
Qed.

Lemma scan_lines_app (a b : list string) (loc : spark_locals) :
  scan_lines loc (a ++ b) = rbind (scan_lines loc a) (fun loc' => scan_lines loc' b).
Proof.
  revert loc. induction a as [|l a IH]; intros loc; [reflexivity|].
  cbn [app scan_lines]. destruct (scan_line loc l) as [loc1|e]; [|reflexivity].
  cbn [rbind]. apply IH.
Qed.

Lemma scan_lines_keep_field (f : field) (lines : list string) (loc : spark_locals) :
  (forall l, In l lines -> PyStr.contains (field_pattern f) l = false) ->
  exists loc', scan_lines loc lines = Ok loc' /\ field_value f loc' = field_value f loc.
Proof.
  revert loc. induction lines as [|l rest IH]; intros loc H; [now exists loc|].
  destruct (scan_line_fields loc l) as (loc1 & E & Hf).
  destruct (IH loc1 (fun x Hx => H x (or_intror Hx))) as (loc2 & E2 & K2).
  exists loc2. cbn [scan_lines]. rewrite E. cbn [rbind]. split; [exact E2|].
  rewrite K2. apply (Hf f). apply H. now left.
Qed.

Lemma scan_lines_last (f : field) (pre post : list string) (l : string)
    (loc : spark_locals) :
  PyStr.contains (field_pattern f) l = true ->
  (forall l', In l' post -> PyStr.contains (field_pattern f) l' = false) ->
  exists loc' v,
    scan_lines loc (pre ++ l :: post) = Ok loc'
    /\ assigned_value l = Ok v
    /\ field_value f loc' = Some v.
Proof.
  intros Hl Hpost. rewrite scan_lines_app.
  destruct (scan_lines_total pre loc) as (loc0 & ->). cbn [rbind scan_lines].
  destruct (scan_line_fields loc0 l) as (loc1 & -> & Hf). cbn [rbind].
  destruct (proj1 (Hf f) Hl) as (v & Ev & Fv).
  destruct (scan_lines_keep_field f post loc1 Hpost) as (loc2 & E2 & K2).
  exists loc2, v. repeat split; [exact E2 | exact Ev | congruence].
Qed.

(** X15.  The scan of the host file never raises: a line that contains
    one of the three patterns contains [=], so the index [[1]] of
    [split("=", 1)] always exists. *)
Theorem scan_never_raises (lines : list string) (loc : spark_locals) :
  (exists loc', scan_lines loc lines = Ok loc')
  /\ forall l f, PyStr.contains (field_pattern f) l = true ->
                 exists before after,
                   PyStr.split1 "="%char l = Some (before, after)
                   /\ assigned_value l = Ok (PyStr.strip_nl after).
Proof.
  split; [apply scan_lines_total|].
  intros l f Hc.
  assert (Hs : PyStr.has_char "="%char (field_pattern f) = true) by (now destruct f).
  destruct (PyStrFacts.split1_has_char "="%char l) as (a & b & E).
  - eapply PyStrFacts.contains_has_char; eassumption.
  - exists a, b. split; [exact E|]. unfold assigned_value. now rewrite E.
Qed.

(** X16.  The last assignment wins: for each of the three variables, the
    local after the scan holds the value of the last line that contains
    its pattern, which is the text after the first [=] of that line
    without leading and trailing line breaks. *)
Theorem last_assignment_wins (f : field) (pre post : list string) (l : string)
    (loc : spark_locals) :
  PyStr.contains (field_pattern f) l = true ->
  (forall l', In l' post -> PyStr.contains (field_pattern f) l' = false) ->
  exists loc' before after,
    scan_lines loc (pre ++ l :: post) = Ok loc'
    /\ PyStr.split1 "="%char l = Some (before, after)
    /\ field_value f loc' = Some (PyStr.strip_nl after).
Proof.
  intros Hl Hpost.
  destruct (scan_lines_last f pre post l loc Hl Hpost) as (loc' & v & E & Ev & Fv).
  unfold assigned_value in Ev.
  destruct (PyStr.split1 "="%char l) as [[a b]|] eqn:Es; [|discriminate].
  inversion Ev; subst v. now exists loc', a, b.
Qed.

Lemma last_assignment_wins_witness :
  exists loc',
    scan_lines (mkLocals "" "" None)
      [line "SPARK_MASTER_HOST=old"; line "export SPARK_MASTER_HOST=node1";
       line "SPARK_MASTER_PORT=7077"] = Ok loc'
    /\ field_value FHost loc' = Some "node1".
Proof.
  destruct (last_assignment_wins FHost [line "SPARK_MASTER_HOST=old"]
              [line "SPARK_MASTER_PORT=7077"] (line "export SPARK_MASTER_HOST=node1")
              (mkLocals "" "" None) eq_refl) as (loc' & a & b & E & Es & Fv).
  - intros l' [<-|[]]. reflexivity.
  - exists loc'. split; [exact E|]. rewrite Fv.
    vm_compute in Es. inversion Es. reflexivity.
Defined.

(** ** Well-formed assignment lines *)

Lemma contains_app_middle (sub a b : string) :
  PyStr.contains sub (a ++ sub ++ b) = true.
Proof.
  induction a as [|c a IH].
  - cbn [append]. destruct (sub ++ b) eqn:E.
    + destruct sub; [reflexivity | discriminate E].
    + cbn [PyStr.contains]. rewrite <- E, PyStrFacts.prefix_app. reflexivity.
  - cbn [append PyStr.contains]. rewrite IH. apply orb_true_r.
Qed.


Lemma rstrip_nl_one_line (s : string) :
  PyStr.one_line s = true -> PyStr.rstrip_nl s = s.
Proof.
  induction s as [|c r IH]; intros H; [reflexivity|].
  rewrite PyStrFacts.one_line_cons in H. apply andb_prop in H as [Hc Hr].
  apply negb_true_iff in Hc. cbn [PyStr.rstrip_nl]. rewrite (IH Hr), Hc.
  now destruct r.
Qed.

Lemma rstrip_nl_line (s : string) :
  PyStr.one_line s = true -> PyStr.rstrip_nl (s ++ PyStr.NL) = s.
Proof.
  induction s as [|c r IH]; intros H; [reflexivity|].
  rewrite PyStrFacts.one_line_cons in H. apply andb_prop in H as [Hc Hr].
  apply negb_true_iff in Hc. cbn [append PyStr.rstrip_nl]. rewrite (IH Hr), Hc.
  now destruct r.
Qed.

Lemma strip_nl_line (s : string) :
  PyStr.one_line s = true -> PyStr.strip_nl (s ++ PyStr.NL) = s.
Proof.
  intros H. unfold PyStr.strip_nl. destruct s as [|c r]; [reflexivity|].
  pose proof H as H'. rewrite PyStrFacts.one_line_cons in H'.
  apply andb_prop in H' as [Hc _]. apply negb_true_iff in Hc.
  cbn [append PyStr.lstrip_nl]. rewrite Hc.
  now apply (rstrip_nl_line (String c r)).
Qed.

Lemma split1_absent_prefix (c : ascii) (a b : string) :
  PyStr.has_char c a = false ->
  PyStr.split1 c (a ++ String c b) = Some (a, b).
Proof.
  induction a as [|x a IH]; intros H.
  - cbn. now rewrite Ascii.eqb_refl.
  - cbn [PyStr.has_char] in H. apply orb_false_elim in H as [Hx Ha].
    cbn [append PyStr.split1]. now rewrite Hx, (IH Ha).
Qed.

Lemma no_pattern_in_value (f : field) (h : string) :
  PyStr.has_char "="%char h = false ->
  PyStr.contains (field_pattern f) (h ++ PyStr.NL) = false.
Proof.
  intros H. apply PyStrFacts.has_char_absent with (c := "="%char).
  - now rewrite PyStrFacts.has_char_app, H.
  - now destruct f.
Qed.

(** X17.  A line [KEY=value] for one of the three variables, with a
    value that has no [=] and no line break, assigns exactly that value
    to the variable's local and leaves the two other locals alone (the
    pattern [SPARK_MASTER=] does not match the host and port lines). *)
Theorem assignment_line_round_trip (f : field) (h : string) (loc : spark_locals) :
  PyStr.has_char "="%char h = false -> PyStr.one_line h = true ->
  exists loc',
    scan_line loc (field_pattern f ++ h ++ PyStr.NL) = Ok loc'
    /\ field_value f loc' = Some h
    /\ forall f', f' <> f -> field_value f' loc' = field_value f' loc.
Proof.
  intros Heq Hline.
  destruct (scan_line_fields loc (field_pattern f ++ h ++ PyStr.NL)) as (loc' & E & Hf).
  exists loc'. split; [exact E|].
  pose proof (no_pattern_in_value FHost h Heq) as N1.
  pose proof (no_pattern_in_value FPort h Heq) as N2.
  pose proof (no_pattern_in_value FMaster h Heq) as N3.
  cbn [field_pattern] in N1, N2, N3.
  split.
  - destruct (proj1 (Hf f)) as (v & Ev & Fv).
    + apply (contains_app_middle (field_pattern f) EmptyString).
    + rewrite Fv. f_equal. unfold assigned_value in Ev.
      assert (Es : PyStr.split1 "="%char (field_pattern f ++ h ++ PyStr.NL)
                   = Some (match f with
                           | FHost => "SPARK_MASTER_HOST"
                           | FPort => "SPARK_MASTER_PORT"
                           | FMaster => "SPARK_MASTER"
                           end, h ++ PyStr.NL)) by (destruct f; reflexivity).
      rewrite Es in Ev. inversion Ev. now apply strip_nl_line.
  - intros f' Hne. apply (proj2 (Hf f')).
    destruct f, f'; try congruence; cbn [field_pattern append PyStr.contains];
      rewrite !PyStrFacts.prefix_cons; cbn [Ascii.eqb Bool.eqb andb orb];
      rewrite ?andb_false_r; cbn [orb]; assumption.
Qed.

(* ================================================================== *)
(** * Further properties: resolving the master address *)

Lemma last_match {A} (f : A -> bool) (l : list A) :
  existsb f l = true ->
  exists pre x post,
    l = (pre ++ x :: post)%list /\ f x = true /\ forall y, In y post -> f y = false.
Proof.
  induction l as [|a l IH]; intros H; [discriminate|].
  destruct (existsb f l) eqn:E.
  - destruct (IH eq_refl) as (pre & x & post & -> & Hx & Hpost).
    now exists (a :: pre), x, post.
  - cbn [existsb] in H. rewrite E, orb_false_r in H.
    exists [], a, l. repeat split; [exact H|].
    intros y Hy. destruct (f y) eqn:Ey; [|reflexivity].
    assert (Hex : existsb f l = true) by (apply existsb_exists; now exists y).
    congruence.
Qed.

Lemma existsb_false_all {A} (f : A -> bool) (l : list A) :
  existsb f l = false -> forall y, In y l -> f y = false.
Proof.
  intros H y Hy. destruct (f y) eqn:E; [|reflexivity].
  assert (Hex : existsb f l = true) by (apply existsb_exists; now exists y).
  congruence.
Qed.

Lemma resolve_master_bound (loc : spark_locals) (master : string) (st : state) :
  spark_master loc = Some master ->
  exists address st', resolve_master loc st = (Ok address, st').
Proof.
  intros Hm. unfold resolve_master. rewrite Hm.
  destruct (PyStr.truthy master && negb (PyStr.contains "$" master)); [now eexists; eexists|].
  destruct (PyStr.truthy (spark_host loc) && PyStr.truthy (spark_port loc));
    now eexists; eexists.
Qed.

(** X18.  Once the scan has bound [spark_master], resolution never
    raises and has three outcomes: a non-empty value without [$] is
    kept as it is; an empty value or one with [$] is replaced by
    [spark://HOST:PORT] when host and port are both non-empty; otherwise
    the value is kept, the three raw values are logged and an error is
    reported, and the assembly goes on. *)
Theorem master_resolution_cases (loc : spark_locals) (master : string) (st : state) :
  spark_master loc = Some master ->
  (master <> EmptyString -> PyStr.has_char "$"%char master = false ->
   resolve_master loc st = (Ok master, st))
  /\ (master = EmptyString \/ PyStr.has_char "$"%char master = true ->
      spark_host loc <> EmptyString -> spark_port loc <> EmptyString ->
      resolve_master loc st
      = (Ok ("spark://" ++ spark_host loc ++ ":" ++ spark_port loc), st))
  /\ (master = EmptyString \/ PyStr.has_char "$"%char master = true ->
      spark_host loc = EmptyString \/ spark_port loc = EmptyString ->
      resolve_master loc st
      = (Ok master,
         mkState (environment st)
                 (logged st ++ [Log ("spark host: " ++ spark_host loc);
                                Log ("spark port: " ++ spark_port loc);
                                Log ("spark master: " ++ master);
                                Error "Cannot build spark master."])
                 (fs st))).
Proof.
  intros Hm.
  assert (Hguard : master = EmptyString \/ PyStr.has_char "$"%char master = true ->
                   PyStr.truthy master && negb (PyStr.contains "$" master) = false).
  { intros [-> | Hd]; [reflexivity|].
    rewrite (PyStrFacts.contains_char "$"%char master), Hd. apply andb_false_r. }
  split; [|split].
  - intros Hne Hd. now apply resolve_master_verbatim.
  - intros Hu Hh Hp. unfold resolve_master. rewrite Hm, (Hguard Hu).
    destruct (spark_host loc); [congruence|]. destruct (spark_port loc); [congruence|].
    reflexivity.
  - intros Hu Hhp. unfold resolve_master. rewrite Hm, (Hguard Hu).
    assert (Hf : PyStr.truthy (spark_host loc) && PyStr.truthy (spark_port loc) = false).
    { destruct Hhp as [-> | ->]; [reflexivity | apply andb_false_r]. }
    rewrite Hf. unfold bind, logger_log, logger_error, ret.
    cbn [environment logged fs]. now rewrite <- !app_assoc.
Qed.

Lemma master_resolution_cases_witness :
  resolve_master (mkLocals "node1" "" (Some "spark://$SPARK_MASTER_HOST:7077"))
                 initial_state
  = (Ok "spark://$SPARK_MASTER_HOST:7077",
     mkState [] [Log "spark host: node1"; Log "spark port: ";
                 Log "spark master: spark://$SPARK_MASTER_HOST:7077";
                 Error "Cannot build spark master."] [])
  /\ resolve_master (mkLocals "node1" "7077" (Some "")) initial_state
     = (Ok "spark://node1:7077", initial_state)
  /\ resolve_master (mkLocals "" "" (Some "yarn")) initial_state
     = (Ok "yarn", initial_state).
Proof.
  split; [|split].
  - apply (master_resolution_cases
             (mkLocals "node1" "" (Some "spark://$SPARK_MASTER_HOST:7077"))
             "spark://$SPARK_MASTER_HOST:7077" initial_state eq_refl);
      [right; reflexivity | right; reflexivity].
  - apply (master_resolution_cases (mkLocals "node1" "7077" (Some "")) "" initial_state
             eq_refl); [left; reflexivity | discriminate | discriminate].
  - apply (master_resolution_cases (mkLocals "" "" (Some "yarn")) "yarn" initial_state
             eq_refl); [discriminate | reflexivity].
Defined.

(** X19.  The outcomes of the discovery: without the host file it raises
    [IOError]; with a host file in which no line contains
    [SPARK_MASTER=] it raises [UnboundLocalError]; as soon as one line
    contains it, it returns an address.  In the two failing cases the
    state is left as it was. *)
Theorem discover_master_outcomes (inp : inputs) (st : state) :
  match bashrc inp with
  | None => discover_master inp st = (Raise IOError, st)
  | Some lines =>
      if existsb (PyStr.contains "SPARK_MASTER=") lines
      then exists address st', discover_master inp st = (Ok address, st')
      else discover_master inp st = (Raise (UnboundLocalError "spark_master"), st)
  end.
Proof.
  unfold discover_master. destruct (bashrc inp) as [lines|]; [|reflexivity].
  destruct (existsb (PyStr.contains "SPARK_MASTER=") lines) eqn:E.
  - apply last_match in E as (pre & l & post & -> & Hl & Hpost).
    destruct (scan_lines_last FMaster pre post l (mkLocals "" "" None) Hl Hpost)
      as (loc & v & Es & _ & Fv).
    unfold bind, lift. rewrite Es. cbn [field_value] in Fv.
    apply (resolve_master_bound loc v st Fv).
  - destruct (scan_lines_keep_master lines (mkLocals "" "" None)
                (existsb_false_all _ _ E)) as (loc & Es & M).
    unfold bind, lift. rewrite Es. unfold resolve_master. rewrite M. reflexivity.
Qed.

(** X20.  A plain master line is used as it is: when the last line of
    the host file that contains [SPARK_MASTER=] has the form
    [<lead>SPARK_MASTER=<address>], with no [=] in the lead and a
    non-empty address without [=], [$] or line break, the discovery
    returns that address, whatever the host and port lines are, and
    logs nothing. *)
Theorem plain_master_line_is_used
    (inp : inputs) (st : state) (pre post : list string) (lead address : string) :
  bashrc inp
  = Some (pre ++ (lead ++ "SPARK_MASTER=" ++ address ++ PyStr.NL)%string :: post)%list ->
  (forall l, In l post -> PyStr.contains "SPARK_MASTER=" l = false) ->
  PyStr.has_char "="%char lead = false ->
  address <> EmptyString ->
  PyStr.has_char "="%char address = false ->
  PyStr.has_char "$"%char address = false ->
  PyStr.one_line address = true ->
  discover_master inp st = (Ok address, st).
Proof.
  intros Hb Hpost Hpre Hne Heq Hd Hline. unfold discover_master. rewrite Hb.
  destruct (scan_lines_last FMaster pre post
              (lead ++ "SPARK_MASTER=" ++ address ++ PyStr.NL)
              (mkLocals "" "" None)) as (loc & v & Es & Ev & Fv).
  - apply (contains_app_middle "SPARK_MASTER=").
  - exact Hpost.
  - unfold bind, lift. rewrite Es. cbn [field_value] in Fv.
    assert (Hv : v = address).
    { unfold assigned_value in Ev.
      assert (Esplit : PyStr.split1 "="%char
                         (lead ++ "SPARK_MASTER=" ++ address ++ PyStr.NL)
                       = Some (lead ++ "SPARK_MASTER", address ++ PyStr.NL)).
      { replace (lead ++ "SPARK_MASTER=" ++ address ++ PyStr.NL)
          with ((lead ++ "SPARK_MASTER") ++ String "="%char (address ++ PyStr.NL))
          by (now rewrite PyStrFacts.append_assoc).
        apply split1_absent_prefix. now rewrite PyStrFacts.has_char_app, Hpre. }
      rewrite Esplit in Ev. inversion Ev. now apply strip_nl_line. }
    subst v. now apply resolve_master_verbatim.
Qed.

Lemma plain_master_line_is_used_witness :
  discover_master precedence_input initial_state = (Ok "spark://node1:7077", initial_state).
Proof.
  apply (plain_master_line_is_used precedence_input initial_state
           [line "export SPARK_MASTER_HOST=node1"; line "export SPARK_MASTER_PORT=7077"]
           [] "export " "spark://node1:7077");
    try reflexivity; [intros l [] | discriminate].
Defined.

(* ================================================================== *)
(** * Further properties: the derived keys *)

Section DerivedKeyFacts.

Variables strappend get_local_path : pyobj -> string -> result pyobj.

(** X21.  For [C360_CLIENT], the three bucket keys and the three S3
    keys, a variable that is set in the process environment is what the
    table holds after a successful assembly, whatever the store says,
    and also when its value is the empty string. *)
Theorem environment_value_wins
    (inp : inputs) (config : pyobj) (st st' : state) (key value : string) :
  assemble_environment strappend get_local_path inp config st = (Ok tt, st') ->
  In key environ_first_keys ->
  assoc_get (os_environ inp) key = Some value ->
  assoc_get (environment st') key = Some (PStr value).
Proof.
  intros H Hin Hval.
  pose proof (assemble_environment_entries strappend get_local_path inp config st st' H)
    as E. cbv zeta in E.
  destruct E as (E1 & E2 & E3 & E4 & E5 & E6 & E7 & _).
  cbn [environ_first_keys In] in Hin.
  destruct Hin as [<-|[<-|[<-|[<-|[<-|[<-|[<-|[]]]]]]]];
    [destruct E1 as (fb & _ & ->) | destruct E2 as (fb & _ & ->)
    | destruct E3 as (fb & _ & ->) | destruct E4 as (fb & _ & ->)
    | destruct E5 as (fb & _ & ->) | destruct E6 as (fb & _ & ->)
    | destruct E7 as (fb & _ & ->)];
    unfold environ_get; now rewrite Hval.
Qed.

(** X22.  The four path keys do not depend on the process environment:
    two successful assemblies over the same store, with any two process
    environments, host files and starting tables, leave the same
    [C360_SOURCE_PATH], [C360_INTERMEDIATE_PATH], [C360_TARGET_PATH] and
    [C360_TEMP_PATH]. *)
Theorem path_keys_ignore_environment
    (inp inp' : inputs) (config : pyobj) (st st' st1 st1' : state) (key : string) :
  assemble_environment strappend get_local_path inp config st = (Ok tt, st1) ->
  assemble_environment strappend get_local_path inp' config st' = (Ok tt, st1') ->
  In key store_path_keys ->
  assoc_get (environment st1) key = assoc_get (environment st1') key.
Proof.
  intros H H' Hin.
  pose proof (assemble_environment_entries strappend get_local_path inp config st st1 H)
    as E. cbv zeta in E.
  destruct E as (_ & _ & _ & _ & _ & _ & _ & E8 & E9 & E10 & E11).
  pose proof (assemble_environment_entries strappend get_local_path inp' config st' st1' H')
    as F. cbv zeta in F.
  destruct F as (_ & _ & _ & _ & _ & _ & _ & F8 & F9 & F10 & F11).
  cbn [store_path_keys In] in Hin.
  destruct Hin as [<-|[<-|[<-|[<-|[]]]]].
  - destruct E8 as (v & p & S & A & ->). destruct F8 as (v' & p' & S' & A' & ->). congruence.
  - destruct E9 as (v & p & S & A & ->). destruct F9 as (v' & p' & S' & A' & ->). congruence.
  - destruct E10 as (v & p & S & A & ->). destruct F10 as (v' & p' & S' & A' & ->).
    congruence.
  - destruct E11 as (v & p & S & A & ->). destruct F11 as (v' & p' & S' & A' & ->).
    congruence.
Qed.

(** X23.  The default of [C360_CLIENT] is not a constant: when the
    variable is unset and the store has no [general] section, or no
    [client] in it, the table takes the value of [C360_ENVIRONMENT] from
    the process environment. *)
Theorem client_defaults_to_environment_name
    (inp : inputs) (d : list (string * pyobj)) (st st' : state) (name : string) :
  assemble_environment strappend get_local_path inp (PDict d) st = (Ok tt, st') ->
  assoc_get (os_environ inp) "C360_CLIENT" = None ->
  assoc_get (os_environ inp) "C360_ENVIRONMENT" = Some name ->
  assoc_get d "general" = None
  \/ (exists g, assoc_get d "general" = Some (PDict g) /\ assoc_get g "client" = None) ->
  assoc_get (environment st') "C360_CLIENT" = Some (PStr name).
Proof.
  intros H Hc He Hstore.
  pose proof (assemble_environment_entries strappend get_local_path inp (PDict d) st st' H)
    as E. cbv zeta in E. destruct E as ((fb & S & ->) & _).
  unfold environ_get at 1. rewrite Hc.
  unfold config_get2, py_get, get_or, rbind, environ_get in S. rewrite He in S.
  destruct Hstore as [Hg | (g & Hg & Hcl)]; rewrite Hg in S.
  - cbn in S. now inversion S.
  - rewrite Hcl in S. now inversion S.
Qed.

(** X24.  The store lookup is evaluated before the process environment
    is consulted: when the [general] section of the store is present but
    is not a mapping, the assembly raises [AttributeError] at the first
    derived key, even if every variable is set in the process
    environment; [SPARK_MASTER] has already been assigned by then. *)
Theorem store_lookup_is_eager
    (inp : inputs) (config general : pyobj) (st st1 : state) (master : string) :
  py_get config "general" (PDict []) = Ok general ->
  (forall g, general <> PDict g) ->
  discover_master inp st = (Ok master, st1) ->
  assemble_environment strappend get_local_path inp config st
  = (Raise AttributeError,
     mkState (od_set (environment st1) "SPARK_MASTER" (PStr master))
             (logged st1) (fs st1)).
Proof.
  intros Hg Hnd Hd. unfold assemble_environment.
  unfold bind at 1. rewrite Hd. unfold bind at 1. unfold env_set at 1.
  unfold bind at 1. unfold set_from at 1. unfold bind at 1. unfold lift at 1.
  unfold config_get2 at 1. rewrite Hg. cbn [rbind].
  destruct general as [| s | l | g]; try reflexivity.
  now destruct (Hnd g).
Qed.

End DerivedKeyFacts.

Lemma environment_value_wins_witness :
  assoc_get
    (environment
       (snd (assemble_environment strappend_on_str local_path_under_mount
               precedence_input precedence_config initial_state)))
    "C360_CLIENT"
  = Some (PStr "client-from-env").
Proof.
  apply (environment_value_wins strappend_on_str local_path_under_mount
           precedence_input precedence_config initial_state _ "C360_CLIENT"
           "client-from-env").
  - vm_compute. reflexivity.
  - cbn. auto.
  - reflexivity.
Defined.

(* ================================================================== *)
(** * Further properties: write_transfer_script *)

Section TransferFacts.

Variable py_repr : pyobj -> string.

(** X25.  [write_transfer_script] is not atomic.  When the line lists
    cannot be built it raises before any file operation, and the state
    is left as it was.  Otherwise it attempts, in this order, the write
    of the download script, its [chmod 0700], the write of the upload
    script and its [chmod 0700], and stops at the first one the file
    system refuses, raising [IOError] for a write and [OSError] for a
    [chmod]: the operations before it stay performed, so a refused write
    of the upload script leaves the download script written and
    executable. *)
Theorem transfer_script_partial_failure (inp : inputs) (config : pyobj) (st : state) :
  (forall e,
     transfer_scripts py_repr (environment st) config = Raise e ->
     write_transfer_script py_repr inp config st = (Raise e, st))
  /\ (forall download upload before ev after,
        transfer_scripts py_repr (environment st) config = Ok (download, upload) ->
        script_events (home_directory inp) download upload
        = (before ++ ev :: after)%list ->
        accepted (refused inp) (fs st) before = true ->
        refused inp (fs st ++ before) ev = true ->
        write_transfer_script py_repr inp config st
        = (Raise (refusal ev),
           mkState (environment st) (logged st) (fs st ++ before)))
  /\ (forall download upload,
        transfer_scripts py_repr (environment st) config = Ok (download, upload) ->
        let written :=
          [FWrite (home_directory inp ++ "/download_files.sh") (PyStr.join_nl download);
           FChmod (home_directory inp ++ "/download_files.sh") mode_0700] in
        accepted (refused inp) (fs st) written = true ->
        refused inp (fs st ++ written)
          (FWrite (home_directory inp ++ "/upload_files.sh") (PyStr.join_nl upload))
        = true ->
        write_transfer_script py_repr inp config st
        = (Raise IOError, mkState (environment st) (logged st) (fs st ++ written))).
Proof.
  rewrite write_transfer_script_writes. split; [|split].
  - intros e ->. reflexivity.
  - intros download upload before ev after -> Hsplit Hacc Href. rewrite Hsplit.
    now apply perform_refused.
  - intros download upload -> written Hacc Href.
    exact (perform_refused (refused inp) written
             [FChmod (home_directory inp ++ "/upload_files.sh") mode_0700]
             (FWrite (home_directory inp ++ "/upload_files.sh") (PyStr.join_nl upload))
             st Hacc Href).
Qed.

Lemma entity_blocks_app (sp : string) (entities : pyobj) (a b : list pyobj) :
  entity_blocks py_repr sp entities (a ++ b)
  = rbind (entity_blocks py_repr sp entities a)
          (fun x => rbind (entity_blocks py_repr sp entities b)
                          (fun y => Ok (x ++ y)%list)).
Proof.
  induction a as [|e a IH].
  - cbn [app entity_blocks rbind].
    now destruct (entity_blocks py_repr sp entities b).
  - cbn [app entity_blocks]. rewrite IH.
    match goal with
    | |- rbind ?h _ = _ => destruct h as [here|err]
    end; [|reflexivity].
    cbn [rbind]. destruct (entity_blocks py_repr sp entities a) as [x|err];
      [|reflexivity].
    cbn [rbind]. destruct (entity_blocks py_repr sp entities b) as [y|err];
      [|reflexivity].
    cbn [rbind]. now rewrite app_assoc.
Qed.

Lemma kpi_blocks_shaped_ok (sp : string) (subs : list pyobj) (groups : list (list string)) :
  Forall2 holds_files subs groups ->
  exists blocks, kpi_blocks py_repr sp subs = Ok blocks.
Proof.
  induction 1 as [|o files subs groups Ho _ (blocks & IH)]; [now exists []|].
  cbn [kpi_blocks]. rewrite (fetch_block_holds py_repr sp o files Ho), IH.
  now eexists.
Qed.

Lemma entity_blocks_shaped_ok (sp : string) (cat rest : list (string * pyobj))
    (leaves : list string) :
  (forall n o, In (n, o) rest -> assoc_get cat n = Some o) ->
  shaped rest leaves ->
  exists blocks,
    entity_blocks py_repr sp (PDict cat) (map (fun kv => PStr (fst kv)) rest) = Ok blocks.
Proof.
  intros Hget H. induction H as
    [|name o files rest leaves Hname Ho _ IH|subs groups rest leaves Hsubs _ IH].
  - now exists [].
  - destruct (IH (fun n o' Hin => Hget n o' (or_intror Hin))) as (blocks & E).
    cbn [map fst entity_blocks py_neq_str].
    apply String.eqb_neq in Hname. rewrite Hname. cbn [negb py_get_key].
    unfold get_or. rewrite (Hget name o (or_introl eq_refl)).
    cbn [rbind]. rewrite (fetch_block_holds py_repr sp o files Ho). cbn [rbind].
    rewrite E. now eexists.
  - destruct (IH (fun n o' Hin => Hget n o' (or_intror Hin))) as (blocks & E).
    destruct (kpi_blocks_shaped_ok sp subs groups Hsubs) as (kb & Ek).
    cbn [map fst entity_blocks py_neq_str String.eqb]. cbn [negb py_get_key].
    unfold get_or. rewrite (Hget "kpis" (PList subs) (or_introl eq_refl)).
    cbn [rbind py_iter]. rewrite Ek. cbn [rbind]. rewrite E. now eexists.
Qed.

(** X26.  The two shapes are told apart by the entity name only.  With
    a remote source path, an entity other than [kpis] whose value is not
    a mapping, or a [kpis] entity given in the flat shape (a non-empty
    mapping), makes the generator raise [AttributeError], also when the
    entities before it are well formed. *)
Theorem misplaced_shape_raises
    (tmp sp ip : string) (pre post : list (string * pyobj)) (name : string)
    (value : pyobj) (leaves : list string) :
  is_remote sp = true ->
  NoDup (map fst (pre ++ (name, value) :: post)) ->
  shaped pre leaves ->
  (name <> "kpis" /\ forall d, value <> PDict d)
  \/ (name = "kpis" /\ exists k v d, value = PDict ((k, v) :: d)) ->
  download_lines py_repr tmp sp ip (PDict (pre ++ (name, value) :: post))
  = Raise AttributeError.
Proof.
  intros Hr Hnd Hsh Hbad.
  set (cat := (pre ++ (name, value) :: post)%list) in *.
  assert (Hget : forall n o, In (n, o) cat -> assoc_get cat n = Some o)
    by (intros n o Hin; now apply assoc_get_in).
  destruct (entity_blocks_shaped_ok sp cat pre leaves) as (blocks & E);
    [intros n o Hin; apply Hget; unfold cat; apply in_or_app; now left | exact Hsh |].
  unfold download_lines. rewrite Hr. unfold source_download. cbn [py_iter rbind].
  unfold cat at 2. rewrite map_app, entity_blocks_app, E. cbn [rbind map fst].
  cbn [entity_blocks].
  assert (Hv : assoc_get cat name = Some value)
    by (apply Hget; unfold cat; apply in_or_app; right; now left).
  destruct Hbad as [(Hname & Hnd') | (-> & k & v & d & ->)].
  - cbn [py_neq_str]. apply String.eqb_neq in Hname. rewrite Hname.
    cbn [negb py_get_key]. unfold get_or. rewrite Hv. cbn [rbind].
    unfold fetch_block.
    destruct value as [| s | l | d]; try reflexivity. now destruct (Hnd' d).
  - cbn [py_neq_str String.eqb Ascii.eqb Bool.eqb negb py_get_key].
    unfold get_or. rewrite Hv. cbn [rbind py_iter map fst kpi_blocks].
    reflexivity.
Qed.

(** X27.  With a local source path the catalog is never inspected: any
    two stores whose [processing.entities] lookup succeeds give the same
    scripts, also a catalog that would raise with a remote source. *)
Theorem local_source_ignores_catalog
    (env : odict) (config config' entities entities' : pyobj) (sp : string) :
  config_get2 config "processing" "entities" (PDict []) = Ok entities ->
  config_get2 config' "processing" "entities" (PDict []) = Ok entities' ->
  table_path env "C360_SOURCE_PATH" = Ok sp ->
  is_remote sp = false ->
  transfer_scripts py_repr env config = transfer_scripts py_repr env config'.
Proof.
  intros Hc Hc' Hs Hl. unfold transfer_scripts. rewrite Hc, Hc', Hs. cbn [rbind].
  destruct (table_path env "C360_TEMP_PATH") as [tmp|]; [|reflexivity]. cbn [rbind].
  destruct (table_path env "C360_INTERMEDIATE_PATH") as [ip|]; [|reflexivity].
  cbn [rbind].
  destruct (table_path env "C360_TARGET_PATH") as [tp|]; [|reflexivity]. cbn [rbind].
  unfold download_lines. now rewrite Hl.
Qed.

End TransferFacts.

Lemma misplaced_shape_raises_witness :
  download_lines repr_opaque "/nfsmount/tmp/" "s3://bucket/in/" "/nfsmount/mid/"
    (PDict [("person", files_holder ["person_a.csv"]);
            ("kpis", files_holder ["kpi_x.csv"])])
  = Raise AttributeError.
Proof.
  apply (misplaced_shape_raises repr_opaque "/nfsmount/tmp/" "s3://bucket/in/"
           "/nfsmount/mid/" [("person", files_holder ["person_a.csv"])] []
           "kpis" (files_holder ["kpi_x.csv"]) (["person_a.csv"] ++ [])%list).
  - reflexivity.
  - repeat (constructor; [simpl; intuition discriminate|]). constructor.
  - apply shaped_flat; [discriminate | apply files_holder_holds | apply shaped_nil].
  - right. split; [reflexivity|]. now eexists; eexists; eexists.
Defined.

Lemma local_source_ignores_catalog_witness :
  transfer_scripts repr_opaque local_table mixed_config
  = transfer_scripts repr_opaque local_table
      (PDict [("processing", PDict [("entities", PList [PNone])])]).
Proof.
  apply (local_source_ignores_catalog repr_opaque local_table mixed_config _
           (PDict mixed_catalog) (PList [PNone]) "/nfsmount/in/"); reflexivity.
Defined.

(* ================================================================== *)
(** * The further properties on concrete inputs *)

Lemma s3_config_strips_scheme_witness :
  exists text,
    write_s3_config repr_opaque plain_input s3_state
    = (Ok tt,
       mkState (environment s3_state) [] [FWrite "/home/loader/.s3cfg" text])
    /\ PyStr.split_nl text
       = ["[default]"; "host_base = s3.example.org"; "host_bucket = s3.example.org";
          "access_key = access"; "secret_key = secret"; "use_https = true";
          "signature_v2 = false"; "enable_multipart = false"].
Proof.
  destruct (s3_config_strips_scheme repr_opaque plain_input s3_state
              "http://s3.example.org" "s3.example.org" eq_refl
              (or_intror (or_introl eq_refl)) eq_refl eq_refl eq_refl)
    as (text & L & Hok & _).
  exists text. split; [exact (Hok eq_refl) | exact L].
Defined.

Lemma s3_config_needs_string_endpoint_witness :
  write_s3_config repr_opaque plain_input null_endpoint_state
  = (Raise AttributeError, null_endpoint_state).
Proof.
  apply (s3_config_needs_string_endpoint repr_opaque plain_input null_endpoint_state).
  intros s. discriminate.
Defined.

Lemma ssh_section_nodup : NoDup (map fst ssh_section).
Proof. repeat (constructor; [simpl; intuition discriminate|]). constructor. Qed.

Lemma ssh_section_dicts : Forall (fun kv => exists d, snd kv = PDict d) ssh_section.
Proof. repeat (constructor; [now eexists|]). constructor. Qed.

Lemma ssh_keys_written_witness :
  write_ssh_key repr_opaque plain_input ssh_config initial_state
  = (Ok tt,
     mkState [] []
       [FWrite "/home/loader/.ssh/id_deploy" (line "DEPLOY-KEY");
        FChmod "/home/loader/.ssh/id_deploy" mode_0600;
        FWrite "/home/loader/.ssh/None" (line "BACKUP-KEY");
        FChmod "/home/loader/.ssh/None" mode_0600])
  /\ write_ssh_key repr_opaque no_ssh_directory_input ssh_config initial_state
     = (Raise IOError, initial_state).
Proof.
  split.
  - exact (proj1 (ssh_keys_written repr_opaque plain_input ssh_config ssh_section
                    initial_state eq_refl ssh_section_nodup ssh_section_dicts)
                 eq_refl).
  - exact (proj2 (proj2 (ssh_keys_written repr_opaque no_ssh_directory_input ssh_config
                           ssh_section initial_state eq_refl ssh_section_nodup
                           ssh_section_dicts))
                 "deploy" _ _ eq_refl eq_refl).
Defined.

Lemma ssh_keys_run_ok :
  write_ssh_key repr_opaque plain_input ssh_config initial_state
  = (Ok tt, snd (write_ssh_key repr_opaque plain_input ssh_config initial_state)).
Proof. vm_compute. reflexivity. Qed.

Lemma ssh_entry_without_filename_witness :
  In (FWrite "/home/loader/.ssh/None" (line "BACKUP-KEY"))
     (fs (snd (write_ssh_key repr_opaque plain_input ssh_config initial_state))).
Proof.
  apply (proj1 (ssh_entry_without_filename repr_opaque plain_input ssh_config ssh_section
                  initial_state _ "backup" [("key", PStr "BACKUP-KEY")]
                  eq_refl ssh_section_nodup ssh_section_dicts
                  (or_intror (or_introl eq_refl)) ssh_keys_run_ok)).
  reflexivity.
Defined.

Lemma ssh_section_absent_witness :
  write_ssh_key repr_opaque plain_input plain_config initial_state = (Ok tt, initial_state).
Proof.
  apply (ssh_section_absent repr_opaque plain_input initial_state). left. reflexivity.
Defined.

Lemma set_config_keeps_other_entries_witness :
  assoc_get
    (environment
       (snd (set_config repr_opaque strappend_on_str local_path_under_mount
               precedence_input precedence_config secret_state)))
    "CB_PASSWORD"
  = Some (PStr "pass word").
Proof.
  rewrite (set_config_keeps_other_entries repr_opaque strappend_on_str
             local_path_under_mount precedence_input precedence_config secret_state
             "CB_PASSWORD").
  - reflexivity.
  - cbn. intuition discriminate.
Defined.


Lemma keyed_set_config_ok :
  set_config repr_opaque strappend_on_str local_path_under_mount
    plain_input keyed_config initial_state
  = (Ok tt,
     snd (set_config repr_opaque strappend_on_str local_path_under_mount
            plain_input keyed_config initial_state)).
Proof. vm_compute. reflexivity. Qed.

Lemma set_config_write_order_witness :
  exists ssh,
    map event_name
        (fs (snd (set_config repr_opaque strappend_on_str local_path_under_mount
                    plain_input keyed_config initial_state)))
    = (["/home/loader/.c360cfg"; "/home/loader/.s3cfg";
        "/home/loader/download_files.sh"; "/home/loader/download_files.sh";
        "/home/loader/upload_files.sh"; "/home/loader/upload_files.sh"]
       ++ map event_name ssh)%list
    /\ Forall (fun ev => exists file, event_name ev = "/home/loader/.ssh/" ++ file) ssh
    /\ length ssh = 4.
Proof.
  destruct (set_config_write_order repr_opaque strappend_on_str local_path_under_mount
              plain_input keyed_config initial_state _ keyed_set_config_ok)
    as (st1 & s3 & d & u & ssh & _ & _ & _ & Hfs & Hall).
  exists ssh. split; [|split].
  - rewrite Hfs. reflexivity.
  - exact Hall.
  - apply (f_equal (@length fs_event)) in Hfs.
    rewrite !length_app in Hfs. vm_compute in Hfs.
    injection Hfs as Hlen. symmetry. exact Hlen.
Defined.

Lemma export_file_written_before_later_steps_witness :
  fst (set_config repr_opaque strappend_on_str local_path_under_mount
         plain_input broken_ssh_config initial_state)
  = Raise AttributeError
  /\ exists text rest,
       fs (snd (set_config repr_opaque strappend_on_str local_path_under_mount
                  plain_input broken_ssh_config initial_state))
       = FWrite "/home/loader/.c360cfg" text :: rest.
Proof.
  split; [vm_compute; reflexivity|].
  assert (Ha : assemble_environment strappend_on_str local_path_under_mount
                 plain_input broken_ssh_config initial_state
               = (Ok tt,
                  snd (assemble_environment strappend_on_str local_path_under_mount
                         plain_input broken_ssh_config initial_state)))
    by (vm_compute; reflexivity).
  destruct (proj1 (export_file_written_before_later_steps repr_opaque strappend_on_str
                     local_path_under_mount plain_input broken_ssh_config initial_state
                     _ Ha) eq_refl) as (rest & E).
  eexists. exists rest. exact E.
Defined.


Lemma assignment_line_round_trip_witness :
  exists loc',
    scan_line (mkLocals "old-host" "7077" None) (line "export SPARK_MASTER_HOST=node1")
    = Ok loc'
    /\ field_value FHost loc' = Some "node1"
    /\ forall f', f' <> FHost ->
                  field_value f' loc' = field_value f' (mkLocals "old-host" "7077" None).
Proof.
  exact (assignment_line_round_trip FHost "node1" (mkLocals "old-host" "7077" None)
           eq_refl eq_refl).
Defined.

Lemma path_keys_ignore_environment_witness :
  assoc_get
    (environment
       (snd (assemble_environment strappend_on_str local_path_under_mount
               precedence_input precedence_config initial_state)))
    "C360_SOURCE_PATH"
  = assoc_get
      (environment
         (snd (assemble_environment strappend_on_str local_path_under_mount
                 store_only_input precedence_config secret_state)))
      "C360_SOURCE_PATH".
Proof.
  apply (path_keys_ignore_environment strappend_on_str local_path_under_mount
           precedence_input store_only_input precedence_config
           initial_state secret_state).
  - vm_compute. reflexivity.
  - vm_compute. reflexivity.
  - left. reflexivity.
Defined.

Lemma client_defaults_to_environment_name_witness :
  assoc_get (os_environ plain_input) "C360_ENVIRONMENT" = Some "dev"
  /\ assoc_get
       (environment
          (snd (assemble_environment strappend_on_str local_path_under_mount
                  plain_input plain_config initial_state)))
       "C360_CLIENT"
     = Some (PStr "dev").
Proof.
  split; [reflexivity|].
  apply (client_defaults_to_environment_name strappend_on_str local_path_under_mount
           plain_input
           match plain_config with PDict d => d | _ => [] end
           initial_state
           (snd (assemble_environment strappend_on_str local_path_under_mount
                   plain_input plain_config initial_state))
           "dev").
  - vm_compute. reflexivity.
  - reflexivity.
  - reflexivity.
  - left. reflexivity.
Defined.

Lemma store_lookup_is_eager_witness :
  fst (assemble_environment strappend_on_str local_path_under_mount
         store_only_input broken_general_config initial_state)
  = Raise AttributeError.
Proof.
  rewrite (store_lookup_is_eager strappend_on_str local_path_under_mount
             store_only_input broken_general_config (PStr "n/a")
             initial_state initial_state "yarn").
  - reflexivity.
  - reflexivity.
  - intros g. discriminate.
  - vm_compute. reflexivity.
Defined.

Lemma transfer_script_partial_failure_witness :
  exists download,
    write_transfer_script repr_opaque upload_refused_input mixed_config remote_state
    = (Raise IOError,
       mkState remote_table []
         [FWrite "/home/loader/download_files.sh" download;
          FChmod "/home/loader/download_files.sh" mode_0700]).
Proof.
  assert (E : transfer_scripts repr_opaque (environment remote_state) mixed_config
              = Ok (fst (match transfer_scripts repr_opaque remote_table mixed_config with
                         | Ok p => p
                         | Raise _ => ([], [])
                         end),
                    snd (match transfer_scripts repr_opaque remote_table mixed_config with
                         | Ok p => p
                         | Raise _ => ([], [])
                         end)))
    by (vm_compute; reflexivity).
  eexists.
  exact (proj2 (proj2 (transfer_script_partial_failure repr_opaque upload_refused_input
                         mixed_config remote_state))
               _ _ E eq_refl eq_refl).
Defined.
